(** * The market-data acquisition layer of ai-hedge-fund

    A shallow embedding of [src/tools/api.py] (the Juhe provider) and
    [src/tools/api_east.py] (Sina, Eastmoney and financialdatasets), and the
    properties of their cache-then-fetch orchestration.

    Python strings are modelled as byte strings in UTF-8: comparing two such
    strings byte by byte orders them exactly as Python orders the strings by
    code point, and the ASCII separators the code looks for never occur inside
    a multi-byte character. *)

From Stdlib Require Import ZArith Lia List Bool Ascii String Sorted Permutation.
From Stdlib Require PrimFloat FloatOps SpecFloat.
From stdpp Require Import base gmap strings list.

Local Open Scope string_scope.
Local Open Scope list_scope.
Local Open Scope Z_scope.

(** ** Python values: string order, slices, stable sort *)

Module Py.

(** [a <= b], [a < b], [a >= b], [a > b] on [str]. *)
Definition le (a b : string) : bool := String.leb a b.
Definition lt (a b : string) : bool := String.ltb a b.
Definition ge (a b : string) : bool := String.leb b a.
Definition gt (a b : string) : bool := String.ltb b a.

(** Truth value of a [str]: only the empty string is falsy. *)
Definition str_truthy (s : string) : bool :=
  match s with EmptyString => false | String _ _ => true end.

(** Truth value of a list: only the empty list is falsy. *)
Definition nonempty {A} (l : list A) : bool :=
  match l with [] => false | _ :: _ => true end.

(** [l[:n]]: the first [n] elements; a negative [n] drops the last [-n]. *)
Definition slice_to {A} (n : Z) (l : list A) : list A :=
  if 0 <=? n then firstn (Z.to_nat n) l
  else firstn (length l - Z.to_nat (- n))%nat l.

(** [s.startswith(c)] for a one-character prefix. *)
Definition startswith (c : ascii) (s : string) : bool :=
  match s with
  | String c' _ => Ascii.eqb c' c
  | EmptyString => false
  end.

(** [s.split(c)[0]]: the part of [s] before the first occurrence of [c]. *)
Fixpoint split_head (c : ascii) (s : string) : string :=
  match s with
  | EmptyString => EmptyString
  | String c' s' => if Ascii.eqb c' c then EmptyString else String c' (split_head c s')
  end.

(** [s.replace(c, "")]. *)
Fixpoint remove_char (c : ascii) (s : string) : string :=
  match s with
  | EmptyString => EmptyString
  | String c' s' => if Ascii.eqb c' c then remove_char c s' else String c' (remove_char c s')
  end.

(** [s.split(c)] *)
Fixpoint split (c : ascii) (s : string) : list string :=
  match s with
  | EmptyString => [EmptyString]
  | String c' s' =>
      if Ascii.eqb c' c then EmptyString :: split c s'
      else match split c s' with
           | h :: t => String c' h :: t
           | [] => [String c' EmptyString]
           end
  end.

(** [min] of a sequence of strings known not to be empty. *)
Fixpoint min_str (d : string) (l : list string) : string :=
  match l with
  | [] => d
  | x :: l' => min_str (if lt x d then x else d) l'
  end.

Definition min_of (l : list string) : string :=
  match l with
  | [] => EmptyString
  | x :: l' => min_str x l'
  end.

Section Sort.
Context {A : Type} (key : A -> string).

(** [l.sort(key=key, reverse=True)]: Python's sort is stable, also when
    reversed, so the result is the one of a stable insertion sort by
    descending key. *)
Fixpoint insert_desc (x : A) (l : list A) : list A :=
  match l with
  | [] => [x]
  | y :: l' => if le (key y) (key x) then x :: y :: l' else y :: insert_desc x l'
  end.

Fixpoint sort_desc (l : list A) : list A :=
  match l with
  | [] => []
  | x :: l' => insert_desc x (sort_desc l')
  end.

(** Each element is followed only by elements whose key is not greater. *)
Definition desc (a b : A) : Prop := le (key b) (key a) = true.
Definition sorted_desc (l : list A) : Prop := StronglySorted desc l.
End Sort.

End Py.

(** ** Facts about the string order *)

Lemma ascii_compare_refl (a : ascii) : Ascii.compare a a = Eq.
Proof. unfold Ascii.compare. apply N.compare_refl. Qed.

Lemma string_compare_refl (s : string) : String.compare s s = Eq.
Proof. induction s as [|a s IH]; simpl; [reflexivity|]. now rewrite ascii_compare_refl. Qed.

Lemma ascii_compare_lt_trans (a b c : ascii) :
  Ascii.compare a b = Lt -> Ascii.compare b c = Lt -> Ascii.compare a c = Lt.
Proof. unfold Ascii.compare. rewrite !N.compare_lt_iff. lia. Qed.

Lemma string_compare_lt_trans (s1 s2 s3 : string) :
  String.compare s1 s2 = Lt -> String.compare s2 s3 = Lt -> String.compare s1 s3 = Lt.
Proof.
  revert s2 s3. induction s1 as [|a s1 IH]; intros [|b s2] [|c s3]; simpl; try congruence.
  destruct (Ascii.compare a b) eqn:Eab; try discriminate;
    destruct (Ascii.compare b c) eqn:Ebc; try discriminate; intros H1 H2.
  - apply Ascii.compare_eq_iff in Eab, Ebc. subst. rewrite ascii_compare_refl. eauto.
  - apply Ascii.compare_eq_iff in Eab. subst. now rewrite Ebc.
  - apply Ascii.compare_eq_iff in Ebc. subst. now rewrite Eab.
  - now rewrite (ascii_compare_lt_trans _ _ _ Eab Ebc).
Qed.

Lemma le_refl (a : string) : Py.le a a = true.
Proof. unfold Py.le, String.leb. now rewrite string_compare_refl. Qed.

Lemma le_trans (a b c : string) :
  Py.le a b = true -> Py.le b c = true -> Py.le a c = true.
Proof.
  unfold Py.le, String.leb.
  destruct (String.compare a b) eqn:Eab; try discriminate;
    destruct (String.compare b c) eqn:Ebc; try discriminate; intros _ _.
  - apply String.compare_eq_iff in Eab, Ebc. subst. now rewrite string_compare_refl.
  - apply String.compare_eq_iff in Eab. subst. now rewrite Ebc.
  - apply String.compare_eq_iff in Ebc. subst. now rewrite Eab.
  - now rewrite (string_compare_lt_trans _ _ _ Eab Ebc).
Qed.

Lemma le_total (a b : string) : Py.le a b = false -> Py.le b a = true.
Proof. unfold Py.le. destruct (String.leb_total a b); congruence. Qed.

Lemma lt_not_ge (a b : string) : Py.lt a b = negb (Py.ge a b).
Proof.
  unfold Py.lt, Py.ge, String.ltb, String.leb. rewrite (String.compare_antisym a b).
  now destruct (String.compare b a).
Qed.

Lemma gt_not_le (a b : string) : Py.gt a b = negb (Py.le a b).
Proof. unfold Py.gt, Py.le. apply (lt_not_ge b a). Qed.

Lemma le_empty (a : string) : Py.le "" a = true.
Proof. now destruct a. Qed.

(** ** Facts about the stable sort and about slices *)

Section SortFacts.
Context {A : Type} (key : A -> string).

Lemma insert_desc_perm (x : A) (l : list A) :
  Permutation (x :: l) (Py.insert_desc key x l).
Proof.
  induction l as [|y l IH]; simpl; [reflexivity|].
  destruct (Py.le (key y) (key x)); [reflexivity|].
  rewrite perm_swap. now apply perm_skip.
Qed.

Lemma sort_desc_perm (l : list A) : Permutation l (Py.sort_desc key l).
Proof.
  induction l as [|x l IH]; simpl; [reflexivity|].
  rewrite <- insert_desc_perm. now apply perm_skip.
Qed.

Lemma insert_desc_sorted (x : A) (l : list A) :
  Py.sorted_desc key l -> Py.sorted_desc key (Py.insert_desc key x l).
Proof.
  unfold Py.sorted_desc. induction l as [|y l IH]; simpl; intros Hs.
  - repeat constructor.
  - inversion Hs as [|? ? Hl Hy]; subst.
    destruct (Py.le (key y) (key x)) eqn:E.
    + constructor; [assumption|]. constructor; [exact E|].
      eapply Forall_impl; [exact Hy|]. intros z Hz. unfold Py.desc in *.
      eapply le_trans; eassumption.
    + constructor; [auto|].
      eapply Permutation_Forall; [apply insert_desc_perm|].
      constructor; [|assumption]. unfold Py.desc. now apply le_total.
Qed.

Lemma sort_desc_sorted (l : list A) : Py.sorted_desc key (Py.sort_desc key l).
Proof.
  induction l as [|x l IH]; simpl; [constructor|]. now apply insert_desc_sorted.
Qed.

(** A list already in descending order is left as it is. *)
Lemma sort_desc_id (l : list A) : Py.sorted_desc key l -> Py.sort_desc key l = l.
Proof.
  unfold Py.sorted_desc. induction l as [|x l IH]; simpl; intros Hs; [reflexivity|].
  inversion Hs as [|? ? Hl Hx]; subst. rewrite (IH Hl).
  destruct l as [|y l]; simpl; [reflexivity|].
  inversion Hx as [|? ? Hy _]; subst. unfold Py.desc in Hy. now rewrite Hy.
Qed.

Lemma sort_desc_length (l : list A) : length (Py.sort_desc key l) = length l.
Proof. symmetry. apply Permutation_length, sort_desc_perm. Qed.

Lemma sort_desc_Forall (P : A -> Prop) (l : list A) :
  Forall P l -> Forall P (Py.sort_desc key l).
Proof. apply Permutation_Forall, sort_desc_perm. Qed.

Lemma sort_desc_nonempty (l : list A) :
  Py.nonempty (Py.sort_desc key l) = Py.nonempty l.
Proof.
  pose proof (sort_desc_length l) as H.
  destruct l, (Py.sort_desc key (_ : list A)) eqn:E; simpl in *; try reflexivity;
    try discriminate.
  all: destruct (Py.sort_desc key _); simpl in *; congruence.
Qed.

Lemma sorted_desc_firstn (n : nat) (l : list A) :
  Py.sorted_desc key l -> Py.sorted_desc key (firstn n l).
Proof.
  unfold Py.sorted_desc. revert n. induction l as [|x l IH]; intros [|n] Hs; simpl;
    try constructor.
  - inversion Hs; subst. auto.
  - inversion Hs as [|? ? _ Hx]; subst. now apply Forall_take.
Qed.

Lemma sorted_desc_slice_to (n : Z) (l : list A) :
  Py.sorted_desc key l -> Py.sorted_desc key (Py.slice_to n l).
Proof. unfold Py.slice_to. destruct (0 <=? n); apply sorted_desc_firstn. Qed.
End SortFacts.

Lemma slice_to_length {A} (n : Z) (l : list A) :
  0 <= n -> Z.of_nat (length (Py.slice_to n l)) <= n.
Proof.
  intros Hn. unfold Py.slice_to. destruct (Z.leb_spec 0 n); [|lia].
  rewrite length_firstn. lia.
Qed.

Lemma slice_to_Forall {A} (P : A -> Prop) (n : Z) (l : list A) :
  Forall P l -> Forall P (Py.slice_to n l).
Proof.
  intros H. unfold Py.slice_to. destruct (0 <=? n); now apply Forall_take.
Qed.

Lemma slice_to_all {A} (n : Z) (l : list A) :
  Z.of_nat (length l) <= n -> Py.slice_to n l = l.
Proof.
  intros H. unfold Py.slice_to. destruct (Z.leb_spec 0 n); [|lia].
  apply firstn_all2. lia.
Qed.

(** ** Floating-point numbers and the clock

    The code only converts, tests and divides floats, and parses dates with
    the C library; these operations are taken as an interface. *)

Class Python (float : Type) := {
  (** [bool(x)]: false exactly for the zeros. *)
  float_truthy : float -> bool;
  (** [float(n)] for an [int]; [None] when it raises [OverflowError]. *)
  float_of_int : Z -> option float;
  (** [float(s)] for a [str]; [None] when it raises [ValueError]. *)
  float_of_str : string -> option float;
  (** [x / n] for a non-zero [int] literal [n]. *)
  float_div_int : float -> Z -> float;
  (** [int(time.mktime(datetime.strptime(s, "%Y-%m-%d").timetuple()))];
      [None] when the date does not parse. *)
  strptime_mktime : string -> option Z;
  (** [pd.to_datetime(s)] as a point in time; [None] when it raises. *)
  to_datetime : string -> option Z
}.

(** ** Parsed JSON *)

#[local] Set Warnings "-register-all".

Inductive json {float : Type} : Type :=
| JNull
| JBool (b : bool)
| JInt (n : Z)
| JFloat (x : float)
| JStr (s : string)
| JList (l : list json)
| JDict (d : list (string * json)).
Arguments json : clear implicits.

(** ** Exceptions

    An exception is kept as the data its message is built from. *)

Inductive exn {float : Type} : Type :=
(** [Exception("请在环境变量中设置 JUHE_API_KEY")] *)
| MissingApiKey (name : string)
(** [Exception(f"获取数据失败: {ticker} - {response.status_code} - {response.text}")],
    in api_east.py [f"Error fetching data: {ticker} - ..."] *)
| FetchFailed (ticker : string) (status_code : Z) (text : string)
(** [Exception(f"API 错误: {data.get('reason')}")] *)
| ApiError (reason : json float)
(** [Exception(f"获取价格数据失败: {ticker} - {str(e)}")] *)
| PriceFetchFailed (ticker : string) (e : exn)
(** [Exception(f"获取财务指标失败: {ticker} - {str(e)}")] *)
| MetricsFetchFailed (ticker : string) (e : exn)
(** raised by [response.raise_for_status()] *)
| HTTPError (status_code : Z)
(** raised by [requests.get] when no response arrives *)
| ConnectionError
| JSONDecodeError
| AttributeError
| TypeError
| ValueError
| OverflowError
| KeyError (key : string)
| IndexError
| ValidationError.
Arguments exn : clear implicits.

(** The outcome of a call: a value, an exception, or no answer within the
    iterations allowed to a [while True] loop. *)
Inductive result {float : Type} (A : Type) : Type :=
| Ok (a : A)
| Raise (e : exn float)
| Diverge.
Arguments result : clear implicits.
Arguments Ok {float A} a.
Arguments Raise {float A} e.
Arguments Diverge {float A}.

Definition rbind {float A B} (r : result float A) (k : A -> result float B) : result float B :=
  match r with
  | Ok a => k a
  | Raise e => Raise e
  | Diverge => Diverge
  end.

Notation "'let?' x := r 'in' k" := (rbind r (fun x => k))
  (at level 10, x pattern, r at level 100, k at level 200).

(** ** Data models

    Modelled from the spec: [data.models] is not among the sources; the
    fields are those of section 3 of the specification, under the names the
    constructor calls of api.py give them.  A record stands both for the
    typed object and for its [model_dump()] mapping. *)

Module Price.
Record t {float : Type} : Type := mk {
  ticker : string;
  time : string;
  open : float;
  high : float;
  low : float;
  close : float;
  volume : float;
  adj_close : option float
}.
Arguments t : clear implicits.
End Price.

Module FinancialMetrics.
Record t {float : Type} : Type := mk {
  ticker : string;
  report_period : string;
  market_cap : option float;
  revenue : option float;
  net_income : option float;
  eps : option float
}.
Arguments t : clear implicits.
End FinancialMetrics.

Module InsiderTrade.
Record t {float : Type} : Type := mk {
  ticker : string;
  filing_date : string;
  transaction_date : option string;
  insider_name : string;
  insider_title : string;
  transaction_type : string;
  shares : float;
  price : option float;
  value : option float;
  shares_owned : option float
}.
Arguments t : clear implicits.

(** [x.transaction_date or x.filing_date]: an absent or empty transaction
    date gives way to the filing date. *)
Definition effective_date {float} (x : t float) : string :=
  match transaction_date x with
  | Some d => if Py.str_truthy d then d else filing_date x
  | None => filing_date x
  end.
End InsiderTrade.

Module CompanyNews.
Record t : Type := mk {
  ticker : string;
  date : string;
  title : string;
  url : string;
  source : string;
  summary : string
}.
End CompanyNews.

Module LineItem.
Record t {float : Type} : Type := mk {
  ticker : string;
  period : string;
  entries : list (string * json float)
}.
Arguments t : clear implicits.
End LineItem.

(** ** The world outside: environment, HTTP transport, cache *)

(** An HTTP request, by endpoint, with the values the code puts into the URL,
    the query parameters, the headers or the body. *)
Inductive request : Type :=
(** [GET http://web.juhe.cn/finance/stock/hs], params [gid], [key], [start], [end] *)
| JuheHs (gid key start end_ : string)
(** [GET http://web.juhe.cn/finance/stock/findata], params [gid], [type=report], [key] *)
| JuheFindata (gid key : string)
(** [GET http://web.juhe.cn/finance/stock/executives], params [gid], [key] *)
| JuheExecutives (gid key : string)
(** [GET http://web.juhe.cn/finance/stock/news], params [gid], [key] *)
| JuheNews (gid key : string)
(** [GET https://finance.sina.com.cn/realstock/company/{formatted_ticker}/hisdata.js?d={start_date}&end={end_date}] *)
| SinaHisdata (formatted_ticker start_date end_date : string)
(** [GET http://push2his.eastmoney.com/api/qt/stock/kline/get?secid={market_id}.{ticker}&...&beg={beg}&end={end}] *)
| EastmoneyKline (market_id ticker beg end_ : string)
(** [GET http://emweb.securities.eastmoney.com/PC_HSF10/NewFinanceAnalysis/ZYZBAjaxNew?type=0&code={ticker}] *)
| EastmoneyZYZB (ticker : string)
(** [GET http://push2.eastmoney.com/api/qt/stock/get?secid={market_id}.{ticker}&fields=f57,f58,f116] *)
| EastmoneyQuote (market_id ticker : string)
(** [POST https://api.financialdatasets.ai/financials/search/line-items],
    with the [X-API-KEY] header when a key is configured *)
| FdLineItems (api_key : option string) (ticker : string) (line_items : list string)
    (end_date period : string) (limit : Z)
(** [GET https://api.financialdatasets.ai/insider-trades/?ticker=&filing_date_lte=[&filing_date_gte=]&limit=] *)
| FdInsiderTrades (api_key : option string) (ticker filing_date_lte : string)
    (filing_date_gte : option string) (limit : Z)
(** [GET https://api.financialdatasets.ai/news/?ticker=&end_date=[&start_date=]&limit=] *)
| FdNews (api_key : option string) (ticker end_date : string)
    (start_date : option string) (limit : Z).

(** What [requests] hands back. *)
Record Response {float : Type} : Type := mkResponse {
  status_code : Z;
  text : string;
  (** the body as [response.json()] parses it; [None] when it is not JSON *)
  body : option (json float)
}.
Arguments Response : clear implicits.

Inductive reply {float : Type} : Type :=
| NoReply
| Reply (r : Response float).
Arguments reply : clear implicits.

(** Modelled from the spec: [data.cache] is not among the sources.  Section
    4.1: one list of records per data kind and ticker; [get] gives the list
    or nothing, [set] replaces the whole list. *)
Record Cache {float : Type} : Type := mkCache {
  prices : gmap string (list (Price.t float));
  financial_metrics : gmap string (list (FinancialMetrics.t float));
  insider_trades : gmap string (list (InsiderTrade.t float));
  company_news : gmap string (list CompanyNews.t)
}.
Arguments Cache : clear implicits.

Record World {float : Type} : Type := mkWorld {
  (** [os.environ] *)
  environ : gmap string string;
  (** the answer of the network to the [n]-th request of the process *)
  transport : nat -> request -> reply float;
  (** the process-wide [_cache] *)
  cache : Cache float;
  (** the requests sent so far, the latest first *)
  sent : list request
}.
Arguments World : clear implicits.

Section Runtime.
Context {float : Type} {py : Python float}.

(** *** Python operations on parsed JSON *)

(** [bool(v)] *)
Definition py_truthy (v : json float) : bool :=
  match v with
  | JNull => false
  | JBool b => b
  | JInt n => negb (n =? 0)
  | JFloat x => float_truthy x
  | JStr s => Py.str_truthy s
  | JList l => Py.nonempty l
  | JDict d => Py.nonempty d
  end.

(** [v != 0] *)
Definition py_ne_zero (v : json float) : bool :=
  match v with
  | JBool b => b
  | JInt n => negb (n =? 0)
  | JFloat x => float_truthy x
  | _ => true
  end.

Fixpoint assoc {B} (k : string) (d : list (string * B)) : option B :=
  match d with
  | [] => None
  | (k', v) :: d' => if String.eqb k' k then Some v else assoc k d'
  end.

(** [v.get(k, default)] *)
Definition py_get (v : json float) (k : string) (default : json float)
  : result float (json float) :=
  match v with
  | JDict d => Ok (match assoc k d with Some x => x | None => default end)
  | _ => Raise AttributeError
  end.

(** [float(v)] *)
Definition py_float (v : json float) : result float float :=
  match v with
  | JFloat x => Ok x
  | JInt n => match float_of_int n with Some x => Ok x | None => Raise OverflowError end
  | JBool b => match float_of_int (if b then 1 else 0) with
               | Some x => Ok x | None => Raise OverflowError end
  | JStr s => match float_of_str s with Some x => Ok x | None => Raise ValueError end
  | _ => Raise TypeError
  end.

(** A continuation byte of UTF-8, [10xxxxxx]. *)
Definition utf8_cont (c : ascii) : bool :=
  let n := N_of_ascii c in ((128 <=? n) && (n <? 192))%N.

Fixpoint chars_aux (s : string) : string * list string :=
  match s with
  | EmptyString => (EmptyString, [])
  | String c s' =>
      let (pend, l) := chars_aux s' in
      if utf8_cont c then (String c pend, l) else (EmptyString, String c pend :: l)
  end.

(** The characters of a [str]. *)
Definition chars (s : string) : list string :=
  let (pend, l) := chars_aux s in
  if Py.str_truthy pend then pend :: l else l.

(** [for item in v]: the items [v] yields. *)
Definition py_iter (v : json float) : result float (list (json float)) :=
  match v with
  | JList l => Ok l
  | JDict d => Ok (map (fun kv => JStr (fst kv)) d)
  | JStr s => Ok (map JStr (chars s))
  | _ => Raise TypeError
  end.

(** [v[:limit]] *)
Definition py_slice_to (limit : Z) (v : json float) : result float (json float) :=
  match v with
  | JList l => Ok (JList (Py.slice_to limit l))
  | JStr s => Ok (JStr (String.concat "" (Py.slice_to limit (chars s))))
  | _ => Raise TypeError
  end.

(** A value compared with a [str] by [<] or [>]: any other type raises. *)
Definition py_comparable (v : json float) : result float string :=
  match v with
  | JStr s => Ok s
  | _ => Raise TypeError
  end.

(** Validation of a [str] field of a data model. *)
Definition field_str (v : json float) : result float string :=
  match v with
  | JStr s => Ok s
  | _ => Raise ValidationError
  end.

(** Validation of an optional [str] field. *)
Definition field_opt_str (v : json float) : result float (option string) :=
  match v with
  | JNull => Ok None
  | JStr s => Ok (Some s)
  | _ => Raise ValidationError
  end.

(** Validation of a [float] field given a raw JSON value. *)
Definition field_float (v : json float) : result float float :=
  match v with
  | JFloat x => Ok x
  | JInt n => match float_of_int n with Some x => Ok x | None => Raise ValidationError end
  | JStr s => match float_of_str s with Some x => Ok x | None => Raise ValidationError end
  | _ => Raise ValidationError
  end.

(** Validation of an optional [float] field. *)
Definition field_opt_float (v : json float) : result float (option float) :=
  match v with
  | JNull => Ok None
  | _ => let? x := field_float v in Ok (Some x)
  end.

(** A [for] loop that builds a list: [f] gives the element to append, or
    nothing when the iteration ends in [continue]; an exception ends the
    loop. *)
Fixpoint for_each {A B} (f : A -> result float (option B)) (l : list A)
  : result float (list B) :=
  match l with
  | [] => Ok []
  | x :: l' =>
      let? y := f x in
      let? ys := for_each f l' in
      Ok (match y with Some b => b :: ys | None => ys end)
  end.

(** *** Calls with effects *)

Definition M (A : Type) : Type := World float -> result float A * World float.

Definition ret {A} (a : A) : M A := fun w => (Ok a, w).
Definition raise {A} (e : exn float) : M A := fun w => (Raise e, w).
Definition lift {A} (r : result float A) : M A := fun w => (r, w).

Definition bind {A B} (m : M A) (k : A -> M B) : M B :=
  fun w =>
    match m w with
    | (Ok a, w') => k a w'
    | (Raise e, w') => (Raise e, w')
    | (Diverge, w') => (Diverge, w')
    end.

(** [try: m except Exception as e: h e] *)
Definition try_except {A} (m : M A) (h : exn float -> M A) : M A :=
  fun w =>
    match m w with
    | (Raise e, w') => h e w'
    | r => r
    end.

(** [os.environ.get(name)] *)
Definition environ_get (name : string) : M (option string) :=
  fun w => (Ok (environ w !! name), w).

(** Truth value of what [os.environ.get] gave. *)
Definition key_truthy (k : option string) : bool :=
  match k with Some s => Py.str_truthy s | None => false end.

(** [requests.get(...)] / [requests.post(...)]: the request goes out and
    the transport answers it. *)
Definition requests_send (req : request) : M (Response float) :=
  fun w =>
    let w' := mkWorld float (environ w) (transport w) (cache w) (req :: sent w) in
    match transport w (length (sent w)) req with
    | Reply r => (Ok r, w')
    | NoReply => (Raise ConnectionError, w')
    end.

(** [response.json()] *)
Definition response_json (r : Response float) : result float (json float) :=
  match body r with Some v => Ok v | None => Raise JSONDecodeError end.

(** [response.raise_for_status()] *)
Definition raise_for_status (r : Response float) : result float unit :=
  if (400 <=? status_code r) && (status_code r <? 600)
  then Raise (HTTPError (status_code r)) else Ok tt.

(** *** The cache adapter *)

Definition cache_get_prices (ticker : string) : M (option (list (Price.t float))) :=
  fun w => (Ok (prices (cache w) !! ticker), w).
Definition cache_get_financial_metrics (ticker : string)
  : M (option (list (FinancialMetrics.t float))) :=
  fun w => (Ok (financial_metrics (cache w) !! ticker), w).
Definition cache_get_insider_trades (ticker : string)
  : M (option (list (InsiderTrade.t float))) :=
  fun w => (Ok (insider_trades (cache w) !! ticker), w).
Definition cache_get_company_news (ticker : string) : M (option (list CompanyNews.t)) :=
  fun w => (Ok (company_news (cache w) !! ticker), w).

Definition with_cache (f : Cache float -> Cache float) : M unit :=
  fun w => (Ok tt, mkWorld float (environ w) (transport w) (f (cache w)) (sent w)).

Definition cache_set_prices (ticker : string) (l : list (Price.t float)) : M unit :=
  with_cache (fun c => mkCache float (<[ticker := l]> (prices c)) (financial_metrics c)
                         (insider_trades c) (company_news c)).
Definition cache_set_financial_metrics (ticker : string)
    (l : list (FinancialMetrics.t float)) : M unit :=
  with_cache (fun c => mkCache float (prices c) (<[ticker := l]> (financial_metrics c))
                         (insider_trades c) (company_news c)).
Definition cache_set_insider_trades (ticker : string)
    (l : list (InsiderTrade.t float)) : M unit :=
  with_cache (fun c => mkCache float (prices c) (financial_metrics c)
                         (<[ticker := l]> (insider_trades c)) (company_news c)).
Definition cache_set_company_news (ticker : string) (l : list CompanyNews.t) : M unit :=
  with_cache (fun c => mkCache float (prices c) (financial_metrics c)
                         (insider_trades c) (<[ticker := l]> (company_news c))).

(** [if cached_data := _cache.get_...(ticker)]: the records when there are
    some, the empty list when the entry is missing or empty. *)
Definition cached_records {A} (cached_data : option (list A)) : list A :=
  match cached_data with Some l => l | None => [] end.
End Runtime.
Arguments M : clear implicits.

Notation "'let*' x := m 'in' k" := (bind m (fun x => k))
  (at level 10, x pattern, m at level 100, k at level 200).
Notation "m ';;' k" := (bind m (fun _ => k))
  (at level 100, k at level 200, right associativity).

(** ** Tables

    The part of pandas that [prices_to_df] uses. *)

Module Pd.
(** A table: its column labels, and its rows under their index labels (the
    table of prices is indexed by points in time). *)
Record DataFrame {A : Type} : Type := mk {
  columns : list string;
  rows : list (Z * A)
}.
Arguments DataFrame : clear implicits.

(** The keys of [Price.model_dump()]. *)
Definition price_columns : list string :=
  ["ticker"; "time"; "open"; "high"; "low"; "close"; "volume"; "adj_close"].

(** The columns of [pd.DataFrame(mappings)]: the keys of the mappings; a
    table made from no mapping has no column. *)
Definition columns_of {A} (keys : list string) (records : list A) : list string :=
  match records with
  | [] => []
  | _ :: _ => keys
  end.

(** Whether [df[col]] finds the column; it raises [KeyError] otherwise. *)
Definition has_column (col : string) (columns : list string) : bool :=
  existsb (String.eqb col) columns.

(** [df.sort_index()]: ascending index.  (pandas promises no order among
    rows under the same label; here they keep theirs.) *)
Fixpoint insert_row {A} (r : Z * A) (l : list (Z * A)) : list (Z * A) :=
  match l with
  | [] => [r]
  | r' :: l' => if fst r <=? fst r' then r :: r' :: l' else r' :: insert_row r l'
  end.

Fixpoint sort_index {A} (l : list (Z * A)) : list (Z * A) :=
  match l with
  | [] => []
  | r :: l' => insert_row r (sort_index l')
  end.
End Pd.

(** ** api.py: the Juhe provider *)

Module Api.
Section Api.
Context {float : Type} {py : Python float}.

(** The credential check every fetch of api.py starts with. *)
Definition juhe_api_key : M float string :=
let* api_key := environ_get "JUHE_API_KEY" in
match api_key with
| Some k => if Py.str_truthy k then ret k else raise (MissingApiKey "JUHE_API_KEY")
| None => raise (MissingApiKey "JUHE_API_KEY")
end.

(** The request and the two checks on the answer:
  [response.status_code != 200], then [data.get("error_code") != 0]. *)
Definition juhe_request (ticker : string) (req : request) : M float (json float) :=
let* response := requests_send req in
if negb (status_code response =? 200)
then raise (FetchFailed ticker (status_code response) (text response))
else
  let* data := lift (response_json response) in
  let* error_code := lift (py_get data "error_code" JNull) in
  if py_ne_zero error_code
  then (let* reason := lift (py_get data "reason" JNull) in raise (ApiError reason))
  else ret data.

(** [data.get("result", {}).get("data", [])] *)
Definition result_data (data : json float) : result float (json float) :=
let? r := py_get data "result" (JDict []) in
py_get r "data" (JList []).

(** *** get_prices *)

Definition price_of_item (ticker : string) (item : json float)
: result float (option (Price.t float)) :=
let? date := py_get item "date" JNull in
let? open := (let? v := py_get item "open" JNull in py_float v) in
let? high := (let? v := py_get item "high" JNull in py_float v) in
let? low := (let? v := py_get item "low" JNull in py_float v) in
let? close := (let? v := py_get item "close" JNull in py_float v) in
let? volume := (let? v := py_get item "volume" JNull in py_float v) in
let? time := field_str date in
Ok (Some (Price.mk float ticker time open high low close volume None)).

(** The part of [get_prices] after the cache block. *)
Definition get_prices_fetch (ticker start_date end_date : string)
: M float (list (Price.t float)) :=
let* api_key := juhe_api_key in
let* data := juhe_request ticker (JuheHs ticker api_key start_date end_date) in
let* items := lift (let? d := result_data data in py_iter d) in
let* prices := lift (for_each (price_of_item ticker) items) in
if negb (Py.nonempty prices) then ret []
else cache_set_prices ticker prices ;; ret prices.

Definition get_prices (ticker start_date end_date : string) : M float (list (Price.t float)) :=
let* cached_data := cache_get_prices ticker in
if Py.nonempty (cached_records cached_data) then
  let filtered_data :=
    List.filter (fun price => Py.le start_date (Price.time price)
                         && Py.le (Price.time price) end_date)
           (cached_records cached_data) in
  if Py.nonempty filtered_data then ret filtered_data
  else get_prices_fetch ticker start_date end_date
else get_prices_fetch ticker start_date end_date.

(** *** get_financial_metrics *)

Definition metric_of_item (ticker : string) (item : json float)
: result float (option (FinancialMetrics.t float)) :=
let? date := py_get item "date" JNull in
let? market_cap := (let? v := py_get item "total_market_cap" (JInt 0) in py_float v) in
let? report_period := field_str date in
Ok (Some (FinancialMetrics.mk float ticker report_period (Some market_cap) None None None)).

Definition get_financial_metrics_fetch (ticker end_date period : string) (limit : Z)
: M float (list (FinancialMetrics.t float)) :=
let* api_key := juhe_api_key in
let* data := juhe_request ticker (JuheFindata ticker api_key) in
let* items := lift (let? d := result_data data in
                    let? d := py_slice_to limit d in py_iter d) in
let* financial_metrics := lift (for_each (metric_of_item ticker) items) in
if negb (Py.nonempty financial_metrics) then ret []
else cache_set_financial_metrics ticker financial_metrics ;; ret financial_metrics.

(** [period] defaults to ["ttm"] and [limit] to [10]. *)
Definition get_financial_metrics (ticker end_date period : string) (limit : Z)
: M float (list (FinancialMetrics.t float)) :=
let* cached_data := cache_get_financial_metrics ticker in
if Py.nonempty (cached_records cached_data) then
  let filtered_data :=
    List.filter (fun metric => Py.le (FinancialMetrics.report_period metric) end_date)
           (cached_records cached_data) in
  let filtered_data := Py.sort_desc FinancialMetrics.report_period filtered_data in
  if Py.nonempty filtered_data then ret (Py.slice_to limit filtered_data)
  else get_financial_metrics_fetch ticker end_date period limit
else get_financial_metrics_fetch ticker end_date period limit.

(** *** search_line_items *)

Definition search_line_items (ticker : string) (line_items : list string)
  (end_date period : string) (limit : Z) : M float (list (LineItem.t float)) :=
let* api_key := juhe_api_key in
let* data := juhe_request ticker (JuheFindata ticker api_key) in
let search_results := [] in
ret (Py.slice_to limit search_results).

(** *** get_insider_trades *)

(** [(start_date and d < start_date) or d > end_date] *)
Definition out_of_range (start_date : option string) (end_date d : string) : bool :=
(match start_date with
 | Some s => Py.str_truthy s && Py.lt d s
 | None => false
 end) || Py.gt d end_date.

(** [float(item.get(k, 0)) if item.get(k) else None] *)
Definition float_if_truthy (item : json float) (k : string)
: result float (option float) :=
let? v := py_get item k JNull in
if py_truthy v then
  (let? v := py_get item k (JInt 0) in let? x := py_float v in Ok (Some x))
else Ok None.

Definition trade_of_item (ticker : string) (start_date : option string)
  (end_date : string) (item : json float)
: result float (option (InsiderTrade.t float)) :=
let? date := py_get item "date" JNull in
let? filing_date := py_comparable date in
if out_of_range start_date end_date filing_date then Ok None
else
  let? name := py_get item "name" JNull in
  let? position := py_get item "position" JNull in
  let? change_type := py_get item "change_type" (JStr "") in
  let? shares := (let? v := py_get item "change_shares" (JInt 0) in py_float v) in
  let? price := float_if_truthy item "price" in
  let? value := float_if_truthy item "change_amount" in
  let? shares_owned := float_if_truthy item "total_shares" in
  let? insider_name := field_str name in
  let? insider_title := field_str position in
  let? transaction_type := field_str change_type in
  Ok (Some (InsiderTrade.mk float ticker filing_date (Some filing_date) insider_name
              insider_title transaction_type shares price value shares_owned)).

Definition get_insider_trades_fetch (ticker end_date : string)
  (start_date : option string) (limit : Z) : M float (list (InsiderTrade.t float)) :=
let* api_key := juhe_api_key in
let* data := juhe_request ticker (JuheExecutives ticker api_key) in
let* items := lift (let? d := result_data data in py_iter d) in
let* all_trades := lift (for_each (trade_of_item ticker start_date end_date) items) in
if negb (Py.nonempty all_trades) then ret []
else
  let all_trades := Py.sort_desc InsiderTrade.effective_date all_trades in
  let all_trades := Py.slice_to limit all_trades in
  cache_set_insider_trades ticker all_trades ;; ret all_trades.

(** [(start_date is None or d >= start_date) and d <= end_date] *)
Definition in_range (start_date : option string) (end_date d : string) : bool :=
(match start_date with
 | None => true
 | Some s => Py.ge d s
 end) && Py.le d end_date.

(** [start_date] defaults to [None] and [limit] to [1000]. *)
Definition get_insider_trades (ticker end_date : string) (start_date : option string)
  (limit : Z) : M float (list (InsiderTrade.t float)) :=
let* cached_data := cache_get_insider_trades ticker in
if Py.nonempty (cached_records cached_data) then
  let filtered_data :=
    List.filter (fun trade => in_range start_date end_date (InsiderTrade.effective_date trade))
           (cached_records cached_data) in
  let filtered_data := Py.sort_desc InsiderTrade.effective_date filtered_data in
  if Py.nonempty filtered_data then ret filtered_data
  else get_insider_trades_fetch ticker end_date start_date limit
else get_insider_trades_fetch ticker end_date start_date limit.

(** *** get_company_news *)

Definition news_of_item (ticker : string) (start_date : option string)
  (end_date : string) (item : json float) : result float (option CompanyNews.t) :=
let? date := py_get item "date" JNull in
let? news_date := py_comparable date in
if out_of_range start_date end_date news_date then Ok None
else
  let? title := py_get item "title" (JStr "") in
  let? url := py_get item "url" (JStr "") in
  let? source := py_get item "source" (JStr "") in
  let? content := py_get item "content" (JStr "") in
  let? title := field_str title in
  let? url := field_str url in
  let? source := field_str source in
  let? summary := field_str content in
  Ok (Some (CompanyNews.mk ticker news_date title url source summary)).

Definition get_company_news_fetch (ticker end_date : string)
  (start_date : option string) (limit : Z) : M float (list CompanyNews.t) :=
let* api_key := juhe_api_key in
let* data := juhe_request ticker (JuheNews ticker api_key) in
let* items := lift (let? d := result_data data in py_iter d) in
let* all_news := lift (for_each (news_of_item ticker start_date end_date) items) in
if negb (Py.nonempty all_news) then ret []
else
  let all_news := Py.sort_desc CompanyNews.date all_news in
  let all_news := Py.slice_to limit all_news in
  cache_set_company_news ticker all_news ;; ret all_news.

Definition get_company_news (ticker end_date : string) (start_date : option string)
  (limit : Z) : M float (list CompanyNews.t) :=
let* cached_data := cache_get_company_news ticker in
if Py.nonempty (cached_records cached_data) then
  let filtered_data :=
    List.filter (fun news => in_range start_date end_date (CompanyNews.date news))
           (cached_records cached_data) in
  let filtered_data := Py.sort_desc CompanyNews.date filtered_data in
  if Py.nonempty filtered_data then ret filtered_data
  else get_company_news_fetch ticker end_date start_date limit
else get_company_news_fetch ticker end_date start_date limit.

(** *** get_market_cap *)

(** [l[0]] *)
Definition first_item {A} (l : list A) : result float A :=
match l with
| x :: _ => Ok x
| [] => Raise IndexError
end.

(** [not market_cap] for a field that is a float or [None]. *)
Definition cap_truthy (market_cap : option float) : bool :=
match market_cap with Some x => float_truthy x | None => false end.

Definition get_market_cap (ticker end_date : string) : M float (option float) :=
let* financial_metrics := get_financial_metrics ticker end_date "ttm" 10 in
let* m := lift (first_item financial_metrics) in
let market_cap := FinancialMetrics.market_cap m in
if negb (cap_truthy market_cap) then ret None
else ret market_cap.
(** *** prices_to_df, get_price_data *)

Definition prices_to_df (prices : list (Price.t float))
: result float (Pd.DataFrame (Price.t float)) :=
let columns := Pd.columns_of Pd.price_columns prices in
if Pd.has_column "time" columns then
  let? rows :=
    for_each (fun p => match to_datetime (Price.time p) with
                       | Some t => Ok (Some (t, p))
                       | None => Raise ValueError
                       end) prices in
  Ok (Pd.mk _ columns (Pd.sort_index rows))
else Raise (KeyError "time").

Definition get_price_data (ticker start_date end_date : string)
: M float (Pd.DataFrame (Price.t float)) :=
let* prices := get_prices ticker start_date end_date in
lift (prices_to_df prices).
End Api.
End Api.

(** ** api_east.py: Sina, Eastmoney and financialdatasets *)

Module ApiEast.
Section ApiEast.
Context {float : Type} {py : Python float}.

(** *** The response models

  Modelled from the spec: [InsiderTradeResponse], [CompanyNewsResponse]
  and [LineItemResponse] of [data.models] are not among the sources.
  [Model( **data)] needs a mapping, reads the list under the name the
  code then accesses, and validates each entry field by field. *)

Definition model_field (item : json float) (k : string) : result float (json float) :=
match item with
| JDict d => Ok (match assoc k d with Some v => v | None => JNull end)
| _ => Raise ValidationError
end.

Definition model_list {A} (k : string) (entry : json float -> result float A)
  (data : json float) : result float (list A) :=
match data with
| JDict d =>
    match assoc k d with
    | Some (JList l) => for_each (fun v => let? x := entry v in Ok (Some x)) l
    | _ => Raise ValidationError
    end
| _ => Raise TypeError
end.

Definition insider_trade_of (v : json float) : result float (InsiderTrade.t float) :=
let? ticker := (let? x := model_field v "ticker" in field_str x) in
let? filing_date := (let? x := model_field v "filing_date" in field_str x) in
let? transaction_date := (let? x := model_field v "transaction_date" in field_opt_str x) in
let? insider_name := (let? x := model_field v "insider_name" in field_str x) in
let? insider_title := (let? x := model_field v "insider_title" in field_str x) in
let? transaction_type := (let? x := model_field v "transaction_type" in field_str x) in
let? shares := (let? x := model_field v "shares" in field_float x) in
let? price := (let? x := model_field v "price" in field_opt_float x) in
let? value := (let? x := model_field v "value" in field_opt_float x) in
let? shares_owned := (let? x := model_field v "shares_owned" in field_opt_float x) in
Ok (InsiderTrade.mk float ticker filing_date transaction_date insider_name insider_title
      transaction_type shares price value shares_owned).

Definition company_news_of (v : json float) : result float CompanyNews.t :=
let? ticker := (let? x := model_field v "ticker" in field_str x) in
let? date := (let? x := model_field v "date" in field_str x) in
let? title := (let? x := model_field v "title" in field_str x) in
let? url := (let? x := model_field v "url" in field_str x) in
let? source := (let? x := model_field v "source" in field_str x) in
let? summary := (let? x := model_field v "summary" in field_str x) in
Ok (CompanyNews.mk ticker date title url source summary).

Definition line_item_of (v : json float) : result float (LineItem.t float) :=
let? ticker := (let? x := model_field v "ticker" in field_str x) in
let? period := (let? x := model_field v "period" in field_str x) in
match v with
| JDict d => Ok (LineItem.mk float ticker period d)
| _ => Raise ValidationError
end.

(** [InsiderTradeResponse( **data).insider_trades] *)
Definition InsiderTradeResponse (data : json float) : result float (list (InsiderTrade.t float)) :=
model_list "insider_trades" insider_trade_of data.

(** [CompanyNewsResponse( **data).news] *)
Definition CompanyNewsResponse (data : json float) : result float (list CompanyNews.t) :=
model_list "news" company_news_of data.

(** [LineItemResponse( **data).search_results] *)
Definition LineItemResponse (data : json float) : result float (list (LineItem.t float)) :=
model_list "search_results" line_item_of data.

(** *** get_prices *)

Definition price_of_item (ticker : string) (item : json float)
: result float (option (Price.t float)) :=
let? date := py_get item "date" JNull in
let? open := (let? v := py_get item "open" JNull in py_float v) in
let? high := (let? v := py_get item "high" JNull in py_float v) in
let? low := (let? v := py_get item "low" JNull in py_float v) in
let? close := (let? v := py_get item "close" JNull in py_float v) in
let? volume := (let? v := py_get item "volume" JNull in py_float v) in
let? adj_close := (let? v := py_get item "close" JNull in py_float v) in
let? time := field_str date in
Ok (Some (Price.mk float ticker time open high low close volume (Some adj_close))).

(** [parts[0]] *)
Definition first_part (parts : list string) : result float string :=
match parts with
| s :: _ => Ok s
| [] => Raise IndexError
end.

(** [float(parts[i])] *)
Definition float_part (parts : list string) (i : nat) : result float float :=
match nth_error parts i with
| Some s => match float_of_str s with Some x => Ok x | None => Raise ValueError end
| None => Raise IndexError
end.

Definition price_of_kline (ticker : string) (kline : json float)
: result float (option (Price.t float)) :=
match kline with
| JStr k =>
    let parts := Py.split "," k in
    if (7 <=? length parts)%nat then
      let? time := first_part parts in
      let? open := float_part parts 1 in
      let? close := float_part parts 2 in
      let? high := float_part parts 3 in
      let? low := float_part parts 4 in
      let? volume := float_part parts 5 in
      let? adj_close := float_part parts 2 in
      Ok (Some (Price.mk float ticker time open high low close volume (Some adj_close)))
    else Ok None
| _ => Raise AttributeError
end.

(** The first source, Sina: the body of the outer [try]. *)
Definition get_prices_sina (ticker start_date end_date : string)
: M float (list (Price.t float)) :=
let formatted_ticker :=
  if Py.startswith "6" ticker then String.append "sh" ticker
  else String.append "sz" ticker in
let* response := requests_send (SinaHisdata formatted_ticker start_date end_date) in
let* _ := lift (raise_for_status response) in
let* data := lift (response_json response) in
let* items := lift (py_iter data) in
let* prices := lift (for_each (price_of_item ticker) items) in
(if Py.nonempty prices then cache_set_prices ticker prices else ret tt) ;;
ret prices.

(** The second source, Eastmoney: the body of the inner [try]. *)
Definition get_prices_eastmoney (ticker start_date end_date : string)
: M float (list (Price.t float)) :=
let market_id := if Py.startswith "6" ticker then "1" else "0" in
let* response :=
  requests_send (EastmoneyKline market_id ticker (Py.remove_char "-" start_date)
                   (Py.remove_char "-" end_date)) in
let* _ := lift (raise_for_status response) in
let* data := lift (response_json response) in
let* klines := lift (let? d := py_get data "data" (JDict []) in
                     let? k := py_get d "klines" (JList []) in py_iter k) in
let* prices := lift (for_each (price_of_kline ticker) klines) in
(if Py.nonempty prices then cache_set_prices ticker prices else ret tt) ;;
ret prices.

(** The part of [get_prices] after the cache block. *)
Definition get_prices_fetch (ticker start_date end_date : string)
: M float (list (Price.t float)) :=
match strptime_mktime start_date, strptime_mktime end_date with
| Some start_timestamp, Some end_timestamp =>
    try_except (get_prices_sina ticker start_date end_date)
      (fun _ =>
         try_except (get_prices_eastmoney ticker start_date end_date)
           (fun e => raise (PriceFetchFailed ticker e)))
| _, _ => raise ValueError
end.

Definition get_prices (ticker start_date end_date : string) : M float (list (Price.t float)) :=
let* cached_data := cache_get_prices ticker in
if Py.nonempty (cached_records cached_data) then
  let filtered_data :=
    List.filter (fun price => Py.le start_date (Price.time price)
                         && Py.le (Price.time price) end_date)
           (cached_records cached_data) in
  if Py.nonempty filtered_data then ret filtered_data
  else get_prices_fetch ticker start_date end_date
else get_prices_fetch ticker start_date end_date.

(** *** get_financial_metrics *)

Definition metric_of_item (ticker : string) (item : json float)
: result float (option (FinancialMetrics.t float)) :=
let? report_date := py_get item "REPORT_DATE" JNull in
let? income := py_get item "TOTAL_OPERATE_INCOME" JNull in
let? netprofit := py_get item "PARENT_NETPROFIT" JNull in
let? basic_eps := py_get item "BASIC_EPS" JNull in
let? report_period := field_str report_date in
let? revenue := field_opt_float income in
let? net_income := field_opt_float netprofit in
let? eps := field_opt_float basic_eps in
Ok (Some (FinancialMetrics.mk float ticker report_period None revenue net_income eps)).

(** The body of the [try] of [get_financial_metrics]. *)
Definition get_financial_metrics_eastmoney (ticker : string) (limit : Z)
: M float (list (FinancialMetrics.t float)) :=
let* response := requests_send (EastmoneyZYZB ticker) in
let* _ := lift (raise_for_status response) in
let* data := lift (response_json response) in
let* items := lift (let? d := py_get data "data" (JList []) in
                    let? d := py_slice_to limit d in py_iter d) in
let* financial_metrics := lift (for_each (metric_of_item ticker) items) in
(if Py.nonempty financial_metrics
 then cache_set_financial_metrics ticker financial_metrics else ret tt) ;;
ret financial_metrics.

(** The part of [get_financial_metrics] after the cache block. *)
Definition get_financial_metrics_fetch (ticker end_date period : string) (limit : Z)
: M float (list (FinancialMetrics.t float)) :=
try_except (get_financial_metrics_eastmoney ticker limit)
  (fun e => raise (MetricsFetchFailed ticker e)).

(** [period] defaults to ["ttm"] and [limit] to [10]. *)
Definition get_financial_metrics (ticker end_date period : string) (limit : Z)
: M float (list (FinancialMetrics.t float)) :=
let* cached_data := cache_get_financial_metrics ticker in
if Py.nonempty (cached_records cached_data) then
  let filtered_data :=
    List.filter (fun metric => Py.le (FinancialMetrics.report_period metric) end_date)
           (cached_records cached_data) in
  let filtered_data := Py.sort_desc FinancialMetrics.report_period filtered_data in
  if Py.nonempty filtered_data then ret (Py.slice_to limit filtered_data)
  else get_financial_metrics_fetch ticker end_date period limit
else get_financial_metrics_fetch ticker end_date period limit.

(** *** The financialdatasets key: sent when configured, never required *)

(** [if api_key := os.environ.get("FINANCIAL_DATASETS_API_KEY"): headers["X-API-KEY"] = api_key] *)
Definition fd_headers : M float (option string) :=
let* api_key := environ_get "FINANCIAL_DATASETS_API_KEY" in
ret (if key_truthy api_key then api_key else None).

(** [if start_date: url += ...]: the lower bound goes into the URL when
  it is given and not empty. *)
Definition url_start (start_date : option string) : option string :=
match start_date with
| Some s => if Py.str_truthy s then Some s else None
| None => None
end.

(** *** search_line_items *)

Definition search_line_items (ticker : string) (line_items : list string)
  (end_date period : string) (limit : Z) : M float (list (LineItem.t float)) :=
let* headers := fd_headers in
let* response := requests_send (FdLineItems headers ticker line_items end_date period limit) in
if negb (status_code response =? 200)
then raise (FetchFailed ticker (status_code response) (text response))
else
  let* data := lift (response_json response) in
  let* search_results := lift (LineItemResponse data) in
  if negb (Py.nonempty search_results) then ret []
  else ret (Py.slice_to limit search_results).

(** *** get_insider_trades *)

(** The [while True] loop, run for at most [fuel] iterations. *)
Fixpoint insider_trades_loop (fuel : nat) (headers : option string) (ticker : string)
  (start_date : option string) (limit : Z)
  (all_trades : list (InsiderTrade.t float)) (current_end_date : string)
: M float (list (InsiderTrade.t float)) :=
match fuel with
| O => lift Diverge
| S fuel =>
    let* response :=
      requests_send (FdInsiderTrades headers ticker current_end_date
                       (url_start start_date) limit) in
    if negb (status_code response =? 200)
    then raise (FetchFailed ticker (status_code response) (text response))
    else
      let* data := lift (response_json response) in
      let* insider_trades := lift (InsiderTradeResponse data) in
      if negb (Py.nonempty insider_trades) then ret all_trades
      else
        let all_trades := all_trades ++ insider_trades in
        match url_start start_date with
        | None => ret all_trades
        | Some start =>
            if Z.of_nat (length insider_trades) <? limit then ret all_trades
            else
              let current_end_date :=
                Py.split_head "T"
                  (Py.min_of (map InsiderTrade.filing_date insider_trades)) in
              if Py.le current_end_date start then ret all_trades
              else insider_trades_loop fuel headers ticker start_date limit
                     all_trades current_end_date
        end
end.

(** The part of [get_insider_trades] after the cache block. *)
Definition get_insider_trades_fetch (fuel : nat) (ticker end_date : string)
  (start_date : option string) (limit : Z) : M float (list (InsiderTrade.t float)) :=
let* headers := fd_headers in
let* all_trades := insider_trades_loop fuel headers ticker start_date limit [] end_date in
if negb (Py.nonempty all_trades) then ret []
else cache_set_insider_trades ticker all_trades ;; ret all_trades.

(** [start_date] defaults to [None] and [limit] to [1000]. *)
Definition get_insider_trades (fuel : nat) (ticker end_date : string)
  (start_date : option string) (limit : Z) : M float (list (InsiderTrade.t float)) :=
let* cached_data := cache_get_insider_trades ticker in
if Py.nonempty (cached_records cached_data) then
  let filtered_data :=
    List.filter (fun trade =>
              Api.in_range start_date end_date (InsiderTrade.effective_date trade))
           (cached_records cached_data) in
  let filtered_data := Py.sort_desc InsiderTrade.effective_date filtered_data in
  if Py.nonempty filtered_data then ret filtered_data
  else get_insider_trades_fetch fuel ticker end_date start_date limit
else get_insider_trades_fetch fuel ticker end_date start_date limit.

(** *** get_company_news *)

Fixpoint company_news_loop (fuel : nat) (headers : option string) (ticker : string)
  (start_date : option string) (limit : Z)
  (all_news : list CompanyNews.t) (current_end_date : string)
: M float (list CompanyNews.t) :=
match fuel with
| O => lift Diverge
| S fuel =>
    let* response :=
      requests_send (FdNews headers ticker current_end_date (url_start start_date) limit) in
    if negb (status_code response =? 200)
    then raise (FetchFailed ticker (status_code response) (text response))
    else
      let* data := lift (response_json response) in
      let* company_news := lift (CompanyNewsResponse data) in
      if negb (Py.nonempty company_news) then ret all_news
      else
        let all_news := all_news ++ company_news in
        match url_start start_date with
        | None => ret all_news
        | Some start =>
            if Z.of_nat (length company_news) <? limit then ret all_news
            else
              let current_end_date :=
                Py.split_head "T" (Py.min_of (map CompanyNews.date company_news)) in
              if Py.le current_end_date start then ret all_news
              else company_news_loop fuel headers ticker start_date limit
                     all_news current_end_date
        end
end.

Definition get_company_news_fetch (fuel : nat) (ticker end_date : string)
  (start_date : option string) (limit : Z) : M float (list CompanyNews.t) :=
let* headers := fd_headers in
let* all_news := company_news_loop fuel headers ticker start_date limit [] end_date in
if negb (Py.nonempty all_news) then ret []
else cache_set_company_news ticker all_news ;; ret all_news.

Definition get_company_news (fuel : nat) (ticker end_date : string)
  (start_date : option string) (limit : Z) : M float (list CompanyNews.t) :=
let* cached_data := cache_get_company_news ticker in
if Py.nonempty (cached_records cached_data) then
  let filtered_data :=
    List.filter (fun news => Api.in_range start_date end_date (CompanyNews.date news))
           (cached_records cached_data) in
  let filtered_data := Py.sort_desc CompanyNews.date filtered_data in
  if Py.nonempty filtered_data then ret filtered_data
  else get_company_news_fetch fuel ticker end_date start_date limit
else get_company_news_fetch fuel ticker end_date start_date limit.

(** *** get_market_cap *)

(** The body of the [try]: the quote endpoint first, the financial metrics
  after it; [None] stands for falling out of the [try] to the final
  [return None]. *)
Definition get_market_cap_try (ticker end_date : string) : M float (option float) :=
let market_id := if Py.startswith "6" ticker then "1" else "0" in
let* response := requests_send (EastmoneyQuote market_id ticker) in
let* _ := lift (raise_for_status response) in
let* data := lift (response_json response) in
let* market_cap := lift (let? d := py_get data "data" (JDict []) in
                         py_get d "f116" JNull) in
if py_truthy market_cap then
  let* x := lift (py_float market_cap) in
  ret (Some (float_div_int x 100000000))
else
  let* financial_metrics := get_financial_metrics ticker end_date "ttm" 10 in
  match financial_metrics with
  | m :: _ =>
      if Api.cap_truthy (FinancialMetrics.market_cap m)
      then ret (FinancialMetrics.market_cap m)
      else ret None
  | [] => ret None
  end.

Definition get_market_cap (ticker end_date : string) : M float (option float) :=
try_except (get_market_cap_try ticker end_date) (fun _ => ret None).
(** *** prices_to_df, get_price_data *)

Definition prices_to_df (prices : list (Price.t float))
: result float (Pd.DataFrame (Price.t float)) :=
let columns := Pd.columns_of Pd.price_columns prices in
if Pd.has_column "time" columns then
  let? rows :=
    for_each (fun p => match to_datetime (Price.time p) with
                       | Some t => Ok (Some (t, p))
                       | None => Raise ValueError
                       end) prices in
  Ok (Pd.mk _ columns (Pd.sort_index rows))
else Raise (KeyError "time").

Definition get_price_data (ticker start_date end_date : string)
: M float (Pd.DataFrame (Price.t float)) :=
let* prices := get_prices ticker start_date end_date in
lift (prices_to_df prices).
End ApiEast.
End ApiEast.

(** ** The four cached fetch operations, side by side

    The two files define the same operations; a [call] is one call
    expression, [run] evaluates it in one of the two files, and the notions
    of the specification (the cached entry of a call, the records of a list
    that lie in the requested range) are stated once for the four kinds. *)

Inductive provider : Type :=
| Juhe   (** api.py *)
| East.  (** api_east.py *)

Inductive call : Type :=
| GetPrices (ticker start_date end_date : string)
| GetFinancialMetrics (ticker end_date period : string) (limit : Z)
| GetInsiderTrades (ticker end_date : string) (start_date : option string) (limit : Z)
| GetCompanyNews (ticker end_date : string) (start_date : option string) (limit : Z).

Inductive records {float : Type} : Type :=
| Prices (l : list (Price.t float))
| Metrics (l : list (FinancialMetrics.t float))
| Trades (l : list (InsiderTrade.t float))
| News (l : list CompanyNews.t).
Arguments records : clear implicits.

Section Calls.
Context {float : Type} {py : Python float}.

Definition returning {A} (wrap : A -> records float) (m : M float A) : M float (records float) :=
  let* x := m in ret (wrap x).

(** The call, in the file of the provider; [fuel] bounds the iterations of
    the pagination loops of api_east.py. *)
Definition run (p : provider) (fuel : nat) (c : call) : M float (records float) :=
  match p, c with
  | Juhe, GetPrices t s e => returning Prices (Api.get_prices t s e)
  | Juhe, GetFinancialMetrics t e per n => returning Metrics (Api.get_financial_metrics t e per n)
  | Juhe, GetInsiderTrades t e s n => returning Trades (Api.get_insider_trades t e s n)
  | Juhe, GetCompanyNews t e s n => returning News (Api.get_company_news t e s n)
  | East, GetPrices t s e => returning Prices (ApiEast.get_prices t s e)
  | East, GetFinancialMetrics t e per n =>
      returning Metrics (ApiEast.get_financial_metrics t e per n)
  | East, GetInsiderTrades t e s n => returning Trades (ApiEast.get_insider_trades fuel t e s n)
  | East, GetCompanyNews t e s n => returning News (ApiEast.get_company_news fuel t e s n)
  end.

(** The part of the call after its cache block. *)
Definition run_fetch (p : provider) (fuel : nat) (c : call) : M float (records float) :=
  match p, c with
  | Juhe, GetPrices t s e => returning Prices (Api.get_prices_fetch t s e)
  | Juhe, GetFinancialMetrics t e per n =>
      returning Metrics (Api.get_financial_metrics_fetch t e per n)
  | Juhe, GetInsiderTrades t e s n => returning Trades (Api.get_insider_trades_fetch t e s n)
  | Juhe, GetCompanyNews t e s n => returning News (Api.get_company_news_fetch t e s n)
  | East, GetPrices t s e => returning Prices (ApiEast.get_prices_fetch t s e)
  | East, GetFinancialMetrics t e per n =>
      returning Metrics (ApiEast.get_financial_metrics_fetch t e per n)
  | East, GetInsiderTrades t e s n =>
      returning Trades (ApiEast.get_insider_trades_fetch fuel t e s n)
  | East, GetCompanyNews t e s n => returning News (ApiEast.get_company_news_fetch fuel t e s n)
  end.

Definition ticker_of (c : call) : string :=
  match c with
  | GetPrices t _ _ | GetFinancialMetrics t _ _ _
  | GetInsiderTrades t _ _ _ | GetCompanyNews t _ _ _ => t
  end.

(** What the cache holds for the ticker and the kind of the call. *)
Definition cache_entry (c : call) (k : Cache float) : records float :=
  match c with
  | GetPrices t _ _ => Prices (cached_records (prices k !! t))
  | GetFinancialMetrics t _ _ _ => Metrics (cached_records (financial_metrics k !! t))
  | GetInsiderTrades t _ _ _ => Trades (cached_records (insider_trades k !! t))
  | GetCompanyNews t _ _ _ => News (cached_records (company_news k !! t))
  end.

(** The cache after a [set] of the list [r] for the ticker and the kind of
    the call. *)
Definition cache_set (c : call) (r : records float) (k : Cache float) : Cache float :=
  match r with
  | Prices l => mkCache float (<[ticker_of c := l]> (prices k)) (financial_metrics k)
                  (insider_trades k) (company_news k)
  | Metrics l => mkCache float (prices k) (<[ticker_of c := l]> (financial_metrics k))
                   (insider_trades k) (company_news k)
  | Trades l => mkCache float (prices k) (financial_metrics k)
                  (<[ticker_of c := l]> (insider_trades k)) (company_news k)
  | News l => mkCache float (prices k) (financial_metrics k)
                (insider_trades k) (<[ticker_of c := l]> (company_news k))
  end.

(** The date a record is selected and ordered by. *)
Definition dates (r : records float) : list string :=
  match r with
  | Prices l => map Price.time l
  | Metrics l => map FinancialMetrics.report_period l
  | Trades l => map InsiderTrade.effective_date l
  | News l => map CompanyNews.date l
  end.

Definition count (r : records float) : nat := length (dates r).

(** Most recent first. *)
Definition sorted (r : records float) : Prop := Py.sorted_desc (fun d => d) (dates r).

(** The bounds of the call: inclusive, the lower one when there is one. *)
Definition within (c : call) (d : string) : Prop :=
  match c with
  | GetPrices _ s e => Py.le s d = true /\ Py.le d e = true
  | GetFinancialMetrics _ e _ _ => Py.le d e = true
  | GetInsiderTrades _ e s _ | GetCompanyNews _ e s _ =>
      Py.le d e = true /\ (forall s', s = Some s' -> Py.le s' d = true)
  end.

(** The records of [r] in the date range of the call, as the cache block
    lists them: in their order for prices, most recent first for the other
    kinds. *)
Definition selected (c : call) (r : records float) : records float :=
  match c, r with
  | GetPrices _ s e, Prices l =>
      Prices (List.filter (fun x => Py.le s (Price.time x) && Py.le (Price.time x) e) l)
  | GetFinancialMetrics _ e _ _, Metrics l =>
      Metrics (Py.sort_desc FinancialMetrics.report_period
                 (List.filter (fun x => Py.le (FinancialMetrics.report_period x) e) l))
  | GetInsiderTrades _ e s _, Trades l =>
      Trades (Py.sort_desc InsiderTrade.effective_date
                (List.filter (fun x => Api.in_range s e (InsiderTrade.effective_date x)) l))
  | GetCompanyNews _ e s _, News l =>
      News (Py.sort_desc CompanyNews.date
              (List.filter (fun x => Api.in_range s e (CompanyNews.date x)) l))
  | _, _ => r
  end.

(** What a cache hit returns: the selected records, cut to [limit] for
    financial metrics. *)
Definition cache_answer (c : call) (r : records float) : records float :=
  match c, selected c r with
  | GetFinancialMetrics _ _ _ n, Metrics l => Metrics (Py.slice_to n l)
  | _, r' => r'
  end.

Definition some (r : records float) : bool := Py.nonempty (dates r).

(** The requests a call sent: those in the log of [w'] that are not in the
    log of [w], the latest first. *)
Definition requests_since (w w' : World float) : list request :=
  firstn (length (sent w') - length (sent w)) (sent w').
End Calls.

(** ** The cache block *)

Section CacheBlock.
Context {float : Type} {py : Python float}.

Lemma nonempty_map {A B} (f : A -> B) (l : list A) :
  Py.nonempty (map f l) = Py.nonempty l.
Proof. now destruct l. Qed.

Lemma nonempty_false {A} (l : list A) : Py.nonempty l = false -> l = [].
Proof. now destruct l. Qed.

Lemma filter_nonempty {A} (f : A -> bool) (l : list A) :
  Py.nonempty l = false -> Py.nonempty (List.filter f l) = false.
Proof. intros H. now rewrite (nonempty_false l H). Qed.

(** Every call starts the same way: the answer comes from the cache when
    the cached entry has records in the range, and from the rest of the
    function otherwise. *)
Lemma run_cache_block (p : provider) (fuel : nat) (c : call) (w : World float) :
  run p fuel c w =
    if some (selected c (cache_entry c (cache w)))
    then (Ok (cache_answer c (cache_entry c (cache w))), w)
    else run_fetch p fuel c w.
Proof.
  destruct p, c; cbn [run run_fetch cache_entry selected cache_answer];
    unfold some; cbn [dates];
    unfold returning, Api.get_prices, Api.get_financial_metrics, Api.get_insider_trades,
      Api.get_company_news, ApiEast.get_prices, ApiEast.get_financial_metrics,
      ApiEast.get_insider_trades, ApiEast.get_company_news, bind, ret,
      cache_get_prices, cache_get_financial_metrics, cache_get_insider_trades,
      cache_get_company_news;
    rewrite nonempty_map;
    match goal with |- context [cached_records ?x] => set (l := cached_records x) end;
    destruct (Py.nonempty l) eqn:El;
    try (rewrite ?sort_desc_nonempty, filter_nonempty by exact El; reflexivity);
    match goal with |- context [if Py.nonempty ?f then _ else _] =>
      destruct (Py.nonempty f) end; reflexivity.
Qed.
End CacheBlock.

(** ** What a computation may do to the world *)

Section Effects.
Context {float : Type} {py : Python float}.

(** The world [w] after one more request. *)
Definition after_request (req : request) (w : World float) : World float :=
  mkWorld float (environ w) (transport w) (cache w) (req :: sent w).

(** [respects R m]: whatever [m] returns, it takes a world to one related
    to it by [R]. *)
Definition respects (R : World float -> World float -> Prop) {A} (m : M float A) : Prop :=
  forall w, R w (snd (m w)).

(** The relations used below. *)
Definition same_cache (w w' : World float) : Prop := cache w' = cache w.
Definition same_sent (w w' : World float) : Prop := sent w' = sent w.
Definition extends (w w' : World float) : Prop :=
  environ w' = environ w /\ transport w' = transport w
  /\ exists new, sent w' = new ++ sent w.

Definition closed_under_send (R : World float -> World float -> Prop) : Prop :=
  forall w req, R w (after_request req w).
Definition closed_under_set (R : World float -> World float -> Prop) : Prop :=
  forall w f, R w (mkWorld float (environ w) (transport w) (f (cache w)) (sent w)).

Section Respects.
Variable R : World float -> World float -> Prop.
Hypothesis R_refl : forall w, R w w.
Hypothesis R_trans : forall w1 w2 w3, R w1 w2 -> R w2 w3 -> R w1 w3.

Lemma respects_ret {A} (a : A) : respects R (ret a).
Proof. intros w. apply R_refl. Qed.

Lemma respects_raise {A} (e : exn float) : respects R (raise (A := A) e).
Proof. intros w. apply R_refl. Qed.

Lemma respects_lift {A} (r : result float A) : respects R (lift r).
Proof. intros w. apply R_refl. Qed.

Lemma respects_environ_get (k : string) : respects R (environ_get k).
Proof. intros w. apply R_refl. Qed.

Lemma respects_cache_get_prices t : respects R (cache_get_prices t).
Proof. intros w. apply R_refl. Qed.
Lemma respects_cache_get_financial_metrics t : respects R (cache_get_financial_metrics t).
Proof. intros w. apply R_refl. Qed.
Lemma respects_cache_get_insider_trades t : respects R (cache_get_insider_trades t).
Proof. intros w. apply R_refl. Qed.
Lemma respects_cache_get_company_news t : respects R (cache_get_company_news t).
Proof. intros w. apply R_refl. Qed.

Lemma respects_bind {A B} (m : M float A) (k : A -> M float B) :
  respects R m -> (forall a, respects R (k a)) -> respects R (bind m k).
Proof.
  intros Hm Hk w. unfold bind. specialize (Hm w).
  destruct (m w) as [[a|e|] w1]; simpl in *; try assumption.
  eapply R_trans; [exact Hm|]. apply Hk.
Qed.

Lemma respects_try_except {A} (m : M float A) (h : exn float -> M float A) :
  respects R m -> (forall e, respects R (h e)) -> respects R (try_except m h).
Proof.
  intros Hm Hh w. unfold try_except. specialize (Hm w).
  destruct (m w) as [[a|e|] w1]; simpl in *; try assumption.
  eapply R_trans; [exact Hm|]. apply Hh.
Qed.

Lemma respects_requests_send (req : request) :
  closed_under_send R -> respects R (requests_send req).
Proof.
  intros HR w. unfold requests_send.
  destruct (transport w (length (sent w)) req); simpl; apply HR.
Qed.

Lemma respects_with_cache (f : Cache float -> Cache float) :
  closed_under_set R -> respects R (with_cache f).
Proof. intros HR w. apply HR. Qed.
End Respects.

Lemma same_cache_refl w : same_cache w w.
Proof. reflexivity. Qed.
Lemma same_cache_trans w1 w2 w3 : same_cache w1 w2 -> same_cache w2 w3 -> same_cache w1 w3.
Proof. unfold same_cache. congruence. Qed.
Lemma same_cache_send : closed_under_send same_cache.
Proof. intros w req. reflexivity. Qed.

Lemma same_sent_refl w : same_sent w w.
Proof. reflexivity. Qed.
Lemma same_sent_trans w1 w2 w3 : same_sent w1 w2 -> same_sent w2 w3 -> same_sent w1 w3.
Proof. unfold same_sent. congruence. Qed.
Lemma same_sent_set : closed_under_set same_sent.
Proof. intros w f. reflexivity. Qed.

Lemma extends_refl w : extends w w.
Proof. repeat split. now exists []. Qed.
Lemma extends_trans w1 w2 w3 : extends w1 w2 -> extends w2 w3 -> extends w1 w3.
Proof.
  intros (E1 & T1 & n1 & S1) (E2 & T2 & n2 & S2). repeat split; try congruence.
  exists (n2 ++ n1). rewrite S2, S1. apply app_assoc.
Qed.
Lemma extends_send : closed_under_send extends.
Proof. intros w req. repeat split. now exists [req]. Qed.
Lemma extends_set : closed_under_set extends.
Proof. intros w f. repeat split. now exists []. Qed.
End Effects.

Create HintDb world.
#[global] Hint Resolve same_cache_refl same_cache_trans same_cache_send
  same_sent_refl same_sent_trans same_sent_set
  extends_refl extends_trans extends_send extends_set : world.

(** One step of a proof that a computation respects a relation. *)
Ltac respects_step :=
  lazymatch goal with
  | |- respects _ (bind _ _) => apply respects_bind; [solve [eauto with world] | | intros ?]
  | |- respects _ (try_except _ _) =>
      apply respects_try_except; [solve [eauto with world] | | intros ?]
  | |- respects _ (ret _) => apply respects_ret; eauto with world
  | |- respects _ (raise _) => apply respects_raise; eauto with world
  | |- respects _ (lift _) => apply respects_lift; eauto with world
  | |- respects _ (environ_get _) => apply respects_environ_get; eauto with world
  | |- respects _ (cache_get_prices _) => apply respects_cache_get_prices; eauto with world
  | |- respects _ (cache_get_financial_metrics _) =>
      apply respects_cache_get_financial_metrics; eauto with world
  | |- respects _ (cache_get_insider_trades _) =>
      apply respects_cache_get_insider_trades; eauto with world
  | |- respects _ (cache_get_company_news _) =>
      apply respects_cache_get_company_news; eauto with world
  | |- respects _ (requests_send _) => apply respects_requests_send; eauto with world
  | |- respects _ (with_cache _) => apply respects_with_cache; eauto with world
  | |- respects _ (if ?b then _ else _) => destruct b
  | |- respects _ (match ?x with _ => _ end) => destruct x
  end.

Ltac respects_unfold :=
  unfold Api.juhe_api_key, Api.juhe_request,
    cache_set_prices, cache_set_financial_metrics, cache_set_insider_trades,
    cache_set_company_news, ApiEast.fd_headers, returning.

Ltac respects_tac := repeat first [respects_step | progress respects_unfold].

Section Frames.
Context {float : Type} {py : Python float}.

Lemma insider_trades_loop_respects R fuel headers ticker start_date limit acc cursor :
  (forall w, R w w) -> (forall w1 w2 w3, R w1 w2 -> R w2 w3 -> R w1 w3) ->
  closed_under_send R ->
  respects R (ApiEast.insider_trades_loop (float := float) fuel headers ticker start_date
                limit acc cursor).
Proof.
  intros Hr Ht Hs. revert acc cursor.
  induction fuel as [|fuel IH]; intros acc cursor; simpl.
  - apply respects_lift; assumption.
  - repeat first [apply IH | respects_step | assumption].
Qed.

Lemma company_news_loop_respects R fuel headers ticker start_date limit acc cursor :
  (forall w, R w w) -> (forall w1 w2 w3, R w1 w2 -> R w2 w3 -> R w1 w3) ->
  closed_under_send R ->
  respects R (ApiEast.company_news_loop (float := float) fuel headers ticker start_date
                limit acc cursor).
Proof.
  intros Hr Ht Hs. revert acc cursor.
  induction fuel as [|fuel IH]; intros acc cursor; simpl.
  - apply respects_lift; assumption.
  - repeat first [apply IH | respects_step | assumption].
Qed.

(** No call touches the environment or the transport, and the log of
    requests only grows. *)
Lemma run_fetch_extends (p : provider) (fuel : nat) (c : call) :
  respects extends (run_fetch (float := float) p fuel c).
Proof.
  destruct p, c; cbn [run_fetch];
    unfold Api.get_prices_fetch, Api.get_financial_metrics_fetch,
      Api.get_insider_trades_fetch, Api.get_company_news_fetch,
      ApiEast.get_prices_fetch, ApiEast.get_prices_sina, ApiEast.get_prices_eastmoney,
      ApiEast.get_financial_metrics_fetch, ApiEast.get_financial_metrics_eastmoney,
      ApiEast.get_insider_trades_fetch, ApiEast.get_company_news_fetch;
    repeat first [ respects_step | progress respects_unfold
                 | apply insider_trades_loop_respects; eauto with world
                 | apply company_news_loop_respects; eauto with world ].
Qed.

Lemma run_extends (p : provider) (fuel : nat) (c : call) :
  respects extends (run (float := float) p fuel c).
Proof.
  intros w. rewrite run_cache_block. destruct (some _); [apply extends_refl|].
  apply run_fetch_extends.
Qed.
End Frames.

(** ** What a fetch does to the cache *)

Section Tidy.
Context {float : Type} {py : Python float}.

(** [tidy post m]: when [m] returns [a], the cache before and after are
    related by [post a]; when it does not return, the cache is as before. *)
Definition tidy {A} (post : Cache float -> A -> Cache float -> Prop) (m : M float A) : Prop :=
  forall w,
    match m w with
    | (Ok a, w') => post (cache w) a (cache w')
    | (_, w') => cache w' = cache w
    end.

Lemma tidy_bind {A B} (post : Cache float -> B -> Cache float -> Prop)
    (m : M float A) (k : A -> M float B) :
  respects same_cache m -> (forall a, tidy post (k a)) -> tidy post (bind m k).
Proof.
  intros Hm Hk w. unfold bind. specialize (Hm w). unfold same_cache in Hm.
  destruct (m w) as [[a|e|] w1]; simpl in *; try assumption.
  specialize (Hk a w1). rewrite Hm in Hk. exact Hk.
Qed.

Lemma tidy_try_except {A} (post : Cache float -> A -> Cache float -> Prop)
    (m : M float A) (h : exn float -> M float A) :
  tidy post m -> (forall e, tidy post (h e)) -> tidy post (try_except m h).
Proof.
  intros Hm Hh w. unfold try_except. specialize (Hm w).
  destruct (m w) as [[a|e|] w1]; simpl in *; try assumption.
  specialize (Hh e w1). rewrite Hm in Hh. exact Hh.
Qed.

Lemma tidy_raise {A} (post : Cache float -> A -> Cache float -> Prop) (e : exn float) :
  tidy post (raise e).
Proof. intros w. reflexivity. Qed.

Lemma tidy_returning {A} (post : Cache float -> records float -> Cache float -> Prop)
    (wrap : A -> records float) (m : M float A) :
  tidy (fun k a k' => post k (wrap a) k') m -> tidy post (returning wrap m).
Proof.
  intros Hm w. unfold returning, bind, ret. specialize (Hm w).
  destruct (m w) as [[a|e|] w1]; simpl in *; assumption.
Qed.

(** api.py tests [all_trades] and [all_news] for emptiness before it cuts
    them to [limit]; every other fetch tests the list it returns. *)
Definition checks_before_cut (p : provider) (c : call) : bool :=
  match p, c with
  | Juhe, GetInsiderTrades _ _ _ _ | Juhe, GetCompanyNews _ _ _ _ => true
  | _, _ => false
  end.

(** The cache after a fetch that returned [r]: [r] is stored when it has
    records; when it has none, the cache is as before, or, where the test
    comes before the cut, holds the empty list. *)
Definition stored (p : provider) (c : call) (k : Cache float) (r : records float)
    (k' : Cache float) : Prop :=
  if some r then k' = cache_set c r k
  else k' = k \/ (checks_before_cut p c = true /\ k' = cache_set c r k).
End Tidy.

Ltac tidy_step :=
  lazymatch goal with
  | |- tidy _ (returning _ _) => apply tidy_returning
  | |- tidy _ (try_except _ _) => apply tidy_try_except; [| intros ?]
  | |- tidy _ (raise _) => apply tidy_raise
  | |- tidy _ (bind _ _) =>
      apply tidy_bind;
      [ solve [ repeat first [ respects_step | progress respects_unfold
                             | apply insider_trades_loop_respects; eauto with world
                             | apply company_news_loop_respects; eauto with world ] ]
      | intros ? ]
  | |- tidy _ (if ?b then _ else _) => destruct b eqn:?
  | |- tidy _ (match ?x with _ => _ end) => destruct x eqn:?
  end.

Section FetchCache.
Context {float : Type} {py : Python float}.

Lemma run_fetch_tidy (p : provider) (fuel : nat) (c : call) :
  tidy (stored p c) (run_fetch (float := float) p fuel c).
Proof.
  destruct p, c; cbn [run_fetch];
    unfold Api.get_prices_fetch, Api.get_financial_metrics_fetch,
      Api.get_insider_trades_fetch, Api.get_company_news_fetch,
      ApiEast.get_prices_fetch, ApiEast.get_prices_sina, ApiEast.get_prices_eastmoney,
      ApiEast.get_financial_metrics_fetch, ApiEast.get_financial_metrics_eastmoney,
      ApiEast.get_insider_trades_fetch, ApiEast.get_company_news_fetch;
    repeat tidy_step.
  all: intros w; unfold bind, ret, cache_set_prices, cache_set_financial_metrics,
         cache_set_insider_trades, cache_set_company_news, with_cache, stored, some;
       cbn; rewrite ?nonempty_map;
       repeat match goal with
              | H : negb _ = true |- _ => apply negb_true_iff in H
              | H : negb _ = false |- _ => apply negb_false_iff in H
              end;
       repeat match goal with
              | |- context [Py.nonempty ?l] =>
                  destruct (Py.nonempty l) eqn:?; cbn; rewrite ?nonempty_map in *
              end;
       try congruence; auto.
Qed.

(** The same, for the whole call: a cache hit leaves the cache as it is. *)
Lemma run_tidy (p : provider) (fuel : nat) (c : call) (w : World float) :
  match run p fuel c w with
  | (Ok r, w') =>
      if some (selected c (cache_entry c (cache w))) then cache w' = cache w
      else stored p c (cache w) r (cache w')
  | (_, w') => cache w' = cache w
  end.
Proof.
  rewrite run_cache_block. destruct (some _) eqn:E; [reflexivity|].
  apply run_fetch_tidy.
Qed.
End FetchCache.

(** ** The first request of a fetch *)

Section FirstRequest.
Context {float : Type} {py : Python float}.

(** [sends_first req m]: [m] sends [req], and whatever else it sends comes
    after it. *)
Definition sends_first {A} (req : request) (m : M float A) : Prop :=
  forall w, exists new, sent (snd (m w)) = new ++ req :: sent w.

Lemma sends_first_send (req : request) : sends_first req (requests_send req).
Proof.
  intros w. exists []. unfold requests_send.
  now destruct (transport w (length (sent w)) req).
Qed.

Lemma sends_first_bind {A B} req (m : M float A) (k : A -> M float B) :
  sends_first req m -> (forall a, respects extends (k a)) -> sends_first req (bind m k).
Proof.
  intros Hm Hk w. unfold bind. destruct (Hm w) as [new Hnew].
  destruct (m w) as [[a|e|] w1]; simpl in *; eauto.
  destruct (Hk a w1) as (_ & _ & new' & Hnew'). exists (new' ++ new).
  rewrite Hnew', Hnew. apply app_assoc.
Qed.

Lemma sends_first_try_except {A} req (m : M float A) (h : exn float -> M float A) :
  sends_first req m -> (forall e, respects extends (h e)) -> sends_first req (try_except m h).
Proof.
  intros Hm Hh w. unfold try_except. destruct (Hm w) as [new Hnew].
  destruct (m w) as [[a|e|] w1]; simpl in *; eauto.
  destruct (Hh e w1) as (_ & _ & new' & Hnew'). exists (new' ++ new).
  rewrite Hnew', Hnew. apply app_assoc.
Qed.

(** The key api.py sends, and the header api_east.py sends. *)
Definition juhe_key (w : World float) : string :=
  match environ w !! "JUHE_API_KEY" with Some k => k | None => "" end.

Definition fd_key (w : World float) : option string :=
  if key_truthy (environ w !! "FINANCIAL_DATASETS_API_KEY")
  then environ w !! "FINANCIAL_DATASETS_API_KEY" else None.

(** The request a fetch starts with. *)
Definition first_request (p : provider) (c : call) (w : World float) : request :=
  match p, c with
  | Juhe, GetPrices t s e => JuheHs t (juhe_key w) s e
  | Juhe, GetFinancialMetrics t _ _ _ => JuheFindata t (juhe_key w)
  | Juhe, GetInsiderTrades t _ _ _ => JuheExecutives t (juhe_key w)
  | Juhe, GetCompanyNews t _ _ _ => JuheNews t (juhe_key w)
  | East, GetPrices t s e =>
      SinaHisdata (if Py.startswith "6" t then String.append "sh" t else String.append "sz" t) s e
  | East, GetFinancialMetrics t _ _ _ => EastmoneyZYZB t
  | East, GetInsiderTrades t e s n => FdInsiderTrades (fd_key w) t e (ApiEast.url_start s) n
  | East, GetCompanyNews t e s n => FdNews (fd_key w) t e (ApiEast.url_start s) n
  end.

(** What stands between the cache block and the network: the key of Juhe in
    api.py, the two dates that [get_prices] of api_east.py parses. *)
Definition fetch_is_live (p : provider) (c : call) (w : World float) : bool :=
  match p, c with
  | Juhe, _ => key_truthy (environ w !! "JUHE_API_KEY")
  | East, GetPrices _ s e =>
      match strptime_mktime s, strptime_mktime e with
      | Some _, Some _ => true
      | _, _ => false
      end
  | East, _ => true
  end.

Definition fetch_refusal (p : provider) : exn float :=
  match p with
  | Juhe => MissingApiKey "JUHE_API_KEY"
  | East => ValueError
  end.

Lemma juhe_api_key_live (w : World float) :
  key_truthy (environ w !! "JUHE_API_KEY") = true ->
  Api.juhe_api_key w = (Ok (juhe_key w), w).
Proof.
  unfold Api.juhe_api_key, juhe_key, bind, environ_get, key_truthy.
  destruct (environ w !! "JUHE_API_KEY") as [k|]; [|discriminate].
  intros ->. reflexivity.
Qed.

Lemma juhe_api_key_refused (w : World float) :
  key_truthy (environ w !! "JUHE_API_KEY") = false ->
  Api.juhe_api_key w = (Raise (MissingApiKey "JUHE_API_KEY"), w).
Proof.
  unfold Api.juhe_api_key, bind, environ_get, key_truthy.
  destruct (environ w !! "JUHE_API_KEY") as [k|]; [|reflexivity].
  intros ->. reflexivity.
Qed.

Lemma fd_headers_eq (w : World float) : ApiEast.fd_headers w = (Ok (fd_key w), w).
Proof. reflexivity. Qed.

Lemma returning_bind_ok {A B} (wrap : B -> records float) (m : M float A)
    (k : A -> M float B) (a : A) (w : World float) :
  m w = (Ok a, w) -> returning wrap (bind m k) w = returning wrap (k a) w.
Proof. intros H. unfold returning, bind. now rewrite H. Qed.

Lemma bind_ok {A B} (m : M float A) (k : A -> M float B) (a : A) (w : World float) :
  m w = (Ok a, w) -> bind m k w = k a w.
Proof. intros H. unfold bind. now rewrite H. Qed.

Lemma returning_bind_raise {A B} (wrap : B -> records float) (m : M float A)
    (k : A -> M float B) (e : exn float) (w : World float) :
  m w = (Raise e, w) -> returning wrap (bind m k) w = (Raise e, w).
Proof. intros H. unfold returning, bind. now rewrite H. Qed.

Lemma sends_first_returning {A} req (wrap : A -> records float) (m : M float A) :
  sends_first req m -> sends_first req (returning wrap m).
Proof.
  intros H. apply sends_first_bind; [exact H|]. intros a. apply respects_ret, extends_refl.
Qed.

End FirstRequest.

Ltac sends_tac :=
  repeat first
    [ apply sends_first_send
    | apply sends_first_returning
    | apply sends_first_bind; [| intros ?]
    | apply sends_first_try_except; [| intros ?]
    | respects_step
    | progress respects_unfold
    | apply insider_trades_loop_respects; eauto with world
    | apply company_news_loop_respects; eauto with world ].

Section FetchStart.
Context {float : Type} {py : Python float}.

(** A fetch that is not refused sends its first request. *)
Lemma run_fetch_live (p : provider) (fuel : nat) (c : call) (w : World float) :
  fetch_is_live p c w = true ->
  exists new, sent (snd (run_fetch p (S fuel) c w)) = new ++ first_request p c w :: sent w.
Proof.
  intros Hlive.
  destruct p, c; cbn [run_fetch fetch_is_live first_request] in *;
    unfold Api.get_prices_fetch, Api.get_financial_metrics_fetch,
      Api.get_insider_trades_fetch, Api.get_company_news_fetch,
      ApiEast.get_prices_fetch,
      ApiEast.get_financial_metrics_fetch, ApiEast.get_financial_metrics_eastmoney,
      ApiEast.get_insider_trades_fetch, ApiEast.get_company_news_fetch.
  1-4: rewrite (returning_bind_ok _ _ _ _ _ (juhe_api_key_live w Hlive)).
  5: destruct (strptime_mktime start_date); [|discriminate];
     destruct (strptime_mktime end_date); [|discriminate];
     unfold ApiEast.get_prices_sina, ApiEast.get_prices_eastmoney.
  7-8: rewrite (returning_bind_ok _ _ _ _ _ (fd_headers_eq w));
       cbn [ApiEast.insider_trades_loop ApiEast.company_news_loop].
  all: match goal with
       | |- exists new, sent (snd (?m ?w0)) = new ++ ?req :: sent ?w0 =>
           apply (fun H : sends_first req m => H w0)
       end.
  all: sends_tac.
Qed.

(** A fetch that is refused raises at once, before any request. *)
Lemma run_fetch_refused (p : provider) (fuel : nat) (c : call) (w : World float) :
  fetch_is_live p c w = false ->
  run_fetch p fuel c w = (Raise (fetch_refusal p), w).
Proof.
  intros Hlive.
  destruct p, c; cbn [run_fetch fetch_is_live fetch_refusal] in *; try discriminate;
    unfold Api.get_prices_fetch, Api.get_financial_metrics_fetch,
      Api.get_insider_trades_fetch, Api.get_company_news_fetch, ApiEast.get_prices_fetch.
  1-4: now rewrite (returning_bind_raise _ _ _ _ _ (juhe_api_key_refused w Hlive)).
  unfold returning, bind.
  destruct (strptime_mktime start_date); [destruct (strptime_mktime end_date)|];
    try discriminate; reflexivity.
Qed.
End FetchStart.

(** ** A runtime for the scenarios

    Floats are the binary64 numbers of the machine.  [float(s)] is decided
    for the plain decimal numerals ([-12.5]); dates are read in the form
    [YYYY-MM-DD], the only one the scenarios use, as midnight UTC. *)

Module Scenario.

Definition float_of_Z (n : Z) : PrimFloat.float :=
  FloatOps.SF2Prim (SpecFloat.binary_normalize FloatOps.prec FloatOps.emax n 0 false).

(** [m / d], rounded once, to nearest even. *)
Definition ratio_to_float (m d : Z) : PrimFloat.float :=
  let s := Z.log2 d + 65 in
  let q := (m * 2 ^ s) / d in
  let sticky := if (m * 2 ^ s) mod d =? 0 then 0 else 1 in
  FloatOps.SF2Prim
    (SpecFloat.binary_normalize FloatOps.prec FloatOps.emax (2 * q + sticky) (- (s + 1)) false).

Definition digit (c : ascii) : option Z :=
  let n := Z.of_N (N_of_ascii c) in
  if (48 <=? n) && (n <=? 57) then Some (n - 48) else None.

Fixpoint digits (s : string) (acc : Z) : option Z :=
  match s with
  | EmptyString => Some acc
  | String c s' => match digit c with Some d => digits s' (10 * acc + d) | None => None end
  end.

Fixpoint before_dot (s : string) : string * option string :=
  match s with
  | EmptyString => (EmptyString, None)
  | String c s' =>
      if Ascii.eqb c "." then (EmptyString, Some s')
      else let (a, b) := before_dot s' in (String c a, b)
  end.

Definition unsigned_decimal (s : string) : option PrimFloat.float :=
  let (int_part, frac) := before_dot s in
  let frac_part := match frac with Some f => f | None => EmptyString end in
  if (String.length int_part + String.length frac_part =? 0)%nat then None
  else
    match digits (String.append int_part frac_part) 0 with
    | Some m => Some (ratio_to_float m (10 ^ Z.of_nat (String.length frac_part)))
    | None => None
    end.

Definition decimal (s : string) : option PrimFloat.float :=
  match s with
  | String "-" s' => option_map PrimFloat.opp (unsigned_decimal s')
  | String "+" s' => unsigned_decimal s'
  | _ => unsigned_decimal s
  end.

Definition leap (y : Z) : bool :=
  ((y mod 4 =? 0) && negb (y mod 100 =? 0)) || (y mod 400 =? 0).

Definition days_in_month (y m : Z) : Z :=
  if m =? 2 then (if leap y then 29 else 28)
  else if (m =? 4) || (m =? 6) || (m =? 9) || (m =? 11) then 30 else 31.

(** Days from 1970-01-01 to the given day of the Gregorian calendar. *)
Definition days_from_civil (y m d : Z) : Z :=
  let y' := if m <=? 2 then y - 1 else y in
  let era := y' / 400 in
  let yoe := y' - era * 400 in
  let mp := (m + 9) mod 12 in
  let doy := (153 * mp + 2) / 5 + d - 1 in
  let doe := yoe * 365 + yoe / 4 - yoe / 100 + doy in
  era * 146097 + doe - 719468.

Definition iso_date (s : string) : option Z :=
  if (String.length s =? 10)%nat then
    match digits (substring 0 4 s) 0, digits (substring 5 2 s) 0, digits (substring 8 2 s) 0 with
    | Some y, Some m, Some d =>
        if String.eqb (substring 4 1 s) "-" && String.eqb (substring 7 1 s) "-"
           && (1 <=? y) && (1 <=? m) && (m <=? 12) && (1 <=? d) && (d <=? days_in_month y m)
        then Some (86400 * days_from_civil y m d) else None
    | _, _, _ => None
    end
  else None.

#[global] Instance python : Python PrimFloat.float := {|
  float_truthy x := negb (PrimFloat.eqb x PrimFloat.zero);
  float_of_int n :=
    let x := float_of_Z n in if PrimFloat.is_infinity x then None else Some x;
  float_of_str := decimal;
  float_div_int x n := PrimFloat.div x (float_of_Z n);
  strptime_mktime := iso_date;
  to_datetime := iso_date
|}.

Abbreviation F := PrimFloat.float.

(** A world with nothing in it: no variable in the environment, no answer
    from the network, an empty cache, no request sent. *)
Definition no_cache : Cache F := mkCache F ∅ ∅ ∅ ∅.
Definition silence : nat -> request -> reply F := fun _ _ => NoReply.
Definition nowhere : World F := mkWorld F ∅ silence no_cache [].

(** A transport that gives the [n]-th request the [n]-th answer of a list. *)
Definition answers (l : list (reply F)) : nat -> request -> reply F :=
  fun n _ => nth n l NoReply.

Definition ok_json (v : json F) : reply F := Reply (mkResponse F 200 "" (Some v)).
Definition status (code : Z) (text : string) : reply F :=
  Reply (mkResponse F code text None).

Definition price (ticker time : string) (close : Z) : Price.t F :=
  let x := float_of_Z close in Price.mk F ticker time x x x x (float_of_Z 1000) None.

Definition metric (ticker report_period : string) (market_cap : option Z)
  : FinancialMetrics.t F :=
  FinancialMetrics.mk F ticker report_period (option_map float_of_Z market_cap)
    None None None.

Definition trade (ticker filing_date : string) (transaction_date : option string)
  : InsiderTrade.t F :=
  InsiderTrade.mk F ticker filing_date transaction_date "A. Director" "Director" "Buy"
    (float_of_Z 100) None None None.

Definition news (ticker date title : string) : CompanyNews.t :=
  CompanyNews.mk ticker date title "https://example.com/a" "Example" "".
End Scenario.

(** ** C1: the cache policy *)

Section C1.
Context {float : Type} {py : Python float}.

(** C1, as the code has it.  For both files, every data kind and every
    call: when the cached entry of the ticker has records in the date range,
    the call returns them (most recent first for financial metrics, insider
    trades and news, and cut to [limit] for financial metrics) and sends
    no request, and the world is as before; when it has none, the call is
    its fetch path.  The fetch path sends its first request unless it is
    refused before: api.py raises on a missing or empty [JUHE_API_KEY],
    [get_prices] of api_east.py raises on a date it cannot parse. *)
Theorem C1_cache_hit_or_fetch (p : provider) (fuel : nat) (c : call) (w : World float) :
  run p (S fuel) c w =
    (if some (selected c (cache_entry c (cache w)))
     then (Ok (cache_answer c (cache_entry c (cache w))), w)
     else run_fetch p (S fuel) c w)
  /\ (if fetch_is_live p c w
      then exists new,
             sent (snd (run_fetch p (S fuel) c w)) = new ++ first_request p c w :: sent w
      else run_fetch p (S fuel) c w = (Raise (fetch_refusal p), w)).
Proof.
  split; [apply run_cache_block|].
  destruct (fetch_is_live p c w) eqn:E.
  - now apply run_fetch_live.
  - now apply run_fetch_refused.
Qed.
End C1.

(** The cache holds a price of 600000 from before the range asked for, and
    no key of Juhe is configured: the filtered result is empty, and the call
    of api.py ends in the configuration error without any request. *)
Definition stale_prices_world : World Scenario.F :=
  mkWorld _ ∅ Scenario.silence
    (mkCache _ {[ "600000" := [Scenario.price "600000" "2022-12-30" 10] ]} ∅ ∅ ∅) [].

Lemma C1_counterexample :
  let c := GetPrices "600000" "2023-01-01" "2023-01-05" in
  some (cache_entry c (cache stale_prices_world)) = true
  /\ some (selected c (cache_entry c (cache stale_prices_world))) = false
  /\ Api.get_prices "600000" "2023-01-01" "2023-01-05" stale_prices_world
     = (Raise (MissingApiKey "JUHE_API_KEY"), stale_prices_world)
  /\ sent (snd (Api.get_prices "600000" "2023-01-01" "2023-01-05" stale_prices_world)) = [].
Proof. vm_compute. repeat split; reflexivity. Qed.

(** ** What a fetch returns *)

Section Returns.
Context {float : Type} {py : Python float}.

(** [returns P m]: whenever [m] returns a value, the value satisfies [P]. *)
Definition returns {A} (P : A -> Prop) (m : M float A) : Prop :=
  forall w a w', m w = (Ok a, w') -> P a.

Lemma returns_ret {A} (P : A -> Prop) (a : A) : P a -> returns P (ret a).
Proof. intros H w a' w' E. unfold ret in E. congruence. Qed.

Lemma returns_raise {A} (P : A -> Prop) (e : exn float) : returns P (raise e).
Proof. intros w a w' E. discriminate. Qed.

Lemma returns_bind {A B} (P : B -> Prop) (m : M float A) (k : A -> M float B) :
  (forall a, returns P (k a)) -> returns P (bind m k).
Proof.
  intros Hk w b w' E. unfold bind in E.
  destruct (m w) as [[a|e|] w1]; try discriminate. eapply Hk, E.
Qed.

Lemma returns_bind_lift {A B} (P : B -> Prop) (r : result float A) (k : A -> M float B) :
  (forall a, r = Ok a -> returns P (k a)) -> returns P (bind (lift r) k).
Proof.
  intros Hk w b w' E. unfold bind, lift in E.
  destruct r as [a|e|]; try discriminate. eapply Hk; [reflexivity|exact E].
Qed.

Lemma returns_try_except {A} (P : A -> Prop) (m : M float A) (h : exn float -> M float A) :
  returns P m -> (forall e, returns P (h e)) -> returns P (try_except m h).
Proof.
  intros Hm Hh w a w' E. unfold try_except in E.
  destruct (m w) as [[a'|e|] w1] eqn:Em; try discriminate.
  - inversion E; subst. eapply Hm, Em.
  - eapply Hh, E.
Qed.

Lemma returns_bind_with {A B} (Q : A -> Prop) (P : B -> Prop) (m : M float A)
    (k : A -> M float B) :
  returns Q m -> (forall a, Q a -> returns P (k a)) -> returns P (bind m k).
Proof.
  intros Hm Hk w b w' E. unfold bind in E.
  destruct (m w) as [[a|e|] w1] eqn:Em; try discriminate.
  eapply Hk; [eapply Hm, Em | exact E].
Qed.

Lemma returns_returning {A} (P : records float -> Prop) (wrap : A -> records float)
    (m : M float A) :
  returns (fun a => P (wrap a)) m -> returns P (returning wrap m).
Proof.
  intros Hm. apply (returns_bind_with _ _ _ _ Hm). intros a Ha. now apply returns_ret.
Qed.

(** *** The loops that build a list *)

Lemma for_each_length {A B} (f : A -> result float (option B)) (l : list A) (r : list B) :
  for_each f l = Ok r -> (length r <= length l)%nat.
Proof.
  revert r. induction l as [|x l IH]; simpl; intros r E.
  - inversion E. simpl. lia.
  - destruct (f x) as [y|e|]; try discriminate. simpl in E.
    destruct (for_each f l) as [ys|e|]; try discriminate. simpl in E.
    specialize (IH ys eq_refl). inversion E; subst. destruct y; simpl; lia.
Qed.

Lemma for_each_Forall {A B} (f : A -> result float (option B)) (P : B -> Prop)
    (l : list A) (r : list B) :
  (forall x y, f x = Ok (Some y) -> P y) -> for_each f l = Ok r -> Forall P r.
Proof.
  intros Hf. revert r. induction l as [|x l IH]; simpl; intros r E.
  - inversion E. constructor.
  - destruct (f x) as [y|e|] eqn:Ex; try discriminate. simpl in E.
    destruct (for_each f l) as [ys|e|]; try discriminate. simpl in E.
    specialize (IH ys eq_refl). inversion E; subst. destruct y; [constructor|]; eauto.
Qed.

(** A loop whose body raises on every item returns only on no item. *)
Lemma for_each_raising {A B} (f : A -> result float (option B)) (l : list A) (r : list B) :
  (forall x, In x l -> forall y, f x <> Ok y) -> for_each f l = Ok r -> r = [].
Proof.
  intros Hf E. destruct l as [|x l]; simpl in E; [now inversion E|].
  destruct (f x) as [y|e|] eqn:Ex; try discriminate.
  exfalso. eapply (Hf x); [now left | exact Ex].
Qed.

(** *** Order by date, on the list and on its dates *)

Lemma sorted_desc_map {A} (key : A -> string) (l : list A) :
  Py.sorted_desc key l -> Py.sorted_desc (fun d => d) (map key l).
Proof.
  unfold Py.sorted_desc. induction 1 as [|x l Hl IH Hx]; simpl; constructor; [assumption|].
  rewrite Forall_map. exact Hx.
Qed.

Lemma sorted_desc_of_map {A} (key : A -> string) (l : list A) :
  Py.sorted_desc (fun d => d) (map key l) -> Py.sorted_desc key l.
Proof.
  unfold Py.sorted_desc. induction l as [|x l IH]; simpl; intros H; [constructor|].
  inversion H as [|? ? Hl Hx]; subst. constructor; [auto|].
  rewrite Forall_map in Hx. exact Hx.
Qed.
End Returns.

Ltac returns_tac :=
  repeat first
    [ apply returns_returning
    | apply returns_raise
    | apply returns_bind_lift; intros ? ?
    | apply returns_try_except; [| intros ?]
    | apply returns_bind; intros ?
    | apply returns_ret
    | match goal with |- returns _ (if ?b then _ else _) => destruct b eqn:? end ].

(** Case analysis on the steps of a pure computation that returned. *)
Ltac ok_steps H :=
  repeat match type of H with
         | context [rbind ?r _] =>
             lazymatch r with
             | context [rbind _ _] => fail
             | _ => destruct r eqn:?; cbn [rbind] in H; try discriminate H
             end
         | (if ?b then _ else _) = _ => destruct b eqn:?; try discriminate H
         end.

Section FetchReturns.
Context {float : Type} {py : Python float}.

Lemma out_of_range_within (s : option string) (e d : string) :
  Api.out_of_range s e d = false ->
  Py.le d e = true /\ (forall s', s = Some s' -> Py.le s' d = true).
Proof.
  unfold Api.out_of_range. intros H. apply orb_false_iff in H as [Hs He].
  rewrite gt_not_le in He. apply negb_false_iff in He. split; [exact He|].
  intros s' ->. destruct s' as [|a s']; [apply le_empty|].
  simpl in Hs. rewrite lt_not_ge in Hs. now apply negb_false_iff in Hs.
Qed.

Lemma in_range_within (s : option string) (e d : string) :
  Api.in_range s e d = true ->
  Py.le d e = true /\ (forall s', s = Some s' -> Py.le s' d = true).
Proof.
  unfold Api.in_range. intros H. apply andb_true_iff in H as [Hs He]. split; [exact He|].
  intros s' ->. exact Hs.
Qed.

Lemma trade_of_item_in_range t s e (item : json float) (y : InsiderTrade.t float) :
  Api.trade_of_item t s e item = Ok (Some y) ->
  Api.out_of_range s e (InsiderTrade.effective_date y) = false.
Proof.
  unfold Api.trade_of_item. intros H. ok_steps H.
  inversion H; subst. unfold InsiderTrade.effective_date. cbn.
  now destruct (Py.str_truthy _).
Qed.

Lemma news_of_item_in_range t s e (item : json float) (y : CompanyNews.t) :
  Api.news_of_item t s e item = Ok (Some y) ->
  Api.out_of_range s e (CompanyNews.date y) = false.
Proof.
  unfold Api.news_of_item. intros H. ok_steps H.
  inversion H; subst. assumption.
Qed.

(** At most [limit] items reach the loop of [get_financial_metrics]. *)
Lemma sliced_items_length (limit : Z) (d : json float) (items : list (json float)) :
  0 <= limit ->
  (let? d := py_slice_to limit d in py_iter d) = Ok items ->
  Z.of_nat (length items) <= limit
  \/ Forall (fun item => exists s, item = JStr s) items.
Proof.
  intros Hl H. destruct d; try discriminate; cbn in H; inversion H; subst.
  - right. induction (chars _) as [|x l IH]; simpl; constructor; eauto.
  - left. now apply slice_to_length.
Qed.
Lemma metrics_loop_length (f : json float -> result float (option (FinancialMetrics.t float)))
    (limit : Z) (d : json float) (items : list (json float))
    (r : list (FinancialMetrics.t float)) :
  (forall s, f (JStr s) = Raise AttributeError) ->
  0 <= limit ->
  (let? d := py_slice_to limit d in py_iter d) = Ok items ->
  for_each f items = Ok r ->
  Z.of_nat (length r) <= limit.
Proof.
  intros Hf Hl Hitems Hr.
  destruct (sliced_items_length limit d items Hl Hitems) as [H|H].
  - apply for_each_length in Hr. lia.
  - rewrite (for_each_raising f items r); [simpl; lia | | exact Hr].
    intros x Hx y Hy. rewrite Forall_forall in H.
    destruct (H x) as [s ->]; [now apply list_elem_of_In|]. rewrite Hf in Hy. discriminate.
Qed.

(** What the fetch paths promise about the list they return: api.py orders
    and cuts its insider trades and news and keeps those in the range, and
    both files cut the financial metrics. *)
Definition fetch_result_spec (p : provider) (c : call) (r : records float) : Prop :=
  match c with
  | GetPrices _ _ _ => True
  | GetFinancialMetrics _ _ _ n => 0 <= n -> Z.of_nat (count r) <= n
  | GetInsiderTrades _ _ _ n | GetCompanyNews _ _ _ n =>
      match p with
      | Juhe => sorted r /\ Forall (within c) (dates r)
                /\ (0 <= n -> Z.of_nat (count r) <= n)
      | East => True
      end
  end.

Lemma juhe_sorted_cut_in_range {A} (key : A -> string) (f : json float -> result float (option A))
    (s : option string) (e : string) (n : Z) (items : list (json float)) (l : list A) :
  (forall x y, f x = Ok (Some y) -> Api.out_of_range s e (key y) = false) ->
  for_each f items = Ok l ->
  let r := map key (Py.slice_to n (Py.sort_desc key l)) in
  Py.sorted_desc (fun d => d) r
  /\ Forall (fun d => Py.le d e = true /\ (forall s', s = Some s' -> Py.le s' d = true)) r
  /\ (0 <= n -> Z.of_nat (length r) <= n).
Proof.
  intros Hf Hl r. subst r. split; [|split].
  - apply sorted_desc_map, sorted_desc_slice_to, sort_desc_sorted.
  - apply List.Forall_map, slice_to_Forall, sort_desc_Forall.
    eapply for_each_Forall; [|exact Hl]. intros x y Hxy. cbn beta.
    now apply out_of_range_within, (Hf x).
  - intros Hn. rewrite length_map. now apply slice_to_length.
Qed.

Lemma run_fetch_returns (p : provider) (fuel : nat) (c : call) :
  returns (fetch_result_spec p c) (run_fetch p fuel c).
Proof.
  destruct p, c; cbn [run_fetch]; try (intros ? ? ? _; exact I);
    unfold Api.get_financial_metrics_fetch,
      Api.get_insider_trades_fetch, Api.get_company_news_fetch,
      ApiEast.get_financial_metrics_fetch, ApiEast.get_financial_metrics_eastmoney;
    returns_tac; unfold fetch_result_spec, sorted, count, within; cbn [dates].
  - simpl. lia.
  - intros Hn. rewrite length_map. destruct (Api.result_data _); try discriminate.
    eapply (metrics_loop_length (Api.metric_of_item ticker)); eauto.
  - repeat split; try constructor. simpl. lia.
  - eapply juhe_sorted_cut_in_range; [|eassumption]. apply trade_of_item_in_range.
  - repeat split; try constructor. simpl. lia.
  - eapply juhe_sorted_cut_in_range; [|eassumption]. apply news_of_item_in_range.
  - intros Hn. rewrite length_map. destruct (py_get _ _ _); try discriminate.
    eapply (metrics_loop_length (ApiEast.metric_of_item ticker)); eauto.
Qed.

(** On a cache hit, the list is ordered for the three dated kinds, and cut
    to [limit] for financial metrics. *)
Lemma cache_answer_sorted (c : call) (k : Cache float) :
  (forall t s e, c <> GetPrices t s e) -> sorted (cache_answer c (cache_entry c k)).
Proof.
  intros Hc. unfold sorted, cache_answer.
  destruct c; cbn [cache_entry selected dates]; try (exfalso; eapply Hc; reflexivity).
  all: apply sorted_desc_map; try apply sorted_desc_slice_to; apply sort_desc_sorted.
Qed.

Lemma cache_answer_metrics_count (t e per : string) (n : Z) (k : Cache float) :
  0 <= n ->
  Z.of_nat (count (cache_answer (GetFinancialMetrics t e per n)
                     (cache_entry (GetFinancialMetrics t e per n) k))) <= n.
Proof.
  intros Hn. unfold count, cache_answer. cbn [cache_entry selected dates].
  rewrite length_map. now apply slice_to_length.
Qed.
End FetchReturns.

(** ** C2: order and size of the returned list *)

(** Whether the path a call takes puts the list in order: the cache block
    does, for the three dated kinds; of the fetch paths, those of
    [get_insider_trades] and [get_company_news] of api.py. *)
Definition orders (p : provider) (c : call) (hit : bool) : bool :=
  match c with
  | GetPrices _ _ _ => false
  | GetFinancialMetrics _ _ _ _ => hit
  | GetInsiderTrades _ _ _ _ | GetCompanyNews _ _ _ _ =>
      hit || match p with Juhe => true | East => false end
  end.

(** The [limit] the path cuts the list to, when it does: financial metrics
    always; insider trades and news on the fetch path of api.py. *)
Definition cuts (p : provider) (c : call) (hit : bool) : option Z :=
  match c with
  | GetPrices _ _ _ => None
  | GetFinancialMetrics _ _ _ n => Some n
  | GetInsiderTrades _ _ _ n | GetCompanyNews _ _ _ n =>
      if hit then None else match p with Juhe => Some n | East => None end
  end.

(** C2, as the code has it.  A list returned from the cache is sorted
    descending by its date for insider trades, news and financial metrics;
    so is the list the network path of [get_insider_trades] and
    [get_company_news] of api.py returns.  For a [limit] that is not
    negative, [get_financial_metrics] returns at most [limit] entries on
    both paths, and the network path of [get_insider_trades] and
    [get_company_news] of api.py does. *)
Theorem C2_order_and_limit {float : Type} {py : Python float}
    (p : provider) (fuel : nat) (c : call) (w w' : World float) (r : records float) :
  run p fuel c w = (Ok r, w') ->
  let hit := some (selected c (cache_entry c (cache w))) in
  (orders p c hit = true -> sorted r)
  /\ (forall n, cuts p c hit = Some n -> 0 <= n -> Z.of_nat (count r) <= n).
Proof.
  intros Hrun hit. rewrite run_cache_block in Hrun. fold hit in Hrun.
  destruct hit.
  - inversion Hrun; subst. split.
    + intros Ho. apply cache_answer_sorted. intros t s e ->. discriminate.
    + intros n Hc Hn. destruct c; try discriminate. inversion Hc; subst.
      now apply cache_answer_metrics_count.
  - pose proof (run_fetch_returns p fuel c w r w' Hrun) as Hspec.
    unfold fetch_result_spec in Hspec. split.
    + intros Ho. destruct c, p; try discriminate; apply Hspec.
    + intros n Hc Hn. destruct c, p; try discriminate; inversion Hc; subst;
        now apply Hspec.
Qed.

(** Two news of 600000 in the cache, both in the range, and a call with
    [limit] 1. *)
Definition cached_news_world : World Scenario.F :=
  mkWorld _ ∅ Scenario.silence
    (mkCache _ ∅ ∅ ∅
       {[ "600000" := [Scenario.news "600000" "2023-01-02" "first";
                        Scenario.news "600000" "2023-01-04" "second"] ]}) [].

(** A page of news as financialdatasets sends it, the older entry first. *)
Definition C2_page : json Scenario.F :=
  let entry date title :=
    JDict [("ticker", JStr "AAPL"); ("date", JStr date); ("title", JStr title);
           ("url", JStr "https://example.com/a"); ("source", JStr "Example");
           ("summary", JStr "")] in
  JDict [("news", JList [entry "2023-01-02" "first"; entry "2023-01-04" "second"])].

Definition C2_network : World Scenario.F :=
  mkWorld _ ∅ (Scenario.answers [Scenario.ok_json C2_page]) Scenario.no_cache [].

(** On the cache path of api.py the two news come back, most recent first,
    although [limit] is 1; on the network path of api_east.py the page comes
    back as the provider sent it, oldest first. *)
Lemma C2_counterexample :
  Api.get_company_news "600000" "2023-01-05" (Some "2023-01-01") 1 cached_news_world
  = (Ok [Scenario.news "600000" "2023-01-04" "second";
         Scenario.news "600000" "2023-01-02" "first"], cached_news_world)
  /\ fst (ApiEast.get_company_news 1 "AAPL" "2023-01-05" None 1000 C2_network)
     = Ok [Scenario.news "AAPL" "2023-01-02" "first";
           Scenario.news "AAPL" "2023-01-04" "second"]
  /\ Py.le "2023-01-04" "2023-01-02" = false.
Proof. vm_compute. repeat split; reflexivity. Qed.

(** The financial metrics of a ticker, read back from the cache with
    [limit] 1. *)
Definition C2_metrics : World Scenario.F :=
  mkWorld _ ∅ Scenario.silence
    (mkCache _ ∅
       {[ "600000" := [Scenario.metric "600000" "2022-06-30" None;
                        Scenario.metric "600000" "2022-09-30" None] ]} ∅ ∅) [].

Lemma C2_witness :
  sorted (Metrics [Scenario.metric "600000" "2022-09-30" None])
  /\ (Z.of_nat (count (Metrics [Scenario.metric "600000" "2022-09-30" None])) <= 1)%Z.
Proof.
  pose proof (C2_order_and_limit Juhe 0 (GetFinancialMetrics "600000" "2023-01-05" "ttm" 1)
                C2_metrics C2_metrics
                (Metrics [Scenario.metric "600000" "2022-09-30" None]) eq_refl) as [Hs Hc].
  split; [apply Hs; reflexivity | apply (Hc 1); [reflexivity | lia]].
Defined.

(** ** C3: the dates of the returned records *)

Section Within.
Context {float : Type} {py : Python float}.

Lemma Forall_filter_bool {A} (f : A -> bool) (l : list A) :
  Forall (fun x => f x = true) (List.filter f l).
Proof.
  induction l as [|x l IH]; simpl; [constructor|].
  destruct (f x) eqn:E; [constructor|]; assumption.
Qed.

(** The cache block keeps only the records in the range of the call. *)
Lemma cache_answer_within (c : call) (k : Cache float) :
  Forall (within c) (dates (cache_answer c (cache_entry c k))).
Proof.
  unfold cache_answer. destruct c; cbn [cache_entry selected dates within];
    apply List.Forall_map; try apply slice_to_Forall; try apply sort_desc_Forall;
    (eapply Forall_impl; [apply Forall_filter_bool|]); cbn beta; intros x Hx.
  - now apply andb_true_iff in Hx.
  - exact Hx.
  - now apply in_range_within.
  - now apply in_range_within.
Qed.
End Within.

(** Whether the path a call takes looks at the dates of the records: the
    cache block does; of the fetch paths, those of [get_insider_trades] and
    [get_company_news] of api.py. *)
Definition filters (p : provider) (c : call) (hit : bool) : bool :=
  hit || match p, c with
         | Juhe, GetInsiderTrades _ _ _ _ | Juhe, GetCompanyNews _ _ _ _ => true
         | _, _ => false
         end.

(** C3, as the code has it.  Every record returned from the cache has its
    date within the inclusive bounds of the call (date <= end_date, and
    start_date <= date when a start date is given), for every kind and in
    both files; so has every record the network path of
    [get_insider_trades] and [get_company_news] of api.py returns. *)
Theorem C3_dates_within_bounds {float : Type} {py : Python float}
    (p : provider) (fuel : nat) (c : call) (w w' : World float) (r : records float) :
  run p fuel c w = (Ok r, w') ->
  filters p c (some (selected c (cache_entry c (cache w)))) = true ->
  Forall (within c) (dates r).
Proof.
  intros Hrun Hf. rewrite run_cache_block in Hrun.
  destruct (some (selected c (cache_entry c (cache w)))).
  - inversion Hrun; subst. apply cache_answer_within.
  - pose proof (run_fetch_returns p fuel c w r w' Hrun) as Hspec.
    unfold fetch_result_spec in Hspec.
    destruct p, c; try discriminate; apply Hspec.
Qed.

(** An insider trade filed in the range asked for, for a transaction made
    before it: financialdatasets, asked for the filing dates from 2023-01-01
    to 2023-01-05, sends it. *)
Definition late_filing_page : json Scenario.F :=
  JDict [("insider_trades",
          JList [JDict [("ticker", JStr "AAPL"); ("filing_date", JStr "2023-01-03");
                        ("transaction_date", JStr "2022-12-28");
                        ("insider_name", JStr "A. Director");
                        ("insider_title", JStr "Director");
                        ("transaction_type", JStr "Buy"); ("shares", JInt 100)]])].

Definition late_filing_world : World Scenario.F :=
  mkWorld _ ∅ (Scenario.answers [Scenario.ok_json late_filing_page]) Scenario.no_cache [].

(** The network path of api_east.py returns the trade, whose effective date
    is before [start_date]. *)
Lemma C3_counterexample :
  fst (ApiEast.get_insider_trades 1 "AAPL" "2023-01-05" (Some "2023-01-01") 1000 late_filing_world)
  = Ok [Scenario.trade "AAPL" "2023-01-03" (Some "2022-12-28")]
  /\ InsiderTrade.effective_date (Scenario.trade "AAPL" "2023-01-03" (Some "2022-12-28"))
     = "2022-12-28"
  /\ Py.le "2023-01-01" "2022-12-28" = false.
Proof. vm_compute. repeat split; reflexivity. Qed.

(** The news of [cached_news_world], read from the cache: both dates are in the
    range. *)
Lemma C3_witness :
  Forall (within (GetCompanyNews "600000" "2023-01-05" (Some "2023-01-01") 1))
    ["2023-01-04"; "2023-01-02"].
Proof.
  exact (C3_dates_within_bounds Juhe 0
           (GetCompanyNews "600000" "2023-01-05" (Some "2023-01-01") 1) cached_news_world cached_news_world
           (News [Scenario.news "600000" "2023-01-04" "second";
                  Scenario.news "600000" "2023-01-02" "first"]) eq_refl eq_refl).
Defined.

(** ** The pagination loops of api_east.py *)

Section Paginate.
Context {float : Type} {py : Python float} {A : Type}.
Variable request_for : string -> request.
Variable decode : json float -> result float (list A).
Variable key : A -> string.
Variable ticker : string.
Variable start_date : option string.
Variable limit : Z.

(** The two loops, [insider_trades_loop] and [company_news_loop], are this
    one, for their request, their response model and their date field. *)
Fixpoint paginate (fuel : nat) (acc : list A) (current_end_date : string) : M float (list A) :=
  match fuel with
  | O => lift Diverge
  | S fuel =>
      let* response := requests_send (request_for current_end_date) in
      if negb (status_code response =? 200)
      then raise (FetchFailed ticker (status_code response) (text response))
      else
        let* data := lift (response_json response) in
        let* page := lift (decode data) in
        if negb (Py.nonempty page) then ret acc
        else
          let acc := acc ++ page in
          match ApiEast.url_start start_date with
          | None => ret acc
          | Some start =>
              if Z.of_nat (length page) <? limit then ret acc
              else
                let current_end_date := Py.split_head "T" (Py.min_of (map key page)) in
                if Py.le current_end_date start then ret acc
                else paginate fuel acc current_end_date
          end
  end.

(** The page an answer carries, when it carries one. *)
Definition page_of (a : reply float) : result float (list A) :=
  match a with
  | NoReply => Raise ConnectionError
  | Reply r =>
      if negb (status_code r =? 200)
      then Raise (FetchFailed ticker (status_code r) (text r))
      else let? data := response_json r in decode data
  end.

(** The cursor after a page: the oldest date of the page, up to its ["T"]. *)
Definition next_cursor (page : list A) : string :=
  Py.split_head "T" (Py.min_of (map key page)).

(** The exits of the loop: (a) a page without records, (b) no start date,
    (c) a page shorter than [limit], (d) a cursor that has reached the start
    date. *)
Definition last_page (page : list A) : bool :=
  negb (Py.nonempty page)
  || match ApiEast.url_start start_date with
     | None => true
     | Some start => (Z.of_nat (length page) <? limit) || Py.le (next_cursor page) start
     end.


(** One iteration. *)
Lemma paginate_step (fuel : nat) (acc : list A) (cur : string) (w : World float) :
  paginate (S fuel) acc cur w =
    let w1 := after_request (request_for cur) w in
    match page_of (transport w (length (sent w)) (request_for cur)) with
    | Ok page =>
        if last_page page
        then (Ok (if Py.nonempty page then acc ++ page else acc), w1)
        else paginate fuel (acc ++ page) (next_cursor page) w1
    | Raise e => (Raise e, w1)
    | Diverge => (Diverge, w1)
    end.
Proof.
  cbn [paginate]. unfold bind at 1, requests_send, page_of, last_page, next_cursor.
  destruct (transport w (length (sent w)) (request_for cur)) as [|r]; [reflexivity|].
  fold (after_request (request_for cur) w).
  destruct (negb (status_code r =? 200)); [reflexivity|].
  unfold bind, lift. destruct (response_json r) as [data|e|]; try reflexivity. cbn [rbind].
  destruct (decode data) as [page|e|]; try reflexivity.
  destruct (Py.nonempty page); cbn [negb orb]; [|reflexivity].
  destruct (ApiEast.url_start start_date) as [start|]; [|reflexivity].
  destruct (Z.of_nat (length page) <? limit); [reflexivity|]. cbn [orb].
  destruct (Py.le _ start); reflexivity.
Qed.




(** The cursors of the requests: that of the first one is the one the loop
    starts with, every later one is after the start date. *)
Definition cursor_ok (cur : string) (rq : request) : Prop :=
  exists c, rq = request_for c
            /\ (c = cur \/ exists start, ApiEast.url_start start_date = Some start
                                         /\ Py.gt c start = true).

Lemma paginate_cursors (fuel : nat) :
  forall (acc : list A) (cur : string) (w : World float),
    exists new, sent (snd (paginate fuel acc cur w)) = new ++ sent w
                /\ Forall (cursor_ok cur) new.
Proof.
  induction fuel as [|fuel IH]; intros acc cur w.
  - exists []. split; [reflexivity|constructor].
  - rewrite paginate_step. cbn zeta.
    assert (Hfirst : cursor_ok cur (request_for cur)) by (exists cur; auto).
    destruct (page_of _) as [page|e|]; try (exists [request_for cur]; split; [reflexivity|auto]).
    destruct (last_page page) eqn:El; [exists [request_for cur]; split; [reflexivity|auto]|].
    destruct (IH (acc ++ page) (next_cursor page) (after_request (request_for cur) w))
      as (new & Hnew & Hall).
    exists (new ++ [request_for cur]). split.
    + rewrite Hnew. simpl. now rewrite <- app_assoc.
    + apply Forall_app. split; [|auto].
      eapply Forall_impl; [exact Hall|]. intros rq (c & -> & Hc). exists c. split; [reflexivity|].
      right. unfold last_page in El. apply orb_false_iff in El as [_ El].
      destruct (ApiEast.url_start start_date) as [start|]; [|discriminate].
      apply orb_false_iff in El as [_ El].
      destruct Hc as [->|(start' & Hs & Hgt)].
      * exists start. split; [reflexivity|]. rewrite gt_not_le, El. reflexivity.
      * exists start'. auto.
Qed.
End Paginate.

Section Loops.
Context {float : Type} {py : Python float}.

Lemma insider_trades_loop_paginate headers ticker start_date limit (fuel : nat) :
  forall acc cur (w : World float),
    ApiEast.insider_trades_loop fuel headers ticker start_date limit acc cur w
    = paginate (fun c => FdInsiderTrades headers ticker c (ApiEast.url_start start_date) limit)
        ApiEast.InsiderTradeResponse InsiderTrade.filing_date ticker start_date limit
        fuel acc cur w.
Proof.
  induction fuel as [|fuel IH]; intros acc cur w; [reflexivity|].
  cbn [ApiEast.insider_trades_loop paginate]. unfold bind.
  destruct (requests_send _ w) as [[r|e|] w1]; try reflexivity.
  destruct (negb _); [reflexivity|]. unfold lift.
  destruct (response_json r) as [data|e|]; try reflexivity.
  destruct (ApiEast.InsiderTradeResponse data) as [page|e|]; try reflexivity.
  destruct (negb _); [reflexivity|].
  destruct (ApiEast.url_start start_date); [|reflexivity].
  destruct (_ <? limit); [reflexivity|]. destruct (Py.le _ _); [reflexivity|]. apply IH.
Qed.

Lemma company_news_loop_paginate headers ticker start_date limit (fuel : nat) :
  forall acc cur (w : World float),
    ApiEast.company_news_loop fuel headers ticker start_date limit acc cur w
    = paginate (fun c => FdNews headers ticker c (ApiEast.url_start start_date) limit)
        ApiEast.CompanyNewsResponse CompanyNews.date ticker start_date limit
        fuel acc cur w.
Proof.
  induction fuel as [|fuel IH]; intros acc cur w; [reflexivity|].
  cbn [ApiEast.company_news_loop paginate]. unfold bind.
  destruct (requests_send _ w) as [[r|e|] w1]; try reflexivity.
  destruct (negb _); [reflexivity|]. unfold lift.
  destruct (response_json r) as [data|e|]; try reflexivity.
  destruct (ApiEast.CompanyNewsResponse data) as [page|e|]; try reflexivity.
  destruct (negb _); [reflexivity|].
  destruct (ApiEast.url_start start_date); [|reflexivity].
  destruct (_ <? limit); [reflexivity|]. destruct (Py.le _ _); [reflexivity|]. apply IH.
Qed.

(** *** The response models always answer *)

Lemma for_each_answers {A B} (f : A -> result float (option B)) (l : list A) :
  (forall x, f x <> Diverge) -> for_each f l <> Diverge.
Proof.
  intros Hf. induction l as [|x l IH]; simpl; [discriminate|].
  specialize (Hf x). destruct (f x); try congruence; cbn [rbind]; [|discriminate].
  destruct (for_each f l); try congruence; discriminate.
Qed.

Lemma field_str_answers (v : json float) : field_str v <> Diverge.
Proof. destruct v; discriminate. Qed.


Lemma field_float_answers (v : json float) : field_float v <> Diverge.
Proof.
  destruct v; cbn; try discriminate;
    match goal with |- context [match ?x with _ => _ end] => destruct x end; discriminate.
Qed.

Lemma field_opt_float_answers (v : json float) : field_opt_float v <> Diverge.
Proof.
  unfold field_opt_float. pose proof (field_float_answers v) as H.
  destruct v; try discriminate; destruct (field_float _); cbn; congruence.
Qed.




End Loops.

(** ** C4: pagination *)

Definition paginated (c : call) : bool :=
  match c with
  | GetInsiderTrades _ _ _ _ | GetCompanyNews _ _ _ _ => true
  | _ => false
  end.

Definition end_date_of (c : call) : string :=
  match c with
  | GetPrices _ _ e | GetFinancialMetrics _ e _ _
  | GetInsiderTrades _ e _ _ | GetCompanyNews _ e _ _ => e
  end.

Definition start_date_of (c : call) : option string :=
  match c with
  | GetPrices _ s _ => Some s
  | GetFinancialMetrics _ _ _ _ => None
  | GetInsiderTrades _ _ s _ | GetCompanyNews _ _ s _ => s
  end.


Section C4.
Context {float : Type} {py : Python float}.



(** The fetch of a paginated call sends what its loop sends and answers
    when its loop does. *)
Lemma fetch_after_loop {A} (wrap : list A -> records float) (loop : M float (list A))
    (store : list A -> M float unit) (w : World float) :
  (forall l w, exists w', store l w = (Ok tt, w') /\ sent w' = sent w) ->
  let out := returning wrap
               (let* all := loop in
                if negb (Py.nonempty all) then ret [] else store all ;; ret all) w in
  sent (snd out) = sent (snd (loop w)) /\ (fst out = Diverge <-> fst (loop w) = Diverge).
Proof.
  intros Hs. cbn zeta. unfold returning, bind, ret.
  destruct (loop w) as [[l|e|] w1]; cbn [fst snd];
    try (split; [reflexivity | split; intros H; first [discriminate H | reflexivity]]).
  destruct (negb (Py.nonempty l)); cbn [fst snd];
    [split; [reflexivity|split; intros H; discriminate H]|].
  destruct (Hs l w1) as (w2 & -> & Hw2). cbn [fst snd].
  split; [assumption | split; intros H; discriminate H].
Qed.

End C4.






(** ** C5: writing back to the cache *)

Section WriteBack.
Context {float : Type} {py : Python float}.

(** A fetch that returns records has stored them, in place of what the
    cache held for the ticker and the kind. *)
Lemma fetch_writes_back (p : provider) (fuel : nat) (c : call) (w w' : World float)
    (r : records float) :
  run_fetch p fuel c w = (Ok r, w') -> some r = true -> cache w' = cache_set c r (cache w).
Proof.
  intros Hrun Hsome. pose proof (run_fetch_tidy p fuel c w) as H.
  rewrite Hrun in H. unfold stored in H. now rewrite Hsome in H.
Qed.

(** A fetch that returns no record leaves the cache as it was, where the
    list is tested after it is cut. *)
Lemma fetch_leaves_cache (p : provider) (fuel : nat) (c : call) (w w' : World float)
    (r : records float) :
  run_fetch p fuel c w = (Ok r, w') -> some r = false -> checks_before_cut p c = false ->
  cache w' = cache w.
Proof.
  intros Hrun Hsome Hcut. pose proof (run_fetch_tidy p fuel c w) as H.
  rewrite Hrun in H. unfold stored in H. rewrite Hsome, Hcut in H.
  destruct H as [H|[H _]]; [exact H|discriminate].
Qed.

(** A fetch that does not return leaves the cache as it was. *)
Lemma fetch_failure_leaves_cache (p : provider) (fuel : nat) (c : call) (w : World float) :
  (forall r, fst (run_fetch p fuel c w) <> Ok r) ->
  cache (snd (run_fetch p fuel c w)) = cache w.
Proof.
  intros Hrun. pose proof (run_fetch_tidy p fuel c w) as H.
  destruct (run_fetch p fuel c w) as [[r|e|] w']; cbn in *; try exact H.
  now destruct (Hrun r).
Qed.
End WriteBack.

(** The cache holds one news of 600000, from after the range asked for; the
    key of Juhe is set; the provider has one news in the range. *)
Definition juhe_news_answer : json Scenario.F :=
  JDict [("error_code", JInt 0);
         ("result", JDict [("data", JList [JDict [("date", JStr "2023-01-03");
                                                    ("title", JStr "in range");
                                                    ("url", JStr "https://example.com/a");
                                                    ("source", JStr "Example");
                                                    ("content", JStr "")]])])].

Definition juhe_news_world : World Scenario.F :=
  mkWorld _ {[ "JUHE_API_KEY" := "k" ]} (Scenario.answers [Scenario.ok_json juhe_news_answer])
    (mkCache _ ∅ ∅ ∅ {[ "600000" := [Scenario.news "600000" "2023-02-01" "later"] ]}) [].

(** C5 at [limit = 0] in api.py: [get_company_news] finds [all_news] not
    empty, cuts it to no record, writes the empty list over the cached one
    and returns it. *)
Lemma C5_empty_list_written :
  let out := Api.get_company_news "600000" "2023-01-05" None 0 juhe_news_world in
  fst out = Ok []
  /\ company_news (cache juhe_news_world) !! "600000"
     = Some [Scenario.news "600000" "2023-02-01" "later"]
  /\ company_news (cache (snd out)) !! "600000" = Some []
  /\ sent (snd out) = [JuheNews "600000" "k"].
Proof. vm_compute. repeat split; reflexivity. Qed.

(** ** C6: the API key *)

(** The key a request carries. *)
Definition api_key_of (rq : request) : option string :=
  match rq with
  | JuheHs _ k _ _ | JuheFindata _ k | JuheExecutives _ k | JuheNews _ k => Some k
  | FdLineItems k _ _ _ _ _ | FdInsiderTrades k _ _ _ _ | FdNews k _ _ _ _ => k
  | SinaHisdata _ _ _ | EastmoneyKline _ _ _ _ | EastmoneyZYZB _ | EastmoneyQuote _ _ => None
  end.

(** C6, as the code has it.  In api.py every fetch that reaches the network
    path without [JUHE_API_KEY], or with an empty one, raises the
    configuration error that names the variable, and the world is as
    before: no request was sent.  In api_east.py no key is required: without
    [FINANCIAL_DATASETS_API_KEY] the first request of the fetch goes out all
    the same, carrying no key. *)
Theorem C6_api_key {float : Type} {py : Python float}
    (fuel : nat) (c : call) (ticker : string) (line_items : list string)
    (end_date period : string) (limit : Z) (w : World float) :
  (key_truthy (environ w !! "JUHE_API_KEY") = false ->
   run_fetch Juhe fuel c w = (Raise (MissingApiKey "JUHE_API_KEY"), w)
   /\ Api.search_line_items ticker line_items end_date period limit w
      = (Raise (MissingApiKey "JUHE_API_KEY"), w))
  /\ (key_truthy (environ w !! "FINANCIAL_DATASETS_API_KEY") = false ->
      (fetch_is_live East c w = true ->
       api_key_of (first_request East c w) = None
       /\ exists new,
            sent (snd (run_fetch East (S fuel) c w))
            = new ++ first_request East c w :: sent w)
      /\ exists new,
           sent (snd (ApiEast.search_line_items ticker line_items end_date period limit w))
           = new ++ FdLineItems None ticker line_items end_date period limit :: sent w).
Proof.
  split.
  - intros Hkey. split; [now apply (run_fetch_refused Juhe)|].
    unfold Api.search_line_items, bind. now rewrite (juhe_api_key_refused w Hkey).
  - intros Hkey. split.
    + intros Hlive. split; [|now apply run_fetch_live].
      destruct c; cbn [first_request api_key_of]; try reflexivity;
        unfold fd_key; now rewrite Hkey.
    + unfold ApiEast.search_line_items. rewrite (bind_ok _ _ _ _ (fd_headers_eq w)).
      unfold fd_key. rewrite Hkey.
      match goal with
      | |- exists new, sent (snd (?m ?w0)) = new ++ ?req :: sent ?w0 =>
          apply (fun H : sends_first req m => H w0)
      end.
      sends_tac.
Qed.

(** No key of financialdatasets is configured: [get_insider_trades] of
    api_east.py sends its request without one and returns what comes. *)
Lemma C6_counterexample :
  let out := ApiEast.get_insider_trades 1 "AAPL" "2023-01-05" (Some "2023-01-01") 1000
               late_filing_world in
  environ late_filing_world !! "FINANCIAL_DATASETS_API_KEY" = None
  /\ fst out = Ok [Scenario.trade "AAPL" "2023-01-03" (Some "2022-12-28")]
  /\ sent (snd out) = [FdInsiderTrades None "AAPL" "2023-01-05" (Some "2023-01-01") 1000].
Proof. vm_compute. repeat split; reflexivity. Qed.

(** Without the key of Juhe, a fetch of api.py is the configuration error. *)
Lemma C6_witness :
  run_fetch Juhe 0 (GetPrices "600000" "2023-01-01" "2023-01-05") stale_prices_world
  = (Raise (MissingApiKey "JUHE_API_KEY"), stale_prices_world).
Proof.
  exact (proj1 (proj1 (C6_api_key 0 (GetPrices "600000" "2023-01-01" "2023-01-05")
                         "600000" [] "2023-01-05" "ttm" 10 stale_prices_world) eq_refl)).
Defined.

(** ** C7: the round trip through the cache *)

(** The list is of the kind the call asks for. *)
Definition same_kind {float : Type} (c : call) (r : records float) : Prop :=
  match c, r with
  | GetPrices _ _ _, Prices _ | GetFinancialMetrics _ _ _ _, Metrics _
  | GetInsiderTrades _ _ _ _, Trades _ | GetCompanyNews _ _ _ _, News _ => True
  | _, _ => False
  end.

(** A list the cache block would return as it is: every record in the range
    of the call, most recent first for the three dated kinds, and no more
    than [limit] financial metrics. *)
Definition kept_whole {float : Type} (c : call) (r : records float) : Prop :=
  Forall (within c) (dates r)
  /\ match c with
     | GetPrices _ _ _ => True
     | GetFinancialMetrics _ _ _ n => sorted r /\ Z.of_nat (count r) <= n
     | GetInsiderTrades _ _ _ _ | GetCompanyNews _ _ _ _ => sorted r
     end.

Section RoundTrip.
Context {float : Type} {py : Python float}.

Lemma returns_any {A} (P : A -> Prop) (m : M float A) : (forall a, P a) -> returns P m.
Proof. intros H w a w' _. apply H. Qed.

Lemma run_fetch_kind (p : provider) (fuel : nat) (c : call) :
  returns (same_kind c) (run_fetch (float := float) p fuel c).
Proof.
  destruct p, c; cbn [run_fetch]; apply returns_returning, returns_any; intros a; exact I.
Qed.

Lemma cache_entry_set (c : call) (r : records float) (k : Cache float) :
  same_kind c r -> cache_entry c (cache_set c r k) = r.
Proof.
  destruct c, r; cbn; try contradiction; intros _; now rewrite lookup_insert_eq.
Qed.

Lemma filter_all {A} (f : A -> bool) (l : list A) :
  Forall (fun x => f x = true) l -> List.filter f l = l.
Proof.
  induction 1 as [|x l Hx Hl IH]; simpl; [reflexivity|]. now rewrite Hx, IH.
Qed.

Lemma within_in_range (s : option string) (e d : string) :
  Py.le d e = true -> (forall s', s = Some s' -> Py.le s' d = true) ->
  Api.in_range s e d = true.
Proof.
  intros He Hs. unfold Api.in_range. rewrite He, andb_true_r.
  destruct s as [s'|]; [|reflexivity]. now apply Hs.
Qed.

(** The cache block returns such a list as it is. *)
Lemma cache_answer_kept_whole (c : call) (r : records float) :
  same_kind c r -> kept_whole c r -> selected c r = r /\ cache_answer c r = r.
Proof.
  unfold kept_whole, cache_answer, sorted, count.
  destruct c, r; cbn [same_kind selected dates within]; try contradiction;
    intros _ [Hin Hs]; apply (proj1 (List.Forall_map _ _ _)) in Hin; cbn [within] in Hin.
  - rewrite filter_all; [auto|]. eapply Forall_impl; [exact Hin|].
    cbn beta. intros x [H1 H2]. now rewrite H1, H2.
  - destruct Hs as [Hs Hn]. rewrite length_map in Hn.
    rewrite filter_all by exact Hin.
    rewrite sort_desc_id by now apply sorted_desc_of_map.
    split; [reflexivity|]. now rewrite slice_to_all.
  - rewrite filter_all.
    + now rewrite sort_desc_id by now apply sorted_desc_of_map.
    + eapply Forall_impl; [exact Hin|]. cbn beta. intros x [H1 H2].
      now apply within_in_range.
  - rewrite filter_all.
    + now rewrite sort_desc_id by now apply sorted_desc_of_map.
    + eapply Forall_impl; [exact Hin|]. cbn beta. intros x [H1 H2].
      now apply within_in_range.
Qed.

(** C7, as the code has it.  After a fetch that went through the network
    path and returned a list that is not empty, the list is what the cache
    holds for the ticker and the kind, and the same call again is answered
    from it: with the records of the list in the range of the call (most
    recent first for the dated kinds, cut to [limit] for financial
    metrics), without a request, when there are some, and by a new fetch
    when there are none.  The answer is the list itself when the list has
    all its records in the range, in descending order for the dated kinds,
    and no more than [limit] of them for financial metrics; the lists
    [get_insider_trades] and [get_company_news] of api.py return are always
    such. *)
Theorem C7_round_trip (p : provider) (fuel fuel' : nat) (c : call) (w w1 : World float)
    (r : records float) :
  some (selected c (cache_entry c (cache w))) = false ->
  run p fuel c w = (Ok r, w1) ->
  some r = true ->
  cache_entry c (cache w1) = r
  /\ run p fuel' c w1 =
       (if some (selected c r) then (Ok (cache_answer c r), w1) else run_fetch p fuel' c w1)
  /\ (kept_whole c r \/ checks_before_cut p c = true -> run p fuel' c w1 = (Ok r, w1)).
Proof.
  intros Hmiss Hrun Hsome. rewrite run_cache_block, Hmiss in Hrun.
  pose proof (run_fetch_kind p fuel c w r w1 Hrun) as Hkind.
  assert (Hentry : cache_entry c (cache w1) = r).
  { rewrite (fetch_writes_back p fuel c w w1 r Hrun Hsome). now apply cache_entry_set. }
  split; [exact Hentry|]. split.
  - now rewrite run_cache_block, Hentry.
  - intros Hkept.
    assert (Hwhole : kept_whole c r).
    { destruct Hkept as [H|Hcut]; [exact H|].
      pose proof (run_fetch_returns p fuel c w r w1 Hrun) as Hspec.
      unfold kept_whole, fetch_result_spec in *.
      destruct p, c; try discriminate; destruct Hspec as (H1 & H2 & _); auto. }
    destruct (cache_answer_kept_whole c r Hkind Hwhole) as [Hsel Hans].
    now rewrite run_cache_block, Hentry, Hsel, Hsome, Hans.
Qed.
End RoundTrip.

(** The financial reports of 600000 as Juhe sends them, whatever the end
    date of the call: the latest one is of 2023-03-31. *)
Definition C7_answer : json Scenario.F :=
  JDict [("error_code", JInt 0);
         ("result", JDict [("data", JList [JDict [("date", JStr "2023-03-31");
                                                    ("total_market_cap", JInt 100)];
                                            JDict [("date", JStr "2022-12-31");
                                                    ("total_market_cap", JInt 90)]])])].

Definition C7_world : World Scenario.F :=
  mkWorld _ {[ "JUHE_API_KEY" := "k" ]} (Scenario.answers [Scenario.ok_json C7_answer])
    Scenario.no_cache [].

(** The first call, for the reports up to 2023-01-05, returns the two
    reports from the network; the same call again returns one, from the
    cache. *)
Lemma C7_counterexample :
  let first := Api.get_financial_metrics "600000" "2023-01-05" "ttm" 10 C7_world in
  let again := Api.get_financial_metrics "600000" "2023-01-05" "ttm" 10 (snd first) in
  fst first = Ok [Scenario.metric "600000" "2023-03-31" (Some 100);
                  Scenario.metric "600000" "2022-12-31" (Some 90)]
  /\ fst again = Ok [Scenario.metric "600000" "2022-12-31" (Some 90)]
  /\ sent (snd first) = [JuheFindata "600000" "k"]
  /\ sent (snd again) = sent (snd first).
Proof. vm_compute. repeat split; reflexivity. Qed.

(** The news of Juhe, fetched, and asked for again. *)
Lemma C7_witness :
  let c := GetCompanyNews "600000" "2023-01-05" None 10 in
  let w1 := snd (run Juhe 0 c juhe_news_world) in
  run Juhe 0 c w1 = (Ok (News [Scenario.news "600000" "2023-01-03" "in range"]), w1).
Proof.
  intros c w1.
  refine (proj2 (proj2 (C7_round_trip Juhe 0 0 c juhe_news_world w1
                          (News [Scenario.news "600000" "2023-01-03" "in range"])
                          eq_refl _ eq_refl)) (or_intror eq_refl)).
  vm_compute. reflexivity.
Defined.

(** ** C8: answers that are not 200 *)

(** The fetches that test [response.status_code != 200] themselves: all of
    api.py, and the two paginated ones of api_east.py. *)
Definition tests_status (p : provider) (c : call) : bool :=
  match p, c with
  | Juhe, _ => true
  | East, GetInsiderTrades _ _ _ _ | East, GetCompanyNews _ _ _ _ => true
  | East, _ => false
  end.

(** The statuses [raise_for_status] raises on. *)
Definition error_status (code : Z) : bool := (400 <=? code) && (code <? 600).

Section Status.
Context {float : Type} {py : Python float}.

Lemma bind_raise {A B} (m : M float A) (k : A -> M float B) (e : exn float)
    (w w' : World float) :
  m w = (Raise e, w') -> bind m k w = (Raise e, w').
Proof. intros H. unfold bind. now rewrite H. Qed.

Lemma requests_send_reply (req : request) (w : World float) (resp : Response float) :
  transport w (length (sent w)) req = Reply resp ->
  requests_send req w = (Ok resp, after_request req w).
Proof. intros H. unfold requests_send. now rewrite H. Qed.

Lemma juhe_request_status (t : string) (req : request) (w : World float)
    (resp : Response float) :
  transport w (length (sent w)) req = Reply resp ->
  status_code resp <> 200 ->
  Api.juhe_request t req w
  = (Raise (FetchFailed t (status_code resp) (text resp)), after_request req w).
Proof.
  intros Hr Hs. unfold Api.juhe_request, bind. rewrite (requests_send_reply req w resp Hr).
  apply Z.eqb_neq in Hs. now rewrite Hs.
Qed.

(** An answer to the first request with a status other than 200, where the
    fetch tests the status. *)
Lemma run_fetch_status (p : provider) (fuel : nat) (c : call) (w : World float)
    (resp : Response float) :
  fetch_is_live p c w = true ->
  tests_status p c = true ->
  transport w (length (sent w)) (first_request p c w) = Reply resp ->
  status_code resp <> 200 ->
  run_fetch p (S fuel) c w
  = (Raise (FetchFailed (ticker_of c) (status_code resp) (text resp)),
     after_request (first_request p c w) w).
Proof.
  intros Hlive Ht Hr Hs.
  destruct p, c; try discriminate; cbn [run_fetch first_request ticker_of fetch_is_live] in *;
    unfold Api.get_prices_fetch, Api.get_financial_metrics_fetch,
      Api.get_insider_trades_fetch, Api.get_company_news_fetch,
      ApiEast.get_insider_trades_fetch, ApiEast.get_company_news_fetch.
  1-4: rewrite (returning_bind_ok _ _ _ _ _ (juhe_api_key_live w Hlive));
       unfold returning;
       now rewrite (bind_raise _ _ _ _ _
                      (bind_raise _ _ _ _ _ (juhe_request_status _ _ w resp Hr Hs))).
  all: rewrite (returning_bind_ok _ _ _ _ _ (fd_headers_eq w));
       cbn [ApiEast.insider_trades_loop ApiEast.company_news_loop];
       unfold returning;
       apply bind_raise, bind_raise; unfold bind;
       rewrite (requests_send_reply _ w resp Hr);
       apply Z.eqb_neq in Hs; now rewrite Hs.
Qed.

(** [get_financial_metrics] of api_east.py on a 4xx or 5xx answer. *)
Lemma east_metrics_status (t e per : string) (n : Z) (w : World float)
    (resp : Response float) :
  transport w (length (sent w)) (EastmoneyZYZB t) = Reply resp ->
  error_status (status_code resp) = true ->
  ApiEast.get_financial_metrics_fetch t e per n w
  = (Raise (MetricsFetchFailed t (HTTPError (status_code resp))),
     after_request (EastmoneyZYZB t) w).
Proof.
  intros Hr Hs. unfold ApiEast.get_financial_metrics_fetch, try_except,
    ApiEast.get_financial_metrics_eastmoney, bind.
  rewrite (requests_send_reply _ w resp Hr). unfold lift, raise_for_status.
  unfold error_status in Hs. now rewrite Hs.
Qed.
End Status.

Section C8.
Context {float : Type} {py : Python float}.

Lemma east_prices_status (t s e : string) (w : World float) (resp resp2 : Response float) :
  fetch_is_live East (GetPrices t s e) w = true ->
  transport w (length (sent w)) (first_request East (GetPrices t s e) w) = Reply resp ->
  error_status (status_code resp) = true ->
  transport w (S (length (sent w)))
    (EastmoneyKline (if Py.startswith "6" t then "1" else "0") t
       (Py.remove_char "-" s) (Py.remove_char "-" e)) = Reply resp2 ->
  error_status (status_code resp2) = true ->
  fst (ApiEast.get_prices_fetch t s e w)
  = Raise (PriceFetchFailed t (HTTPError (status_code resp2))).
Proof.
  cbn [fetch_is_live first_request]. intros Hlive Hr Hs Hr2 Hs2.
  unfold ApiEast.get_prices_fetch.
  destruct (strptime_mktime s); [|discriminate]. destruct (strptime_mktime e); [|discriminate].
  unfold try_except at 1. unfold ApiEast.get_prices_sina, bind at 1.
  rewrite (requests_send_reply _ w resp Hr). unfold bind at 1, lift at 1, raise_for_status.
  unfold error_status in Hs, Hs2. rewrite Hs.
  unfold try_except, ApiEast.get_prices_eastmoney, bind at 1.
  rewrite (requests_send_reply _ (after_request _ w) resp2 Hr2).
  unfold bind, lift, raise_for_status. now rewrite Hs2.
Qed.

(** The request of [get_prices] of api_east.py to its second source. *)
Definition kline_request (t s e : string) : request :=
  EastmoneyKline (if Py.startswith "6" t then "1" else "0") t
    (Py.remove_char "-" s) (Py.remove_char "-" e).

(** [get_prices] of api_east.py after a 4xx or 5xx answer of Sina: the call
    is the second source, with its error, if any, wrapped. *)
Lemma east_prices_second_source (t s e : string) (w : World float) (resp : Response float) :
  fetch_is_live East (GetPrices t s e) w = true ->
  transport w (length (sent w)) (first_request East (GetPrices t s e) w) = Reply resp ->
  error_status (status_code resp) = true ->
  ApiEast.get_prices_fetch t s e w =
    match ApiEast.get_prices_eastmoney t s e
            (after_request (first_request East (GetPrices t s e) w) w) with
    | (Raise x2, w2) => (Raise (PriceFetchFailed t x2), w2)
    | r => r
    end.
Proof.
  cbn [fetch_is_live first_request]. intros Hlive Hr Hs.
  unfold ApiEast.get_prices_fetch.
  destruct (strptime_mktime s); [|discriminate]. destruct (strptime_mktime e); [|discriminate].
  unfold try_except at 1. unfold ApiEast.get_prices_sina, bind at 1.
  rewrite (requests_send_reply _ w resp Hr). unfold bind at 1, lift at 1, raise_for_status.
  unfold error_status in Hs. rewrite Hs.
  unfold try_except, raise.
  destruct (ApiEast.get_prices_eastmoney t s e _) as [[l|x2|] w2]; reflexivity.
Qed.

Lemma get_prices_eastmoney_sends (t s e : string) :
  sends_first (kline_request t s e) (ApiEast.get_prices_eastmoney (float := float) t s e).
Proof. unfold ApiEast.get_prices_eastmoney, kline_request. sends_tac. Qed.

Lemma search_line_items_status (p : provider) (t : string) (li : list string)
    (e per : string) (n : Z) (w : World float) (resp : Response float) :
  let req := match p with
             | Juhe => JuheFindata t (juhe_key w)
             | East => FdLineItems (fd_key w) t li e per n
             end in
  fetch_is_live p (GetFinancialMetrics t e per n) w = true ->
  transport w (length (sent w)) req = Reply resp ->
  status_code resp <> 200 ->
  match p with
  | Juhe => fst (Api.search_line_items t li e per n w)
  | East => fst (ApiEast.search_line_items t li e per n w)
  end = Raise (FetchFailed t (status_code resp) (text resp)).
Proof.
  intros req Hlive Hr Hs. subst req. destruct p; cbn [fetch_is_live] in Hlive.
  - unfold Api.search_line_items. rewrite (bind_ok _ _ _ _ (juhe_api_key_live w Hlive)).
    now rewrite (bind_raise _ _ _ _ _ (juhe_request_status _ _ w resp Hr Hs)).
  - unfold ApiEast.search_line_items. rewrite (bind_ok _ _ _ _ (fd_headers_eq w)).
    unfold bind. rewrite (requests_send_reply _ w resp Hr).
    apply Z.eqb_neq in Hs. now rewrite Hs.
Qed.

(** *** A status other than 200 on any page *)

Lemma page_of_status {A} (decode : json float -> result float (list A)) (t : string)
    (a : reply float) (resp : Response float) :
  a = Reply resp -> status_code resp <> 200 ->
  page_of decode t a = Raise (FetchFailed t (status_code resp) (text resp)).
Proof.
  intros -> Hs. unfold page_of. apply Z.eqb_neq in Hs. now rewrite Hs.
Qed.

(** The requests of the loop, in the order they were sent: whichever of them
    is answered with a status other than 200, the loop ends in the error
    that carries the ticker, that status and the text of that answer. *)
Lemma paginate_status {A} (request_for : string -> request)
    (decode : json float -> result float (list A)) (key : A -> string) (t : string)
    (s : option string) (n : Z) (fuel : nat) :
  forall (acc : list A) (cur : string) (w : World float),
    exists new,
      sent (snd (paginate request_for decode key t s n fuel acc cur w)) = new ++ sent w
      /\ forall (i : nat) (rq : request) (resp : Response float),
           List.nth_error (List.rev new) i = Some rq ->
           transport w (length (sent w) + i) rq = Reply resp ->
           status_code resp <> 200 ->
           fst (paginate request_for decode key t s n fuel acc cur w)
           = Raise (FetchFailed t (status_code resp) (text resp)).
Proof.
  induction fuel as [|fuel IH]; intros acc cur w.
  - exists []. split; [reflexivity|]. intros [|i] rq resp H; discriminate H.
  - rewrite paginate_step. cbn zeta.
    assert (Hfirst : forall (i : nat) (rq : request) (resp : Response float),
               List.nth_error [request_for cur] i = Some rq ->
               transport w (length (sent w) + i) rq = Reply resp ->
               status_code resp <> 200 ->
               i = 0%nat
               /\ page_of decode t (transport w (length (sent w)) (request_for cur))
                  = Raise (FetchFailed t (status_code resp) (text resp))).
    { intros [|i] rq resp Hn Hr Hs; [|destruct i; discriminate Hn].
      inversion Hn; subst rq. rewrite Nat.add_0_r in Hr. split; [reflexivity|].
      now apply page_of_status. }
    destruct (page_of decode t (transport w (length (sent w)) (request_for cur)))
      as [page|x|] eqn:Ep.
    + destruct (last_page key s n page).
      * exists [request_for cur]. split; [reflexivity|]. intros i rq resp Hn Hr Hs.
        destruct (Hfirst i rq resp Hn Hr Hs) as [_ H]. discriminate H.
      * destruct (IH (acc ++ page) (next_cursor key page)
                    (after_request (request_for cur) w)) as (new & Hnew & Hall).
        exists (new ++ [request_for cur]). split.
        { rewrite Hnew. cbn [after_request sent]. now rewrite <- app_assoc. }
        intros i rq resp Hn Hr Hs. rewrite List.rev_app_distr in Hn. cbn [List.rev app] in Hn.
        destruct i as [|i].
        { destruct (Hfirst 0%nat rq resp Hn Hr Hs) as [_ H]. discriminate H. }
        apply (Hall i rq resp); [exact Hn| |exact Hs].
        cbn [after_request transport sent length].
        now replace (S (length (sent w)) + i)%nat with (length (sent w) + S i)%nat by lia.
    + exists [request_for cur]. split; [reflexivity|]. intros i rq resp Hn Hr Hs.
      destruct (Hfirst i rq resp Hn Hr Hs) as [_ H]. cbn [fst]. congruence.
    + exists [request_for cur]. split; [reflexivity|]. intros i rq resp Hn Hr Hs.
      destruct (Hfirst i rq resp Hn Hr Hs) as [_ H]. discriminate H.
Qed.

(** An error of the loop is the error of the fetch. *)
Lemma fetch_after_loop_raise {A} (wrap : list A -> records float) (loop : M float (list A))
    (store : list A -> M float unit) (w : World float) (x : exn float) :
  fst (loop w) = Raise x ->
  fst (returning wrap
         (let* all := loop in
          if negb (Py.nonempty all) then ret [] else store all ;; ret all) w) = Raise x.
Proof.
  unfold returning, bind. destruct (loop w) as [[l|e|] w1]; cbn [fst]; intros H;
    try discriminate H. now inversion H.
Qed.

Lemma paginated_fetch_status (fuel : nat) (c : call) (w : World float) :
  paginated c = true ->
  exists new,
    sent (snd (run_fetch East fuel c w)) = new ++ sent w
    /\ forall (i : nat) (rq : request) (resp : Response float),
         List.nth_error (List.rev new) i = Some rq ->
         transport w (length (sent w) + i) rq = Reply resp ->
         status_code resp <> 200 ->
         fst (run_fetch East fuel c w)
         = Raise (FetchFailed (ticker_of c) (status_code resp) (text resp)).
Proof.
  intros Hc.
  destruct c as [| |t e s n|t e s n]; try discriminate;
    cbn [run_fetch ticker_of];
    unfold ApiEast.get_insider_trades_fetch, ApiEast.get_company_news_fetch;
    rewrite (returning_bind_ok _ _ _ _ _ (fd_headers_eq w)).
  - destruct (fetch_after_loop Trades
                (ApiEast.insider_trades_loop fuel (fd_key w) t s n [] e)
                (fun l => cache_set_insider_trades t l) w) as [Hsent _];
      [intros l w0; eexists; split; reflexivity |].
    cbn beta zeta in Hsent. rewrite Hsent, insider_trades_loop_paginate.
    destruct (paginate_status
                (fun c => FdInsiderTrades (fd_key w) t c (ApiEast.url_start s) n)
                ApiEast.InsiderTradeResponse InsiderTrade.filing_date t s n fuel [] e w)
      as (new & Hnew & Hall).
    exists new. split; [exact Hnew|]. intros i rq resp Hn Hr Hs.
    apply fetch_after_loop_raise. rewrite insider_trades_loop_paginate.
    exact (Hall i rq resp Hn Hr Hs).
  - destruct (fetch_after_loop News
                (ApiEast.company_news_loop fuel (fd_key w) t s n [] e)
                (fun l => cache_set_company_news t l) w) as [Hsent _];
      [intros l w0; eexists; split; reflexivity |].
    cbn beta zeta in Hsent. rewrite Hsent, company_news_loop_paginate.
    destruct (paginate_status
                (fun c => FdNews (fd_key w) t c (ApiEast.url_start s) n)
                ApiEast.CompanyNewsResponse CompanyNews.date t s n fuel [] e w)
      as (new & Hnew & Hall).
    exists new. split; [exact Hnew|]. intros i rq resp Hn Hr Hs.
    apply fetch_after_loop_raise. rewrite company_news_loop_paginate.
    exact (Hall i rq resp Hn Hr Hs).
Qed.

(** C8, as the code has it.  When the provider answers with a status other
    than 200: every fetch of api.py, and [get_insider_trades] and
    [get_company_news] of api_east.py, fail with an error that carries the
    ticker, the status code and the body text; for the two paginated fetches
    of api_east.py this holds for every page request, the first as the later
    ones.  [get_financial_metrics] of api_east.py fails, on a 4xx or 5xx
    status, with an error that carries the ticker and the transport's error
    for that status.  [get_prices] of api_east.py does not fail on a 4xx or
    5xx answer of its first source: it sends the request to its second
    source, and the outcome of the call is the outcome of the second source:
    its prices when it returns, and, when it fails, an error that carries
    the ticker and the error of the second source (the transport's error
    for the second status, when that one is 4xx or 5xx too).
    [search_line_items] fails, in both files, like the fetches of api.py.
    Whenever a call does not return, the cache is as it was before the
    call. *)
Theorem C8_status_errors (p : provider) (fuel : nat) (c : call) (w : World float) :
  (forall resp,
      fetch_is_live p c w = true ->
      tests_status p c = true ->
      transport w (length (sent w)) (first_request p c w) = Reply resp ->
      status_code resp <> 200 ->
      run_fetch p (S fuel) c w
      = (Raise (FetchFailed (ticker_of c) (status_code resp) (text resp)),
         after_request (first_request p c w) w))
  /\ (p = East -> paginated c = true ->
      exists new,
        sent (snd (run_fetch p fuel c w)) = new ++ sent w
        /\ forall (i : nat) (rq : request) (resp : Response float),
             List.nth_error (List.rev new) i = Some rq ->
             transport w (length (sent w) + i) rq = Reply resp ->
             status_code resp <> 200 ->
             fst (run_fetch p fuel c w)
             = Raise (FetchFailed (ticker_of c) (status_code resp) (text resp)))
  /\ (forall t e per n resp,
        p = East -> c = GetFinancialMetrics t e per n ->
        transport w (length (sent w)) (first_request p c w) = Reply resp ->
        error_status (status_code resp) = true ->
        run_fetch p (S fuel) c w
        = (Raise (MetricsFetchFailed t (HTTPError (status_code resp))),
           after_request (first_request p c w) w))
  /\ (forall t s e resp,
        p = East -> c = GetPrices t s e ->
        fetch_is_live p c w = true ->
        transport w (length (sent w)) (first_request p c w) = Reply resp ->
        error_status (status_code resp) = true ->
        run_fetch p (S fuel) c w
        = match ApiEast.get_prices_eastmoney t s e (after_request (first_request p c w) w) with
          | (Ok l, w2) => (Ok (Prices l), w2)
          | (Raise x2, w2) => (Raise (PriceFetchFailed t x2), w2)
          | (Diverge, w2) => (Diverge, w2)
          end
        /\ (exists new,
               sent (snd (run_fetch p (S fuel) c w))
               = new ++ kline_request t s e :: first_request p c w :: sent w)
        /\ (forall resp2,
               transport w (S (length (sent w))) (kline_request t s e) = Reply resp2 ->
               error_status (status_code resp2) = true ->
               fst (run_fetch p (S fuel) c w)
               = Raise (PriceFetchFailed t (HTTPError (status_code resp2)))))
  /\ (forall q t li e per n resp',
        fetch_is_live q (GetFinancialMetrics t e per n) w = true ->
        transport w (length (sent w))
          (match q with
           | Juhe => JuheFindata t (juhe_key w)
           | East => FdLineItems (fd_key w) t li e per n
           end) = Reply resp' ->
        status_code resp' <> 200 ->
        match q with
        | Juhe => fst (Api.search_line_items t li e per n w)
        | East => fst (ApiEast.search_line_items t li e per n w)
        end = Raise (FetchFailed t (status_code resp') (text resp')))
  /\ ((forall r, fst (run p (S fuel) c w) <> Ok r) ->
      cache (snd (run p (S fuel) c w)) = cache w).
Proof.
  split; [|split; [|split; [|split; [|split]]]].
  - intros resp Hlive Ht Hr Hs. now apply run_fetch_status.
  - intros -> Hc. now apply paginated_fetch_status.
  - intros t e per n resp -> -> Hr Herr. cbn [run_fetch first_request] in *. unfold returning.
    now rewrite (bind_raise _ _ _ _ _ (east_metrics_status t e per n w resp Hr Herr)).
  - intros t s e resp -> -> Hlive Hr Herr.
    assert (Hrun : run_fetch East (S fuel) (GetPrices t s e) w
                   = match ApiEast.get_prices_eastmoney t s e
                             (after_request (first_request East (GetPrices t s e) w) w) with
                     | (Ok l, w2) => (Ok (Prices l), w2)
                     | (Raise x2, w2) => (Raise (PriceFetchFailed t x2), w2)
                     | (Diverge, w2) => (Diverge, w2)
                     end).
    { cbn [run_fetch]. unfold returning, bind.
      rewrite (east_prices_second_source t s e w resp Hlive Hr Herr).
      destruct (ApiEast.get_prices_eastmoney t s e _) as [[l|x2|] w2]; reflexivity. }
    split; [exact Hrun|]. split.
    + rewrite Hrun.
      destruct (get_prices_eastmoney_sends t s e
                  (after_request (first_request East (GetPrices t s e) w) w)) as [new Hnew].
      exists new.
      destruct (ApiEast.get_prices_eastmoney t s e _) as [[l|x2|] w2]; exact Hnew.
    + intros resp2 Hr2 Herr2. cbn [run_fetch]. unfold returning, bind.
      pose proof (east_prices_status t s e w resp resp2 Hlive Hr Herr Hr2 Herr2) as H.
      destruct (ApiEast.get_prices_fetch t s e w) as [[l|x|] w1]; cbn [fst] in *;
        try discriminate; now inversion H.
  - intros q t li e per n resp' H1 H2 H3.
    exact (search_line_items_status q t li e per n w resp' H1 H2 H3).
  - intros Hno. pose proof (run_tidy p (S fuel) c w) as H.
    destruct (run p (S fuel) c w) as [[r|x|] w1]; cbn [fst snd] in *; try exact H.
    now destruct (Hno r).
Qed.
End C8.

(** Sina answers 500; Eastmoney answers 200 with no line; and a second
    world where Eastmoney answers the request for the metrics with 500. *)
Definition C8_world : World Scenario.F :=
  mkWorld _ ∅
    (Scenario.answers
       [Scenario.status 500 "Internal Server Error";
        Scenario.ok_json (JDict [("data", JDict [("klines", JList [])])])])
    Scenario.no_cache [].

Definition C8_metrics_world : World Scenario.F :=
  mkWorld _ ∅ (Scenario.answers [Scenario.status 500 "Internal Server Error"])
    Scenario.no_cache [].

(** [get_prices] of api_east.py does not fail on the 500 of Sina: it returns
    the empty list of Eastmoney.  [get_financial_metrics] of api_east.py
    fails on its 500 with an error that does not carry the body text. *)
Lemma C8_counterexample :
  let out := ApiEast.get_prices "600000" "2023-01-01" "2023-01-05" C8_world in
  fst out = Ok []
  /\ sent (snd out) = [EastmoneyKline "1" "600000" "20230101" "20230105";
                       SinaHisdata "sh600000" "2023-01-01" "2023-01-05"]
  /\ fst (ApiEast.get_financial_metrics "600000" "2023-01-05" "ttm" 10 C8_metrics_world)
     = Raise (MetricsFetchFailed "600000" (HTTPError 500)).
Proof. vm_compute. repeat split; reflexivity. Qed.

(** Juhe answers the request for the prices with 500. *)
Definition C8_juhe_world : World Scenario.F :=
  mkWorld _ {[ "JUHE_API_KEY" := "k" ]}
    (Scenario.answers [Scenario.status 500 "Internal Server Error"]) Scenario.no_cache [].

(** financialdatasets answers the first page request with a full page
    ([limit] is 1) and the second one with 503. *)
Definition C8_paged_world : World Scenario.F :=
  mkWorld _ ∅
    (Scenario.answers
       [Scenario.ok_json
          (JDict [("insider_trades",
                   JList [JDict [("ticker", JStr "AAPL"); ("filing_date", JStr "2023-01-04");
                                 ("transaction_date", JStr "2023-01-04");
                                 ("insider_name", JStr "A. Director");
                                 ("insider_title", JStr "Director");
                                 ("transaction_type", JStr "Buy"); ("shares", JInt 100)]])]);
        Scenario.status 503 "Service Unavailable"])
    Scenario.no_cache [].

(** The error of api.py on the 500, and the error of api_east.py on the 503
    that answers its second page request. *)
Lemma C8_witness :
  run_fetch Juhe 1 (GetPrices "600000" "2023-01-01" "2023-01-05") C8_juhe_world
  = (Raise (FetchFailed "600000" 500 "Internal Server Error"),
     after_request (JuheHs "600000" "k" "2023-01-01" "2023-01-05") C8_juhe_world)
  /\ fst (run_fetch East 5 (GetInsiderTrades "AAPL" "2023-01-05" (Some "2023-01-01") 1)
            C8_paged_world)
     = Raise (FetchFailed "AAPL" 503 "Service Unavailable").
Proof.
  split.
  - refine (proj1 (C8_status_errors Juhe 0 (GetPrices "600000" "2023-01-01" "2023-01-05")
                     C8_juhe_world)
              (mkResponse _ 500 "Internal Server Error" None) eq_refl eq_refl eq_refl _).
    discriminate.
  - destruct (proj1 (proj2 (C8_status_errors East 5
                              (GetInsiderTrades "AAPL" "2023-01-05" (Some "2023-01-01") 1)
                              C8_paged_world)) eq_refl eq_refl) as (new & Hnew & Hall).
    apply (Hall 1%nat (FdInsiderTrades None "AAPL" "2023-01-04" (Some "2023-01-01") 1)
             (mkResponse _ 503 "Service Unavailable" None)).
    + cbn [sent C8_paged_world] in Hnew. rewrite app_nil_r in Hnew. now rewrite <- Hnew.
    + reflexivity.
    + discriminate.
Defined.

(** ** C9: the market capitalisation *)

Section C9.
Context {float : Type} {py : Python float}.

(** The value read off the financial metrics: the market cap of the first
    record when it is set and not zero, "unavailable" otherwise. *)
Definition metrics_cap (l : list (FinancialMetrics.t float)) : option float :=
  match l with
  | m :: _ =>
      if Api.cap_truthy (FinancialMetrics.market_cap m)
      then FinancialMetrics.market_cap m else None
  | [] => None
  end.

(** The request of api_east.py to the quote endpoint. *)
Definition quote_request (t : string) : request :=
  EastmoneyQuote (if Py.startswith "6" t then "1" else "0") t.

(** What the answer of the quote endpoint holds under [data.f116]. *)
Definition quote_f116 (a : reply float) : result float (json float) :=
  match a with
  | NoReply => Raise ConnectionError
  | Reply r =>
      let? _ := raise_for_status r in
      let? data := response_json r in
      let? d := py_get data "data" (JDict []) in
      py_get d "f116" JNull
  end.

Lemma get_market_cap_try_quote (t e : string) (w : World float) :
  ApiEast.get_market_cap_try t e w =
    let w1 := after_request (quote_request t) w in
    match quote_f116 (transport w (length (sent w)) (quote_request t)) with
    | Ok v =>
        if py_truthy v then
          match py_float v with
          | Ok x => (Ok (Some (float_div_int x 100000000)), w1)
          | Raise x => (Raise x, w1)
          | Diverge => (Diverge, w1)
          end
        else
          match ApiEast.get_financial_metrics t e "ttm" 10 w1 with
          | (Ok l, w') => (Ok (metrics_cap l), w')
          | (Raise x, w') => (Raise x, w')
          | (Diverge, w') => (Diverge, w')
          end
    | Raise x => (Raise x, w1)
    | Diverge => (Diverge, w1)
    end.
Proof.
  unfold ApiEast.get_market_cap_try, quote_f116, quote_request. cbn zeta.
  unfold bind at 1, requests_send.
  destruct (transport w (length (sent w)) _) as [|r]; [reflexivity|].
  fold (after_request (EastmoneyQuote (if Py.startswith "6" t then "1" else "0") t) w).
  unfold bind at 1, lift at 1. destruct (raise_for_status r) as [[]|x|]; try reflexivity.
  cbn [rbind]. unfold bind at 1, lift at 1.
  destruct (response_json r) as [data|x|]; try reflexivity. cbn [rbind].
  unfold bind at 1, lift at 1.
  destruct (let? d := py_get data "data" (JDict []) in py_get d "f116" JNull)
    as [v|x|]; try reflexivity.
  destruct (py_truthy v).
  - unfold bind, lift. destruct (py_float v); reflexivity.
  - unfold bind. destruct (ApiEast.get_financial_metrics t e "ttm" 10 _) as [[l|x|] w'];
      try reflexivity.
    destruct l as [|m l]; [reflexivity|]. cbn [metrics_cap].
    destruct (Api.cap_truthy _); reflexivity.
Qed.

End C9.





(** ** C10: the table of an empty list of prices *)

Section C10.
Context {float : Type} {py : Python float}.

Lemma get_price_data_of (get : M float (list (Price.t float)))
    (to_df : list (Price.t float) -> result float (Pd.DataFrame (Price.t float)))
    (w w' : World float) :
  to_df [] = Raise (KeyError "time") ->
  get w = (Ok [], w') ->
  (let* prices := get in lift (to_df prices)) w = (Raise (KeyError "time"), w').
Proof. intros Hdf Hget. unfold bind, lift. now rewrite Hget, Hdf. Qed.

Lemma for_each_no_key_error {A B} (f : A -> result float (option B)) (l : list A) :
  (forall x, f x <> Raise (KeyError "time")) -> for_each f l <> Raise (KeyError "time").
Proof.
  intros Hf. induction l as [|x l IH]; simpl; [discriminate|].
  specialize (Hf x). destruct (f x); cbn [rbind]; try congruence.
  destruct (for_each f l); cbn [rbind]; congruence.
Qed.

(** C10.  In both files, [prices_to_df] of the empty list fails on the
    access to the column ["time"], which a table made from no record does
    not have; so [get_price_data] fails in the same way whenever
    [get_prices] returns no price.  A list that is not empty does not fail
    there. *)
Theorem C10_empty_prices_table (t s e : string) (w w' : World float) :
  Api.prices_to_df (float := float) [] = Raise (KeyError "time")
  /\ ApiEast.prices_to_df (float := float) [] = Raise (KeyError "time")
  /\ (Api.get_prices t s e w = (Ok [], w') ->
      Api.get_price_data t s e w = (Raise (KeyError "time"), w'))
  /\ (ApiEast.get_prices t s e w = (Ok [], w') ->
      ApiEast.get_price_data t s e w = (Raise (KeyError "time"), w'))
  /\ (forall p l, Api.prices_to_df (p :: l) <> Raise (KeyError "time")
                  /\ ApiEast.prices_to_df (p :: l) <> Raise (KeyError "time")).
Proof.
  split; [reflexivity|]. split; [reflexivity|]. split; [|split].
  - intros H. now apply get_price_data_of.
  - intros H. now apply get_price_data_of.
  - intros p l.
    assert (H : forall x : Price.t float,
               match to_datetime (Price.time x) with
               | Some d => Ok (Some (d, x))
               | None => Raise ValueError
               end <> Raise (float := float) (KeyError "time")).
    { intros x. destruct (to_datetime _); discriminate. }
    pose proof (for_each_no_key_error _ (p :: l) H) as Hl.
    unfold Api.prices_to_df, ApiEast.prices_to_df. cbn [Pd.columns_of].
    replace (Pd.has_column "time" Pd.price_columns) with true by reflexivity.
    split; destruct (for_each _ (p :: l)); cbn [rbind]; congruence.
Qed.
End C10.

(** Juhe has no price of 600000 in the range. *)
Definition no_prices_world : World Scenario.F :=
  mkWorld _ {[ "JUHE_API_KEY" := "k" ]}
    (Scenario.answers
       [Scenario.ok_json (JDict [("error_code", JInt 0);
                                 ("result", JDict [("data", JList [])])])])
    Scenario.no_cache [].

(** [get_prices] returns the empty list, and [get_price_data] fails. *)
Lemma C10_witness :
  Api.get_price_data "600000" "2023-01-01" "2023-01-05" no_prices_world
  = (Raise (KeyError "time"),
     after_request (JuheHs "600000" "k" "2023-01-01" "2023-01-05") no_prices_world).
Proof.
  exact (proj1 (proj2 (proj2 (C10_empty_prices_table "600000" "2023-01-01" "2023-01-05"
                                no_prices_world _))) eq_refl).
Defined.

(** * Further properties of the two files *)

(** ** api.py: the error code in the answer of Juhe *)

Section ApplicationError.
Context {float : Type} {py : Python float}.

(** An answer with status 200 and a body that is JSON passes the first
    check; the second one, [data.get("error_code") != 0], decides. *)
Lemma juhe_request_checked (t : string) (req : request) (w : World float)
    (resp : Response float) (data code : json float) :
  transport w (length (sent w)) req = Reply resp ->
  status_code resp = 200 ->
  body resp = Some data ->
  py_get data "error_code" JNull = Ok code ->
  Api.juhe_request t req w =
    if py_ne_zero code
    then match py_get data "reason" JNull with
         | Ok reason => (Raise (ApiError reason), after_request req w)
         | Raise e => (Raise e, after_request req w)
         | Diverge => (Diverge, after_request req w)
         end
    else (Ok data, after_request req w).
Proof.
  intros Hr Hs Hb Hc. unfold Api.juhe_request, bind.
  rewrite (requests_send_reply req w resp Hr), Hs. cbn [Z.eqb Pos.eqb negb].
  unfold lift, response_json. rewrite Hb, Hc.
  destruct (py_ne_zero code); [|reflexivity].
  destruct (py_get data "reason" JNull); reflexivity.
Qed.

(** X1.  api.py, every fetch and [search_line_items]: when Juhe answers the
    request with status 200 and a JSON object whose [error_code] is missing
    or is not zero, the call fails with the provider's [reason]; one request
    was sent, and nothing was written to the cache. *)
Theorem X1_juhe_application_error (fuel : nat) (c : call) (li : list string)
    (w : World float) (resp : Response float) (data code reason : json float) :
  key_truthy (environ w !! "JUHE_API_KEY") = true ->
  transport w (length (sent w)) (first_request Juhe c w) = Reply resp ->
  status_code resp = 200 ->
  body resp = Some data ->
  py_get data "error_code" JNull = Ok code ->
  py_ne_zero code = true ->
  py_get data "reason" JNull = Ok reason ->
  run_fetch Juhe fuel c w
  = (Raise (ApiError reason), after_request (first_request Juhe c w) w)
  /\ cache (snd (run_fetch Juhe fuel c w)) = cache w
  /\ (forall t e per n,
        c = GetFinancialMetrics t e per n ->
        Api.search_line_items t li e per n w
        = (Raise (ApiError reason), after_request (first_request Juhe c w) w)).
Proof.
  intros Hkey Hr Hs Hb Hc Hnz Hre.
  assert (Hreq : forall t,
             Api.juhe_request t (first_request Juhe c w) w
             = (Raise (ApiError reason), after_request (first_request Juhe c w) w)).
  { intros t. rewrite (juhe_request_checked t _ w resp data code Hr Hs Hb Hc).
    now rewrite Hnz, Hre. }
  assert (Hrun : run_fetch Juhe fuel c w
                 = (Raise (ApiError reason), after_request (first_request Juhe c w) w)).
  { destruct c; cbn [run_fetch first_request] in *;
      unfold Api.get_prices_fetch, Api.get_financial_metrics_fetch,
        Api.get_insider_trades_fetch, Api.get_company_news_fetch;
      rewrite (returning_bind_ok _ _ _ _ _ (juhe_api_key_live w Hkey));
      unfold returning;
      now rewrite (bind_raise _ _ _ _ _ (bind_raise _ _ _ _ _ (Hreq _))). }
  split; [exact Hrun|]. split; [now rewrite Hrun|].
  intros t e per n ->. cbn [first_request] in *. unfold Api.search_line_items.
  rewrite (bind_ok _ _ _ _ (juhe_api_key_live w Hkey)).
  now rewrite (bind_raise _ _ _ _ _ (Hreq t)).
Qed.

(** The same answer without an error: [error_code] is zero. *)
Lemma juhe_request_passes (t : string) (req : request) (w : World float)
    (resp : Response float) (data code : json float) :
  transport w (length (sent w)) req = Reply resp ->
  status_code resp = 200 ->
  body resp = Some data ->
  py_get data "error_code" JNull = Ok code ->
  py_ne_zero code = false ->
  Api.juhe_request t req w = (Ok data, after_request req w).
Proof.
  intros Hr Hs Hb Hc Hz. rewrite (juhe_request_checked t req w resp data code Hr Hs Hb Hc).
  now rewrite Hz.
Qed.
End ApplicationError.

(** Juhe refuses the key: status 200, and an error code of its own. *)
Definition refused_key_world : World Scenario.F :=
  mkWorld _ {[ "JUHE_API_KEY" := "k" ]}
    (Scenario.answers
       [Scenario.ok_json (JDict [("error_code", JInt 10001); ("reason", JStr "wrong key")])])
    Scenario.no_cache [].

Lemma X1_witness :
  run_fetch Juhe 0 (GetInsiderTrades "600000" "2023-01-05" None 1000) refused_key_world
  = (Raise (ApiError (JStr "wrong key")),
     after_request (JuheExecutives "600000" "k") refused_key_world).
Proof.
  exact (proj1 (X1_juhe_application_error 0 (GetInsiderTrades "600000" "2023-01-05" None 1000)
                  [] refused_key_world
                  (mkResponse _ 200 "" (Some (JDict [("error_code", JInt 10001);
                                                      ("reason", JStr "wrong key")])))
                  _ (JInt 10001) (JStr "wrong key")
                  eq_refl eq_refl eq_refl eq_refl eq_refl eq_refl eq_refl)).
Defined.

(** ** api.py: the market cap of a ticker without financial reports *)

Section NoMetrics.
Context {float : Type} {py : Python float}.

(** Two computations that agree under [returning] agree. *)
Lemma returning_inj {A} (wrap : A -> records float) (m m' : M float A) (w : World float) :
  (forall a b, wrap a = wrap b -> a = b) ->
  returning wrap m w = returning wrap m' w -> m w = m' w.
Proof.
  intros Hw. unfold returning, bind, ret.
  destruct (m w) as [[a|x|] w1], (m' w) as [[a'|x'|] w1']; intros H; inversion H;
    try reflexivity.
  now rewrite (Hw a a') by assumption.
Qed.

(** A call whose cache block finds nothing in the range is its fetch. *)
Lemma run_miss (p : provider) (fuel : nat) (c : call) (w : World float) :
  some (selected c (cache_entry c (cache w))) = false ->
  run p fuel c w = run_fetch p fuel c w.
Proof. intros H. now rewrite run_cache_block, H. Qed.

(** X2.  [get_market_cap] of api.py reads [financial_metrics[0]] without a
    test: whenever [get_financial_metrics] returns the empty list, it fails
    with [IndexError] instead of returning [None].  This is what happens
    when the cache has no report of the ticker up to [end_date] and Juhe
    answers, without an error, with no report. *)
Theorem X2_market_cap_without_metrics (t e : string) (w : World float)
    (resp : Response float) (data code : json float) :
  (forall w', Api.get_financial_metrics t e "ttm" 10 w = (Ok [], w') ->
              Api.get_market_cap t e w = (Raise IndexError, w'))
  /\ (some (selected (GetFinancialMetrics t e "ttm" 10)
              (cache_entry (GetFinancialMetrics t e "ttm" 10) (cache w))) = false ->
      key_truthy (environ w !! "JUHE_API_KEY") = true ->
      transport w (length (sent w)) (JuheFindata t (juhe_key w)) = Reply resp ->
      status_code resp = 200 ->
      body resp = Some data ->
      py_get data "error_code" JNull = Ok code ->
      py_ne_zero code = false ->
      Api.result_data data = Ok (JList []) ->
      Api.get_market_cap t e w
      = (Raise IndexError, after_request (JuheFindata t (juhe_key w)) w)).
Proof.
  assert (Hempty : forall w', Api.get_financial_metrics t e "ttm" 10 w = (Ok [], w') ->
                              Api.get_market_cap t e w = (Raise IndexError, w')).
  { intros w' H. unfold Api.get_market_cap, bind. now rewrite H. }
  split; [exact Hempty|].
  intros Hmiss Hkey Hr Hs Hb Hc Hz Hd. apply Hempty.
  pose proof (run_miss Juhe 0 (GetFinancialMetrics t e "ttm" 10) w Hmiss) as Hrun.
  cbn [run run_fetch] in Hrun.
  apply returning_inj in Hrun; [|intros a b H; now inversion H].
  assert (Hfetch : Api.get_financial_metrics_fetch t e "ttm" 10 w
                   = (Ok [], after_request (JuheFindata t (juhe_key w)) w)).
  { unfold Api.get_financial_metrics_fetch.
    rewrite (bind_ok _ _ _ _ (juhe_api_key_live w Hkey)).
    unfold bind at 1. rewrite (juhe_request_passes t _ w resp data code Hr Hs Hb Hc Hz).
    unfold bind, lift. rewrite Hd. reflexivity. }
  now rewrite Hrun.
Qed.
End NoMetrics.

(** Juhe knows no report of 600000. *)
Definition no_reports_world : World Scenario.F :=
  mkWorld _ {[ "JUHE_API_KEY" := "k" ]}
    (Scenario.answers
       [Scenario.ok_json (JDict [("error_code", JInt 0);
                                 ("result", JDict [("data", JList [])])])])
    Scenario.no_cache [].

Lemma X2_witness :
  Api.get_market_cap "600000" "2023-01-05" no_reports_world
  = (Raise IndexError, after_request (JuheFindata "600000" "k") no_reports_world).
Proof.
  exact (proj2 (X2_market_cap_without_metrics "600000" "2023-01-05" no_reports_world
                  (mkResponse _ 200 ""
                     (Some (JDict [("error_code", JInt 0);
                                   ("result", JDict [("data", JList [])])])))
                  _ (JInt 0))
           eq_refl eq_refl eq_refl eq_refl eq_refl eq_refl eq_refl eq_refl).
Defined.

(** ** What a call leaves alone in the cache *)

Inductive kind : Type :=
| PriceKind
| MetricsKind
| TradeKind
| NewsKind.

Definition kind_of (c : call) : kind :=
  match c with
  | GetPrices _ _ _ => PriceKind
  | GetFinancialMetrics _ _ _ _ => MetricsKind
  | GetInsiderTrades _ _ _ _ => TradeKind
  | GetCompanyNews _ _ _ _ => NewsKind
  end.

Section CacheFrame.
Context {float : Type} {py : Python float}.

Lemma cache_entry_set_other (c c' : call) (r : records float) (k : Cache float) :
  same_kind c r ->
  ticker_of c' <> ticker_of c \/ kind_of c' <> kind_of c ->
  cache_entry c' (cache_set c r k) = cache_entry c' k.
Proof.
  intros Hk Hd.
  destruct c, c', r; cbn in *; try contradiction; try reflexivity;
    (destruct Hd as [Hd|Hd]; [rewrite lookup_insert_ne by congruence; reflexivity|congruence]).
Qed.

(** X3.  A call reads and writes one entry of the cache, that of its ticker
    and its data kind: whatever it returns, and in both files, the entry of
    every other ticker, and of the same ticker for every other kind, is after
    the call what it was before. *)
Theorem X3_cache_frame (p : provider) (fuel : nat) (c c' : call) (w : World float) :
  ticker_of c' <> ticker_of c \/ kind_of c' <> kind_of c ->
  cache_entry c' (cache (snd (run p fuel c w))) = cache_entry c' (cache w).
Proof.
  intros Hd. rewrite run_cache_block.
  destruct (some (selected c (cache_entry c (cache w)))); [reflexivity|].
  pose proof (run_fetch_tidy p fuel c w) as Ht.
  pose proof (run_fetch_kind p fuel c w) as Hk.
  destruct (run_fetch p fuel c w) as [[r|x|] w1]; cbn [snd]; try now rewrite Ht.
  specialize (Hk r w1 eq_refl). unfold stored in Ht.
  destruct (some r); [rewrite Ht; now apply cache_entry_set_other|].
  destruct Ht as [->|[_ ->]]; [reflexivity|now apply cache_entry_set_other].
Qed.
End CacheFrame.

(** The news of 600000 are fetched and stored; the prices of 600000 and the
    news of 000001 are not touched. *)
Lemma X3_witness :
  let c := GetCompanyNews "600000" "2023-01-05" None 10 in
  let c' := GetCompanyNews "000001" "2023-01-05" None 10 in
  cache_entry c' (cache (snd (run Juhe 0 c juhe_news_world)))
  = cache_entry c' (cache juhe_news_world).
Proof.
  intros c c'. apply (X3_cache_frame Juhe 0 c c' juhe_news_world). left. discriminate.
Defined.

(** ** The number of requests of a call *)

(** The requests a call may send: one in api.py, which never asks for a
    second page; in api_east.py two for the prices (one to each source), one
    for the financial metrics, and no fixed number for the two paginated
    kinds. *)
Definition request_budget (p : provider) (c : call) : option nat :=
  match p, c with
  | Juhe, _ => Some 1%nat
  | East, GetPrices _ _ _ => Some 2%nat
  | East, GetFinancialMetrics _ _ _ _ => Some 1%nat
  | East, _ => None
  end.

Section Budget.
Context {float : Type} {py : Python float}.

Definition sends_at_most (n : nat) {A} (m : M float A) : Prop :=
  forall w, (length (sent (snd (m w))) <= length (sent w) + n)%nat.

Lemma sends_at_most_quiet (n : nat) {A} (m : M float A) :
  respects same_sent m -> sends_at_most n m.
Proof. intros H w. rewrite (H w). lia. Qed.

Lemma sends_at_most_send (req : request) : sends_at_most 1 (requests_send req).
Proof.
  intros w. unfold requests_send.
  destruct (transport w (length (sent w)) req); simpl; lia.
Qed.

Lemma sends_at_most_bind (a b : nat) {A B} (m : M float A) (k : A -> M float B) :
  sends_at_most a m -> (forall x, sends_at_most b (k x)) -> sends_at_most (a + b) (bind m k).
Proof.
  intros Hm Hk w. unfold bind. specialize (Hm w).
  destruct (m w) as [[x|e|] w1]; cbn [snd] in *; try lia.
  specialize (Hk x w1). lia.
Qed.

Lemma sends_at_most_try_except (a b : nat) {A} (m : M float A) (h : exn float -> M float A) :
  sends_at_most a m -> (forall e, sends_at_most b (h e)) ->
  sends_at_most (a + b) (try_except m h).
Proof.
  intros Hm Hh w. unfold try_except. specialize (Hm w).
  destruct (m w) as [[x|e|] w1]; cbn [snd] in *; try lia.
  specialize (Hh e w1). lia.
Qed.

Lemma sends_at_most_before (n : nat) {A B} (m : M float A) (k : A -> M float B) :
  respects same_sent m -> (forall x, sends_at_most n (k x)) -> sends_at_most n (bind m k).
Proof.
  intros Hm Hk. apply (sends_at_most_bind 0 n); [now apply sends_at_most_quiet|exact Hk].
Qed.

Lemma sends_at_most_after (n : nat) {A B} (m : M float A) (k : A -> M float B) :
  sends_at_most n m -> (forall x, respects same_sent (k x)) -> sends_at_most n (bind m k).
Proof.
  intros Hm Hk. replace n with (n + 0)%nat by lia.
  apply sends_at_most_bind; [exact Hm|]. intros x. now apply sends_at_most_quiet.
Qed.

Lemma sends_at_most_returning (n : nat) {A} (wrap : A -> records float) (m : M float A) :
  sends_at_most n m -> sends_at_most n (returning wrap m).
Proof.
  intros Hm. apply sends_at_most_after; [exact Hm|]. intros x.
  apply respects_ret, same_sent_refl.
Qed.
End Budget.

(** One step of a proof that a computation keeps to its number of requests:
    the steps before and after the one that sends are silent. *)
Ltac budget_step :=
  first
    [ apply sends_at_most_send
    | apply sends_at_most_returning
    | apply sends_at_most_quiet; solve [respects_tac]
    | apply sends_at_most_before; [solve [respects_tac] | intros ?]
    | apply sends_at_most_after; [| intros ?; solve [respects_tac]]
    | match goal with
      | |- sends_at_most _ (if ?b then _ else _) => destruct b
      | |- sends_at_most _ (match ?x with _ => _ end) => destruct x
      end ].

Section RequestBudget.
Context {float : Type} {py : Python float}.

Lemma juhe_request_budget (t : string) (req : request) :
  sends_at_most 1 (Api.juhe_request (float := float) t req).
Proof. unfold Api.juhe_request. repeat budget_step. Qed.

Lemma get_prices_sina_budget (t s e : string) :
  sends_at_most 1 (ApiEast.get_prices_sina (float := float) t s e).
Proof. unfold ApiEast.get_prices_sina. repeat budget_step. Qed.

Lemma get_prices_eastmoney_budget (t s e : string) :
  sends_at_most 1 (ApiEast.get_prices_eastmoney (float := float) t s e).
Proof. unfold ApiEast.get_prices_eastmoney. repeat budget_step. Qed.

Lemma get_financial_metrics_eastmoney_budget (t : string) (n : Z) :
  sends_at_most 1 (ApiEast.get_financial_metrics_eastmoney (float := float) t n).
Proof. unfold ApiEast.get_financial_metrics_eastmoney. repeat budget_step. Qed.

Lemma run_fetch_budget (p : provider) (fuel : nat) (c : call) (n : nat) :
  request_budget p c = Some n -> sends_at_most n (run_fetch (float := float) p fuel c).
Proof.
  intros Hn.
  destruct p, c; cbn [request_budget] in Hn; inversion Hn; subst; cbn [run_fetch];
    apply sends_at_most_returning;
    unfold Api.get_prices_fetch, Api.get_financial_metrics_fetch,
      Api.get_insider_trades_fetch, Api.get_company_news_fetch,
      ApiEast.get_prices_fetch, ApiEast.get_financial_metrics_fetch.
  1-4: apply sends_at_most_before; [solve [respects_tac] | intros ?];
       apply sends_at_most_after; [apply juhe_request_budget | intros ?; solve [respects_tac]].
  - destruct (strptime_mktime start_date); [destruct (strptime_mktime end_date)|];
      try (apply sends_at_most_quiet; solve [respects_tac]).
    apply (sends_at_most_try_except 1 1); [apply get_prices_sina_budget|]. intros _.
    apply (sends_at_most_try_except 1 0); [apply get_prices_eastmoney_budget|]. intros x.
    apply sends_at_most_quiet; solve [respects_tac].
  - apply (sends_at_most_try_except 1 0); [apply get_financial_metrics_eastmoney_budget|].
    intros x. apply sends_at_most_quiet; solve [respects_tac].
Qed.

Lemma run_budget (p : provider) (fuel : nat) (c : call) (n : nat) :
  request_budget p c = Some n -> sends_at_most n (run (float := float) p fuel c).
Proof.
  intros Hn w. rewrite run_cache_block. destruct (some _); [cbn [snd]; lia|].
  now apply run_fetch_budget.
Qed.

Lemma returning_world {A} (wrap : A -> records float) (m : M float A) (w : World float) :
  snd (returning wrap m w) = snd (m w).
Proof. unfold returning, bind, ret. now destruct (m w) as [[a|x|] w1]. Qed.

Lemma get_financial_metrics_budget (p : provider) (t e per : string) (n : Z) :
  sends_at_most 1
    (match p with
     | Juhe => Api.get_financial_metrics (float := float) t e per n
     | East => ApiEast.get_financial_metrics t e per n
     end).
Proof.
  intros w. pose proof (run_budget p 0 (GetFinancialMetrics t e per n) 1) as H.
  destruct p; specialize (H eq_refl w); cbn [run] in H; now rewrite returning_world in H.
Qed.

(** X4.  No call of api.py sends more than one request, and neither does
    [get_financial_metrics] of api_east.py; [get_prices] of api_east.py sends
    at most two, one to each of its sources.  [get_market_cap] sends at most
    one request in api.py and at most two in api_east.py, and
    [search_line_items] at most one in both files.  (A call answered from
    the cache sends none.) *)
Theorem X4_request_budget (p : provider) (fuel : nat) (c : call) (t e per : string)
    (li : list string) (n : Z) (w : World float) :
  match request_budget p c with
  | Some k => (length (sent (snd (run p fuel c w))) <= length (sent w) + k)%nat
  | None => True
  end
  /\ (length (sent (snd (Api.get_market_cap t e w))) <= length (sent w) + 1)%nat
  /\ (length (sent (snd (ApiEast.get_market_cap t e w))) <= length (sent w) + 2)%nat
  /\ (length (sent (snd (Api.search_line_items t li e per n w))) <= length (sent w) + 1)%nat
  /\ (length (sent (snd (ApiEast.search_line_items t li e per n w)))
      <= length (sent w) + 1)%nat.
Proof.
  split; [|split; [|split; [|split]]].
  - destruct (request_budget p c) as [k|] eqn:E; [|exact I]. now apply run_budget.
  - revert w. change (sends_at_most 1 (Api.get_market_cap t e)).
    unfold Api.get_market_cap. apply sends_at_most_after.
    + apply (get_financial_metrics_budget Juhe).
    + intros x. respects_tac.
  - revert w. change (sends_at_most 2 (ApiEast.get_market_cap t e)).
    unfold ApiEast.get_market_cap.
    apply (sends_at_most_try_except 2 0); [|intros x; apply sends_at_most_quiet; respects_tac].
    unfold ApiEast.get_market_cap_try. cbn zeta.
    apply (sends_at_most_bind 1 1); [apply sends_at_most_send|]. intros response.
    do 3 (apply sends_at_most_before; [solve [respects_tac] | intros ?]).
    destruct (py_truthy _); [apply sends_at_most_quiet; respects_tac|].
    apply sends_at_most_after; [apply (get_financial_metrics_budget East)|].
    intros l. respects_tac.
  - revert w. change (sends_at_most 1 (Api.search_line_items t li e per n)).
    unfold Api.search_line_items.
    apply sends_at_most_before; [solve [respects_tac] | intros ?].
    apply sends_at_most_after; [apply juhe_request_budget | intros ?; solve [respects_tac]].
  - revert w. change (sends_at_most (float := float) 1 (ApiEast.search_line_items t li e per n)).
    unfold ApiEast.search_line_items. repeat budget_step.
Qed.
End RequestBudget.

(** ** api_east.py: the two sources of prices, and the errors that come out *)

Section Fallback.
Context {float : Type} {py : Python float}.

Lemma returning_result {A} (wrap : A -> records float) (m : M float A) (w : World float) :
  fst (returning wrap m w) =
    match fst (m w) with
    | Ok a => Ok (wrap a)
    | Raise x => Raise x
    | Diverge => Diverge
    end.
Proof. unfold returning, bind, ret. now destruct (m w) as [[a|x|] w1]. Qed.

(** The nested [try] of [get_prices]: the second source is asked when the
    first one failed, and only then; its error is the one that comes out. *)
Lemma get_prices_fetch_chain (t s e : string) (w : World float) :
  fetch_is_live East (GetPrices t s e) w = true ->
  ApiEast.get_prices_fetch t s e w =
    match ApiEast.get_prices_sina t s e w with
    | (Raise _, w1) =>
        match ApiEast.get_prices_eastmoney t s e w1 with
        | (Raise x2, w2) => (Raise (PriceFetchFailed t x2), w2)
        | r => r
        end
    | r => r
    end.
Proof.
  cbn [fetch_is_live]. unfold ApiEast.get_prices_fetch. intros Hlive.
  destruct (strptime_mktime s); [|discriminate]. destruct (strptime_mktime e); [|discriminate].
  unfold try_except, raise.
  destruct (ApiEast.get_prices_sina t s e w) as [[l|x1|] w1]; try reflexivity.
Qed.

(** X5.  The fallback of [get_prices] of api_east.py, and the errors of the
    two functions that wrap them.  When Sina answers with prices, they are
    the result and Eastmoney is not asked.  When Sina fails, in whatever
    way, the error is dropped and the result is that of Eastmoney.  An error
    comes out of [get_prices] only when a date does not parse (before any
    request) or when both sources failed, and then it names the ticker and
    carries the error of the second source; an error that comes out of
    [get_financial_metrics] names the ticker and carries the error of its
    one source. *)
Theorem X5_east_fallback_and_errors (t s e per : string) (n : Z) (w : World float) :
  let sina := ApiEast.get_prices_sina t s e w in
  let eastmoney := ApiEast.get_prices_eastmoney t s e (snd sina) in
  (fetch_is_live East (GetPrices t s e) w = true ->
   (forall l, fst sina = Ok l -> ApiEast.get_prices_fetch t s e w = sina)
   /\ (forall x1 l, fst sina = Raise x1 -> fst eastmoney = Ok l ->
                    ApiEast.get_prices_fetch t s e w = eastmoney))
  /\ (forall x, fst (ApiEast.get_prices t s e w) = Raise x ->
        (x = ValueError /\ fetch_is_live East (GetPrices t s e) w = false)
        \/ exists x1 x2, fst sina = Raise x1 /\ fst eastmoney = Raise x2
                         /\ x = PriceFetchFailed t x2)
  /\ (forall x, fst (ApiEast.get_financial_metrics t e per n w) = Raise x ->
        exists x1, fst (ApiEast.get_financial_metrics_eastmoney t n w) = Raise x1
                   /\ x = MetricsFetchFailed t x1).
Proof.
  intros sina eastmoney. split; [|split].
  - intros Hlive. rewrite (get_prices_fetch_chain t s e w Hlive).
    fold sina. split.
    + intros l Hl. destruct sina as [[l'|x|] w1]; cbn [fst] in Hl; try discriminate.
      reflexivity.
    + intros x1 l Hx Hl. subst eastmoney.
      destruct sina as [[l'|x|] w1]; cbn [fst snd] in *; try discriminate.
      destruct (ApiEast.get_prices_eastmoney t s e w1) as [[l'|x'|] w2]; cbn [fst] in Hl;
        try discriminate.
      reflexivity.
  - intros x Hx.
    pose proof (run_cache_block East 0 (GetPrices t s e) w) as Hrun.
    apply (f_equal fst) in Hrun. cbn [run] in Hrun. rewrite returning_result, Hx in Hrun.
    destruct (some _); [discriminate|]. cbn [run_fetch] in Hrun.
    rewrite returning_result in Hrun.
    destruct (fetch_is_live East (GetPrices t s e) w) eqn:Hlive.
    + right. rewrite (get_prices_fetch_chain t s e w Hlive) in Hrun.
      fold sina in Hrun. subst eastmoney.
      destruct sina as [[l|x1|] w1]; cbn [fst snd] in *; try discriminate.
      destruct (ApiEast.get_prices_eastmoney t s e w1) as [[l|x2|] w2]; cbn [fst] in *;
        try discriminate.
      exists x1, x2. repeat split. congruence.
    + left. pose proof (run_fetch_refused East 0 (GetPrices t s e) w Hlive) as Href.
      cbn [run_fetch fetch_refusal] in Href. apply (f_equal fst) in Href.
      rewrite returning_result in Href. cbn [fst] in Href.
      destruct (fst (ApiEast.get_prices_fetch t s e w)); try discriminate.
      split; [congruence|reflexivity].
  - intros x Hx.
    pose proof (run_cache_block East 0 (GetFinancialMetrics t e per n) w) as Hrun.
    apply (f_equal fst) in Hrun. cbn [run] in Hrun. rewrite returning_result, Hx in Hrun.
    destruct (some _); [discriminate|]. cbn [run_fetch] in Hrun.
    rewrite returning_result in Hrun.
    unfold ApiEast.get_financial_metrics_fetch, try_except, raise in Hrun.
    destruct (ApiEast.get_financial_metrics_eastmoney t n w) as [[l|x1|] w1]; cbn [fst] in *;
      try discriminate.
    exists x1. split; [reflexivity|congruence].
Qed.
End Fallback.

(** Sina answers 500; Eastmoney has one day of 600000. *)
Definition fallback_world : World Scenario.F :=
  mkWorld _ ∅
    (Scenario.answers
       [Scenario.status 500 "Internal Server Error";
        Scenario.ok_json
          (JDict [("data", JDict [("klines", JList [JStr "2023-01-03,10,11,12,9,1000,11000"])])])])
    Scenario.no_cache [].

Lemma X5_witness :
  ApiEast.get_prices_fetch "600000" "2023-01-01" "2023-01-05" fallback_world
  = ApiEast.get_prices_eastmoney "600000" "2023-01-01" "2023-01-05"
      (after_request (SinaHisdata "sh600000" "2023-01-01" "2023-01-05") fallback_world)
  /\ sent (snd (ApiEast.get_prices_fetch "600000" "2023-01-01" "2023-01-05" fallback_world))
     = [EastmoneyKline "1" "600000" "20230101" "20230105";
        SinaHisdata "sh600000" "2023-01-01" "2023-01-05"].
Proof.
  split; [|reflexivity].
  exact (proj2 (proj1 (X5_east_fallback_and_errors "600000" "2023-01-01" "2023-01-05" "ttm" 10
                         fallback_world) eq_refl)
           (HTTPError 500) _ eq_refl eq_refl).
Defined.

(** ** api_east.py: where a market cap can come from *)

Section Answers.
Context {float : Type} {py : Python float}.

(** The computations without a loop always answer. *)
Lemma rbind_answers {A B} (r : result float A) (k : A -> result float B) :
  r <> Diverge -> (forall a, k a <> Diverge) -> rbind r k <> Diverge.
Proof. intros Hr Hk. destruct r; cbn [rbind]; [apply Hk|discriminate|congruence]. Qed.

Lemma py_get_answers (v : json float) (k : string) (d : json float) :
  py_get v k d <> Diverge.
Proof. destruct v; discriminate. Qed.

Lemma py_iter_answers (v : json float) : py_iter v <> Diverge.
Proof. destruct v; discriminate. Qed.

Lemma py_slice_to_answers (n : Z) (v : json float) : py_slice_to n v <> Diverge.
Proof. destruct v; discriminate. Qed.

Lemma response_json_answers (r : Response float) : response_json r <> Diverge.
Proof. unfold response_json. destruct (body r); discriminate. Qed.

Lemma raise_for_status_answers (r : Response float) : raise_for_status r <> Diverge.
Proof. unfold raise_for_status. destruct (_ && _); discriminate. Qed.

Lemma east_metric_of_item_answers (t : string) (item : json float) :
  ApiEast.metric_of_item t item <> Diverge.
Proof.
  unfold ApiEast.metric_of_item.
  repeat (apply rbind_answers;
          [first [apply py_get_answers | apply field_str_answers
                 | apply field_opt_float_answers] | intros ?]).
  discriminate.
Qed.

Lemma east_metrics_fetch_answers (t e per : string) (n : Z) (w : World float) :
  fst (ApiEast.get_financial_metrics_fetch t e per n w) <> Diverge.
Proof.
  unfold ApiEast.get_financial_metrics_fetch, try_except,
    ApiEast.get_financial_metrics_eastmoney, bind at 1, requests_send.
  destruct (transport w (length (sent w)) (EastmoneyZYZB t)) as [|r]; [discriminate|].
  unfold bind at 1, lift at 1.
  pose proof (raise_for_status_answers r) as H1.
  destruct (raise_for_status r) as [[]|x|]; [|discriminate|congruence].
  unfold bind at 1, lift at 1.
  pose proof (response_json_answers r) as H2.
  destruct (response_json r) as [data|x|]; [|discriminate|congruence].
  unfold bind at 1, lift at 1.
  match goal with
  | |- context [rbind ?a ?k] =>
      assert (H3 : rbind a k <> Diverge)
        by (repeat (apply rbind_answers;
                    [first [apply py_get_answers | apply py_slice_to_answers] | intros ?]);
            apply py_iter_answers);
      destruct (rbind a k) as [items|x|]; [|discriminate|congruence]
  end.
  unfold bind at 1, lift at 1.
  pose proof (for_each_answers (ApiEast.metric_of_item t) items
                (east_metric_of_item_answers t)) as H4.
  destruct (for_each (ApiEast.metric_of_item t) items) as [l|x|]; [|discriminate|congruence].
  unfold bind, ret. destruct (Py.nonempty l); discriminate.
Qed.

Lemma quote_f116_answers (a : reply float) : quote_f116 a <> Diverge.
Proof.
  unfold quote_f116. destruct a as [|r]; [discriminate|].
  apply rbind_answers; [apply raise_for_status_answers|]. intros _.
  apply rbind_answers; [apply response_json_answers|]. intros data.
  apply rbind_answers; [apply py_get_answers | intros d; apply py_get_answers].
Qed.

(** The records [get_financial_metrics] of api_east.py builds have no market
    cap, and carry the ticker of the call. *)
Lemma east_metric_of_item_fields (t : string) (item : json float)
    (m : FinancialMetrics.t float) :
  ApiEast.metric_of_item t item = Ok (Some m) ->
  FinancialMetrics.market_cap m = None /\ FinancialMetrics.ticker m = t.
Proof.
  unfold ApiEast.metric_of_item. intros H. ok_steps H. inversion H; subst. now split.
Qed.

Lemma east_metrics_fetch_fields (t e per : string) (n : Z) :
  returns (Forall (fun m => FinancialMetrics.market_cap m = None
                            /\ FinancialMetrics.ticker m = t))
    (ApiEast.get_financial_metrics_fetch (float := float) t e per n).
Proof.
  unfold ApiEast.get_financial_metrics_fetch, ApiEast.get_financial_metrics_eastmoney.
  returns_tac;
    (eapply for_each_Forall; [apply east_metric_of_item_fields | eassumption]).
Qed.

(** X6.  [get_market_cap] of api_east.py has two sources of a value, the
    quote endpoint and the cache of financial metrics: the records its own
    [get_financial_metrics] builds from the network are made with
    [market_cap=None].  So when the quote endpoint fails or answers without a
    market cap, and the cache has no financial metrics of the ticker up to
    [end_date], the call returns [None], whatever the financial metrics
    endpoint answers. *)
Theorem X6_east_market_cap_sources (t e : string) (w : World float) :
  match quote_f116 (transport w (length (sent w)) (quote_request t)) with
  | Ok v => py_truthy v = false
  | _ => True
  end ->
  some (selected (GetFinancialMetrics t e "ttm" 10)
          (cache_entry (GetFinancialMetrics t e "ttm" 10) (cache w))) = false ->
  fst (ApiEast.get_market_cap t e w) = Ok None.
Proof.
  intros Hq Hmiss. unfold ApiEast.get_market_cap, try_except.
  rewrite get_market_cap_try_quote. cbn zeta.
  pose proof (quote_f116_answers (transport w (length (sent w)) (quote_request t))) as Hnd.
  destruct (quote_f116 _) as [v|x|]; [|reflexivity|congruence].
  rewrite Hq.
  set (w1 := after_request (quote_request t) w).
  assert (Hm : ApiEast.get_financial_metrics t e "ttm" 10 w1
               = ApiEast.get_financial_metrics_fetch t e "ttm" 10 w1).
  { apply (returning_inj Metrics); [intros a b H; now inversion H|].
    exact (run_miss East 0 (GetFinancialMetrics t e "ttm" 10) w1 Hmiss). }
  rewrite Hm.
  pose proof (east_metrics_fetch_fields t e "ttm" 10 w1) as Hf.
  pose proof (east_metrics_fetch_answers t e "ttm" 10 w1) as Ha.
  destruct (ApiEast.get_financial_metrics_fetch t e "ttm" 10 w1) as [[l|x|] w2];
    cbn [fst] in *; [|reflexivity|congruence].
  specialize (Hf l w2 eq_refl). destruct Hf as [|m l' [Hcap _] _]; [reflexivity|].
  unfold metrics_cap. now rewrite Hcap.
Qed.
End Answers.

(** The quote endpoint answers without a market cap; the financial metrics
    endpoint has a report of 600000. *)
Definition no_quote_world : World Scenario.F :=
  mkWorld _ ∅
    (Scenario.answers
       [Scenario.ok_json (JDict [("data", JDict [("f57", JStr "600000")])]);
        Scenario.ok_json
          (JDict [("data", JList [JDict [("REPORT_DATE", JStr "2022-12-31");
                                          ("TOTAL_OPERATE_INCOME", JInt 1000);
                                          ("PARENT_NETPROFIT", JInt 100);
                                          ("BASIC_EPS", JInt 1)]])])])
    Scenario.no_cache [].

Lemma X6_witness :
  fst (ApiEast.get_market_cap "600000" "2023-01-05" no_quote_world) = Ok None.
Proof.
  exact (X6_east_market_cap_sources "600000" "2023-01-05" no_quote_world eq_refl eq_refl).
Defined.

(** ** The ticker of the records a fetch builds *)

Definition tickers {float : Type} (r : records float) : list string :=
  match r with
  | Prices l => map Price.ticker l
  | Metrics l => map FinancialMetrics.ticker l
  | Trades l => map InsiderTrade.ticker l
  | News l => map CompanyNews.ticker l
  end.

(** The insider trades whose transaction date is their filing date. *)
Definition filed_on_transaction {float : Type} (r : records float) : Prop :=
  match r with
  | Trades l =>
      Forall (fun x => InsiderTrade.transaction_date x = Some (InsiderTrade.filing_date x)) l
  | _ => True
  end.

Section Tickers.
Context {float : Type} {py : Python float}.

Lemma juhe_price_of_item_ticker (t : string) (item : json float) (y : Price.t float) :
  Api.price_of_item t item = Ok (Some y) -> Price.ticker y = t.
Proof. unfold Api.price_of_item. intros H. ok_steps H. now inversion H. Qed.

Lemma juhe_metric_of_item_ticker (t : string) (item : json float)
    (y : FinancialMetrics.t float) :
  Api.metric_of_item t item = Ok (Some y) -> FinancialMetrics.ticker y = t.
Proof. unfold Api.metric_of_item. intros H. ok_steps H. now inversion H. Qed.

Lemma juhe_trade_of_item_fields (t : string) (s : option string) (e : string)
    (item : json float) (y : InsiderTrade.t float) :
  Api.trade_of_item t s e item = Ok (Some y) ->
  InsiderTrade.ticker y = t
  /\ InsiderTrade.transaction_date y = Some (InsiderTrade.filing_date y).
Proof. unfold Api.trade_of_item. intros H. ok_steps H. inversion H. now split. Qed.

Lemma juhe_news_of_item_ticker (t : string) (s : option string) (e : string)
    (item : json float) (y : CompanyNews.t) :
  Api.news_of_item t s e item = Ok (Some y) -> CompanyNews.ticker y = t.
Proof. unfold Api.news_of_item. intros H. ok_steps H. now inversion H. Qed.

Lemma east_price_of_item_ticker (t : string) (item : json float) (y : Price.t float) :
  ApiEast.price_of_item t item = Ok (Some y) -> Price.ticker y = t.
Proof. unfold ApiEast.price_of_item. intros H. ok_steps H. now inversion H. Qed.

Lemma east_price_of_kline_ticker (t : string) (kline : json float) (y : Price.t float) :
  ApiEast.price_of_kline t kline = Ok (Some y) -> Price.ticker y = t.
Proof.
  unfold ApiEast.price_of_kline. intros H. destruct kline; try discriminate.
  ok_steps H. now inversion H.
Qed.

(** What a fetch that builds its records itself promises about them. *)
Definition built_for (p : provider) (c : call) (r : records float) : Prop :=
  Forall (fun t => t = ticker_of c) (tickers r)
  /\ (p = Juhe -> filed_on_transaction r).

(** X7.  The records a fetch builds from the answer of the provider carry
    the ticker of the call, whatever the answer says: all four fetches of
    api.py, and [get_prices] and [get_financial_metrics] of api_east.py (the
    two paginated fetches of api_east.py return the records as the provider
    has them).  The insider trades api.py builds have their filing date as
    transaction date. *)
Theorem X7_records_carry_the_ticker (p : provider) (fuel : nat) (c : call)
    (w w' : World float) (r : records float) :
  p = Juhe \/ paginated c = false ->
  run_fetch p fuel c w = (Ok r, w') ->
  Forall (fun t => t = ticker_of c) (tickers r)
  /\ (p = Juhe -> filed_on_transaction r).
Proof.
  intros Hp. revert w r w'.
  change (returns (built_for p c) (run_fetch p fuel c)).
  destruct p, c; cbn [paginated] in Hp;
    try (destruct Hp as [Hp|Hp]; discriminate Hp);
    cbn [run_fetch];
    unfold Api.get_prices_fetch, Api.get_financial_metrics_fetch,
      Api.get_insider_trades_fetch, Api.get_company_news_fetch,
      ApiEast.get_prices_fetch, ApiEast.get_prices_sina, ApiEast.get_prices_eastmoney,
      ApiEast.get_financial_metrics_fetch, ApiEast.get_financial_metrics_eastmoney;
    returns_tac;
    unfold built_for; cbn [tickers filed_on_transaction ticker_of];
    (split; [|try (intros _; exact I); try (intros H'; discriminate H')]);
    try (apply List.Forall_map);
    try (apply slice_to_Forall, sort_desc_Forall);
    try (intros _; apply slice_to_Forall, sort_desc_Forall);
    try solve [constructor];
    (eapply for_each_Forall; [|eassumption]); cbn beta; intros x y Hxy.
  - now apply juhe_price_of_item_ticker in Hxy.
  - now apply juhe_metric_of_item_ticker in Hxy.
  - now apply juhe_trade_of_item_fields in Hxy.
  - now apply juhe_trade_of_item_fields in Hxy.
  - now apply juhe_news_of_item_ticker in Hxy.
  - now apply east_price_of_item_ticker in Hxy.
  - now apply east_price_of_kline_ticker in Hxy.
  - now apply east_metric_of_item_fields in Hxy.
Qed.
End Tickers.

(** Juhe has one change of holdings of 600000 in the range. *)
Definition juhe_trades_world : World Scenario.F :=
  mkWorld _ {[ "JUHE_API_KEY" := "k" ]}
    (Scenario.answers
       [Scenario.ok_json
          (JDict [("error_code", JInt 0);
                  ("result",
                   JDict [("data", JList [JDict [("date", JStr "2023-01-03");
                                                  ("name", JStr "A. Director");
                                                  ("position", JStr "Director");
                                                  ("change_type", JStr "Buy");
                                                  ("change_shares", JInt 100)]])])])])
    Scenario.no_cache [].

Lemma X7_witness :
  let r := Trades [Scenario.trade "600000" "2023-01-03" (Some "2023-01-03")] in
  Forall (fun t => t = "600000") (tickers r) /\ (Juhe = Juhe -> filed_on_transaction r).
Proof.
  intros r.
  exact (X7_records_carry_the_ticker Juhe 0
           (GetInsiderTrades "600000" "2023-01-05" (Some "2023-01-01") 1000)
           juhe_trades_world _ r (or_introl eq_refl) eq_refl).
Defined.

(** ** An empty start date *)

Section EmptyStart.
Context {float : Type} {py : Python float}.

Lemma in_range_empty_start (e d : string) :
  Api.in_range (Some "") e d = Api.in_range None e d.
Proof.
  unfold Api.in_range, Py.ge. pose proof (le_empty d) as H. unfold Py.le in H.
  now rewrite H.
Qed.

Lemma selected_empty_start (c c' : call) (r : records float) :
  (exists t e n, c = GetInsiderTrades t e (Some "") n /\ c' = GetInsiderTrades t e None n)
  \/ (exists t e n, c = GetCompanyNews t e (Some "") n /\ c' = GetCompanyNews t e None n) ->
  selected c r = selected c' r /\ cache_answer c r = cache_answer c' r.
Proof.
  intros [(t & e & n & -> & ->)|(t & e & n & -> & ->)]; unfold cache_answer;
    destruct r; cbn [selected]; try (split; reflexivity);
    rewrite (filter_ext _ _ (fun x => in_range_empty_start e _)); split; reflexivity.
Qed.

(** X8.  An empty [start_date] is no start date.  [get_insider_trades] and
    [get_company_news], in both files, test the lower bound of the cached
    records with [start_date is None or ...] and that of the request with
    [if start_date]; with the empty string, which no date is below, the two
    tests come to the same, and the call does in every world exactly what it
    does without a start date: the same result, the same requests, the same
    cache. *)
Theorem X8_empty_start_date (p : provider) (fuel : nat) (t e : string) (n : Z)
    (w : World float) :
  run p fuel (GetInsiderTrades t e (Some "") n) w = run p fuel (GetInsiderTrades t e None n) w
  /\ run p fuel (GetCompanyNews t e (Some "") n) w = run p fuel (GetCompanyNews t e None n) w.
Proof.
  split; rewrite !run_cache_block.
  - destruct (selected_empty_start (GetInsiderTrades t e (Some "") n)
                (GetInsiderTrades t e None n)
                (cache_entry (GetInsiderTrades t e None n) (cache w))) as [Hs Ha];
      [left; now exists t, e, n|].
    change (cache_entry (GetInsiderTrades t e (Some "") n) (cache w))
      with (cache_entry (GetInsiderTrades t e None n) (cache w)).
    rewrite Hs, Ha. destruct (some _); [reflexivity|].
    destruct p; [reflexivity|]. cbn [run_fetch]. unfold ApiEast.get_insider_trades_fetch.
    destruct fuel; reflexivity.
  - destruct (selected_empty_start (GetCompanyNews t e (Some "") n)
                (GetCompanyNews t e None n)
                (cache_entry (GetCompanyNews t e None n) (cache w))) as [Hs Ha];
      [right; now exists t, e, n|].
    change (cache_entry (GetCompanyNews t e (Some "") n) (cache w))
      with (cache_entry (GetCompanyNews t e None n) (cache w)).
    rewrite Hs, Ha. destruct (some _); [reflexivity|].
    destruct p; [reflexivity|]. cbn [run_fetch]. unfold ApiEast.get_company_news_fetch.
    destruct fuel; reflexivity.
Qed.
End EmptyStart.

(** ** The table of prices *)

Section PriceTable.
Context {float : Type} {py : Python float}.












End PriceTable.




(** ** search_line_items *)

Section LineItems.
Context {float : Type} {py : Python float}.

Lemma slice_to_nil {A} (n : Z) : Py.slice_to n (@nil A) = [].
Proof. unfold Py.slice_to. destruct (0 <=? n); apply firstn_nil. Qed.

(** X10.  [search_line_items] of api.py never finds anything: it asks Juhe
    for the reports of the ticker, checks the answer, and cuts an empty list
    to [limit].  Whenever it returns, it returns the empty list; the line
    items, the end date, the period and the limit it is called with change
    nothing to what it does; and it leaves the cache as it is. *)
Theorem X10_juhe_line_items_empty (t : string) (li : list string) (e per : string) (n : Z)
    (w : World float) :
  (forall r w', Api.search_line_items t li e per n w = (Ok r, w') -> r = [])
  /\ (forall li' e' per' n',
        Api.search_line_items t li' e' per' n' w = Api.search_line_items t li e per n w)
  /\ cache (snd (Api.search_line_items t li e per n w)) = cache w.
Proof.
  split; [|split].
  - assert (H : returns (fun r => r = []) (Api.search_line_items (float := float) t li e per n)).
    { unfold Api.search_line_items. returns_tac. apply slice_to_nil. }
    intros r w'. apply H.
  - intros li' e' per' n'. unfold Api.search_line_items. cbn zeta.
    now rewrite !slice_to_nil.
  - revert w. change (respects same_cache (Api.search_line_items (float := float) t li e per n)).
    unfold Api.search_line_items. respects_tac.
Qed.

(** [search_line_items] of api_east.py, step by step. *)
Lemma east_search_line_items_steps (t : string) (li : list string) (e per : string) (n : Z)
    (w : World float) :
  let rq := FdLineItems (fd_key w) t li e per n in
  ApiEast.search_line_items t li e per n w =
    (match transport w (length (sent w)) rq with
     | NoReply => Raise ConnectionError
     | Reply resp =>
         if negb (status_code resp =? 200)
         then Raise (FetchFailed t (status_code resp) (text resp))
         else
           let? data := response_json resp in
           let? l := ApiEast.LineItemResponse data in
           Ok (Py.slice_to n l)
     end, after_request rq w).
Proof.
  intros rq. unfold ApiEast.search_line_items.
  rewrite (bind_ok _ _ _ _ (fd_headers_eq w)). fold rq.
  unfold bind at 1, requests_send. fold (after_request rq w).
  destruct (transport w (length (sent w)) rq) as [|resp]; [reflexivity|].
  destruct (negb (status_code resp =? 200)); [reflexivity|].
  unfold bind, lift. destruct (response_json resp) as [data|x|]; try reflexivity.
  cbn [rbind]. destruct (ApiEast.LineItemResponse data) as [l|x|]; try reflexivity.
  cbn [rbind]. destruct l; [now rewrite slice_to_nil|reflexivity].
Qed.

(** X11.  [search_line_items] of api_east.py always sends its one request,
    with the key when one is configured, and never touches the cache.  When
    it returns, the provider answered with status 200 and a body the
    response model accepts, and the result is the [search_results] of that
    body cut to [limit]: at most [limit] line items when [limit] is not
    negative. *)
Theorem X11_east_line_items (t : string) (li : list string) (e per : string) (n : Z)
    (w : World float) :
  let rq := FdLineItems (fd_key w) t li e per n in
  sent (snd (ApiEast.search_line_items t li e per n w)) = rq :: sent w
  /\ cache (snd (ApiEast.search_line_items t li e per n w)) = cache w
  /\ (forall r w',
        ApiEast.search_line_items t li e per n w = (Ok r, w') ->
        (exists resp data l,
            transport w (length (sent w)) rq = Reply resp
            /\ status_code resp = 200
            /\ body resp = Some data
            /\ ApiEast.LineItemResponse data = Ok l
            /\ r = Py.slice_to n l)
        /\ (0 <= n -> Z.of_nat (length r) <= n)).
Proof.
  intros rq. rewrite (east_search_line_items_steps t li e per n w). fold rq.
  split; [reflexivity|]. split; [reflexivity|]. intros r w' H.
  destruct (transport w (length (sent w)) rq) as [|resp]; [discriminate H|].
  destruct (status_code resp =? 200) eqn:Es; cbn [negb] in H; [|discriminate H].
  apply Z.eqb_eq in Es. unfold response_json in H.
  destruct (body resp) as [data|] eqn:Eb; [|discriminate H]. cbn [rbind] in H.
  destruct (ApiEast.LineItemResponse data) as [l|x|] eqn:El; try discriminate H.
  cbn [rbind] in H. inversion H; subst. split.
  - exists resp, data, l. repeat split; assumption.
  - intros Hn. now apply slice_to_length.
Qed.
End LineItems.

(** Juhe answers the request of [search_line_items] with two reports. *)
Definition reports_world : World Scenario.F :=
  mkWorld _ {[ "JUHE_API_KEY" := "k" ]}
    (Scenario.answers
       [Scenario.ok_json
          (JDict [("error_code", JInt 0);
                  ("result", JDict [("data", JList [JDict [("date", JStr "2023-03-31");
                                                             ("total_market_cap", JInt 100)];
                                                     JDict [("date", JStr "2022-12-31");
                                                             ("total_market_cap", JInt 90)]])])])])
    Scenario.no_cache [].

Lemma X10_witness :
  fst (Api.search_line_items "600000" ["revenue"] "2023-01-05" "ttm" 10 reports_world)
  = Ok (@nil (LineItem.t Scenario.F))
  /\ @nil (LineItem.t Scenario.F) = [].
Proof.
  split; [reflexivity|].
  exact (proj1 (X10_juhe_line_items_empty "600000" ["revenue"] "2023-01-05" "ttm" 10
                  reports_world)
           [] _ eq_refl).
Defined.

(** financialdatasets answers with two line items, and [limit] is 1. *)
Definition line_items_world : World Scenario.F :=
  mkWorld _ {[ "FINANCIAL_DATASETS_API_KEY" := "k" ]}
    (Scenario.answers
       [Scenario.ok_json
          (JDict [("search_results",
                   JList [JDict [("ticker", JStr "AAPL"); ("period", JStr "ttm");
                                 ("revenue", JInt 100)];
                          JDict [("ticker", JStr "AAPL"); ("period", JStr "ttm");
                                 ("revenue", JInt 90)]])])])
    Scenario.no_cache [].

Lemma X11_witness :
  (Z.of_nat (length [LineItem.mk Scenario.F "AAPL" "ttm"
                       [("ticker", JStr "AAPL"); ("period", JStr "ttm");
                        ("revenue", JInt 100)]]) <= 1)%Z.
Proof.
  refine (proj2 (proj2 (proj2 (X11_east_line_items "AAPL" ["revenue"] "2023-01-05" "ttm" 1
                                 line_items_world))
                   _ _ eq_refl) _).
  lia.
Defined.

(** ** api_east.py: a call without a start date *)

Section SinglePage.
Context {float : Type} {py : Python float}.

Lemma paginate_single_page {A} (request_for : string -> request)
    (decode : json float -> result float (list A)) (key : A -> string) (t : string)
    (s : option string) (n : Z) (fuel : nat) (cur : string) (w : World float) :
  ApiEast.url_start s = None ->
  paginate request_for decode key t s n (S fuel) [] cur w =
    match page_of decode t (transport w (length (sent w)) (request_for cur)) with
    | Ok page => (Ok page, after_request (request_for cur) w)
    | Raise x => (Raise x, after_request (request_for cur) w)
    | Diverge => (Diverge, after_request (request_for cur) w)
    end.
Proof.
  intros Hs. rewrite paginate_step. cbn zeta.
  destruct (page_of decode t _) as [page|x|]; try reflexivity.
  unfold last_page. rewrite Hs, orb_true_r. now destruct page.
Qed.

(** X12.  Without a start date ([None], or the empty string),
    [get_insider_trades] and [get_company_news] of api_east.py send exactly
    one request, for the dates up to [end_date], and the result is the page
    of the answer as the response model reads it, however many records it
    has: it is stored in the cache when it has records, and the cache is left
    alone when it has none.  An answer that is not a page (no answer, a
    status other than 200, a body the model refuses) is the error of the
    call. *)
Theorem X12_single_page (fuel : nat) (t e : string) (s : option string) (n : Z)
    (w : World float) :
  ApiEast.url_start s = None ->
  (let rq := FdInsiderTrades (fd_key w) t e None n in
   ApiEast.get_insider_trades_fetch (S fuel) t e s n w =
     match page_of ApiEast.InsiderTradeResponse t (transport w (length (sent w)) rq) with
     | Ok page =>
         (Ok page,
          mkWorld float (environ w) (transport w)
            (if Py.nonempty page
             then cache_set (GetInsiderTrades t e s n) (Trades page) (cache w)
             else cache w)
            (rq :: sent w))
     | Raise x => (Raise x, after_request rq w)
     | Diverge => (Diverge, after_request rq w)
     end)
  /\ (let rq := FdNews (fd_key w) t e None n in
      ApiEast.get_company_news_fetch (S fuel) t e s n w =
        match page_of ApiEast.CompanyNewsResponse t (transport w (length (sent w)) rq) with
        | Ok page =>
            (Ok page,
             mkWorld float (environ w) (transport w)
               (if Py.nonempty page
                then cache_set (GetCompanyNews t e s n) (News page) (cache w)
                else cache w)
               (rq :: sent w))
        | Raise x => (Raise x, after_request rq w)
        | Diverge => (Diverge, after_request rq w)
        end).
Proof.
  intros Hs. split; cbn zeta.
  - unfold ApiEast.get_insider_trades_fetch.
    rewrite (bind_ok _ _ _ _ (fd_headers_eq w)). unfold bind at 1.
    rewrite insider_trades_loop_paginate, (paginate_single_page _ _ _ _ _ _ _ _ _ Hs), Hs.
    destruct (page_of _ _ _) as [page|x|]; try reflexivity.
    now destruct page.
  - unfold ApiEast.get_company_news_fetch.
    rewrite (bind_ok _ _ _ _ (fd_headers_eq w)). unfold bind at 1.
    rewrite company_news_loop_paginate, (paginate_single_page _ _ _ _ _ _ _ _ _ Hs), Hs.
    destruct (page_of _ _ _) as [page|x|]; try reflexivity.
    now destruct page.
Qed.
End SinglePage.

Lemma X12_witness :
  fst (ApiEast.get_insider_trades_fetch 1 "AAPL" "2023-01-05" (Some "") 1000 late_filing_world)
  = Ok [Scenario.trade "AAPL" "2023-01-03" (Some "2022-12-28")].
Proof.
  exact (f_equal fst (proj1 (X12_single_page 0 "AAPL" "2023-01-05" (Some "") 1000
                               late_filing_world eq_refl))).
Defined.

(** ** api.py: from the items of the answer to the result *)

Section JuheItems.
Context {float : Type} {py : Python float}.

(** The loop of a fetch of api.py over the items of the answer, and what
    the fetch makes of the list the loop built. *)
Definition juhe_result (c : call) (items : list (json float)) : result float (records float) :=
  match c with
  | GetPrices t _ _ =>
      let? prices := for_each (Api.price_of_item t) items in Ok (Prices prices)
  | GetFinancialMetrics t _ _ n =>
      let? financial_metrics := for_each (Api.metric_of_item t) (Py.slice_to n items) in
      Ok (Metrics financial_metrics)
  | GetInsiderTrades t e s n =>
      let? all_trades := for_each (Api.trade_of_item t s e) items in
      Ok (Trades (Py.slice_to n (Py.sort_desc InsiderTrade.effective_date all_trades)))
  | GetCompanyNews t e s n =>
      let? all_news := for_each (Api.news_of_item t s e) items in
      Ok (News (Py.slice_to n (Py.sort_desc CompanyNews.date all_news)))
  end.

(** An answer of Juhe that passes the two checks and holds a list of
    items. *)
Definition juhe_answer (c : call) (w : World float) (items : list (json float)) : Prop :=
  key_truthy (environ w !! "JUHE_API_KEY") = true
  /\ exists resp data code,
       transport w (length (sent w)) (first_request Juhe c w) = Reply resp
       /\ status_code resp = 200
       /\ body resp = Some data
       /\ py_get data "error_code" JNull = Ok code
       /\ py_ne_zero code = false
       /\ Api.result_data data = Ok (JList items).

Lemma juhe_fetch_of_items (fuel : nat) (c : call) (w : World float)
    (items : list (json float)) :
  juhe_answer c w items ->
  fst (run_fetch Juhe fuel c w) = juhe_result c items.
Proof.
  intros (Hkey & resp & data & code & Hr & Hs & Hb & Hc & Hz & Hd).
  destruct c; cbn [run_fetch first_request juhe_result] in *;
    unfold Api.get_prices_fetch, Api.get_financial_metrics_fetch,
      Api.get_insider_trades_fetch, Api.get_company_news_fetch;
    rewrite (returning_bind_ok _ _ _ _ _ (juhe_api_key_live w Hkey));
    rewrite returning_result; unfold bind at 1;
    rewrite (juhe_request_passes _ _ w resp data code Hr Hs Hb Hc Hz);
    unfold bind at 1, lift at 1; rewrite Hd; cbn [rbind py_slice_to py_iter];
    unfold bind at 1, lift at 1;
    match goal with |- context [for_each ?f ?l] => destruct (for_each f l) as [r|x|] end;
    cbn [rbind fst]; try reflexivity;
    destruct r; cbn [Py.sort_desc]; rewrite ?slice_to_nil; reflexivity.
Qed.

(** The fetches whose loop tests the date of an item. *)
Definition tests_dates (c : call) : bool :=
  match c with
  | GetInsiderTrades _ _ _ _ | GetCompanyNews _ _ _ _ => true
  | _ => false
  end.

(** An item the loop of [get_insider_trades] and [get_company_news] passes
    over: its date is a string outside the bounds. *)
Definition skipped (s : option string) (e : string) (item : json float) : bool :=
  match py_get item "date" JNull with
  | Ok (JStr d) => Api.out_of_range s e d
  | _ => false
  end.

Lemma for_each_skip {A B} (f : A -> result float (option B)) (skip : A -> bool)
    (l : list A) :
  (forall x, skip x = true -> f x = Ok None) ->
  for_each f (List.filter (fun x => negb (skip x)) l) = for_each f l.
Proof.
  intros Hf. induction l as [|x l IH]; simpl; [reflexivity|].
  destruct (skip x) eqn:E; cbn [negb].
  - rewrite (Hf x E). cbn [rbind]. rewrite IH. now destruct (for_each f l).
  - simpl. now rewrite IH.
Qed.

Lemma trade_of_item_skipped (t : string) (s : option string) (e : string)
    (item : json float) :
  skipped s e item = true -> Api.trade_of_item t s e item = Ok None.
Proof.
  unfold skipped, Api.trade_of_item.
  destruct (py_get item "date" JNull) as [[]|x|]; try discriminate.
  intros H. cbn [rbind py_comparable]. now rewrite H.
Qed.

Lemma news_of_item_skipped (t : string) (s : option string) (e : string)
    (item : json float) :
  skipped s e item = true -> Api.news_of_item t s e item = Ok None.
Proof.
  unfold skipped, Api.news_of_item.
  destruct (py_get item "date" JNull) as [[]|x|]; try discriminate.
  intros H. cbn [rbind py_comparable]. now rewrite H.
Qed.

(** X13.  The network path of [get_insider_trades] and [get_company_news] of
    api.py looks at the date of an item before anything else, and passes
    over the item when the date is outside the bounds.  So the result, or
    the error, of the call is that of the items in the bounds alone, mapped
    in their order, sorted most recent first and cut to [limit]: an item out
    of the bounds changes nothing, whatever its other fields hold. *)
Theorem X13_juhe_items_out_of_range (fuel : nat) (c : call) (w : World float)
    (items : list (json float)) :
  tests_dates c = true ->
  juhe_answer c w items ->
  fst (run_fetch Juhe fuel c w)
  = juhe_result c
      (List.filter (fun item => negb (skipped (start_date_of c) (end_date_of c) item)) items).
Proof.
  intros Hc Ha. rewrite (juhe_fetch_of_items fuel c w items Ha).
  destruct c; try discriminate; cbn [juhe_result start_date_of end_date_of];
    rewrite for_each_skip; try reflexivity; intros x.
  - apply trade_of_item_skipped.
  - apply news_of_item_skipped.
Qed.

(** *** An item that cannot be mapped *)

Lemma py_float_answers (v : json float) : py_float v <> Diverge.
Proof.
  destruct v; cbn; try discriminate;
    match goal with |- context [match ?x with _ => _ end] => destruct x end; discriminate.
Qed.

Lemma py_comparable_answers (v : json float) : py_comparable v <> Diverge.
Proof. destruct v; discriminate. Qed.

Lemma float_if_truthy_answers (item : json float) (k : string) :
  Api.float_if_truthy item k <> Diverge.
Proof.
  unfold Api.float_if_truthy. apply rbind_answers; [apply py_get_answers|]. intros v.
  destruct (py_truthy v); [|discriminate].
  apply rbind_answers; [apply py_get_answers|]. intros v'.
  apply rbind_answers; [apply py_float_answers|]. discriminate.
Qed.

(** The body of the loop of the call, on one item. *)
Definition juhe_item (c : call) (item : json float) : result float unit :=
  match c with
  | GetPrices t _ _ => let? _ := Api.price_of_item t item in Ok tt
  | GetFinancialMetrics t _ _ _ => let? _ := Api.metric_of_item t item in Ok tt
  | GetInsiderTrades t e s _ => let? _ := Api.trade_of_item t s e item in Ok tt
  | GetCompanyNews t e s _ => let? _ := Api.news_of_item t s e item in Ok tt
  end.

(** The items the loop of the call runs over. *)
Definition juhe_items (c : call) (items : list (json float)) : list (json float) :=
  match c with
  | GetFinancialMetrics _ _ _ n => Py.slice_to n items
  | _ => items
  end.

Ltac answers_tac :=
  repeat first
    [ apply py_get_answers | apply py_float_answers | apply py_comparable_answers
    | apply field_str_answers | apply float_if_truthy_answers
    | apply rbind_answers; [| intros ?]
    | match goal with |- (if ?b then _ else _) <> Diverge => destruct b end
    | discriminate ].

Lemma juhe_item_answers (c : call) (item : json float) : juhe_item c item <> Diverge.
Proof.
  destruct c; cbn [juhe_item];
    unfold Api.price_of_item, Api.metric_of_item, Api.trade_of_item, Api.news_of_item;
    answers_tac.
Qed.

Lemma for_each_fails {A B} (f : A -> result float (option B)) (l : list A) (x : A)
    (e : exn float) :
  (forall a, f a <> Diverge) -> In x l -> f x = Raise e ->
  exists e', for_each f l = Raise e'.
Proof.
  intros Hf Hin Hx. induction l as [|a l IH]; [destruct Hin|]. simpl.
  destruct Hin as [->|Hin].
  - rewrite Hx. now eexists.
  - specialize (Hf a). destruct (f a) as [y|e'|]; cbn [rbind]; [|now eexists|congruence].
    destruct (IH Hin) as [e' ->]. cbn [rbind]. now eexists.
Qed.

(** X14.  All or nothing.  When one of the items a fetch of api.py runs over
    cannot be mapped (for a price, say, a field that is missing or is not a
    number), the whole call fails: no record of the other items is
    returned, and nothing is written to the cache. *)
Theorem X14_juhe_item_fails (fuel : nat) (c : call) (w : World float)
    (items : list (json float)) (item : json float) (x : exn float) :
  juhe_answer c w items ->
  In item (juhe_items c items) ->
  juhe_item c item = Raise x ->
  (exists x', fst (run_fetch Juhe fuel c w) = Raise x')
  /\ cache (snd (run_fetch Juhe fuel c w)) = cache w.
Proof.
  intros Ha Hin Hx.
  assert (Hr : exists x', fst (run_fetch Juhe fuel c w) = Raise x').
  { rewrite (juhe_fetch_of_items fuel c w items Ha).
    pose proof (juhe_item_answers c) as Hnd.
    destruct c; cbn [juhe_result juhe_items juhe_item] in *;
      match goal with
      | |- context [for_each ?f ?l] =>
          destruct (for_each_fails f l item x) as [x' ->];
            [ intros a; specialize (Hnd a); destruct (f a); cbn [rbind] in Hnd; congruence
            | exact Hin
            | destruct (f item); cbn [rbind] in Hx; congruence
            | cbn [rbind]; now eexists ]
      end. }
  split; [exact Hr|]. destruct Hr as [x' Hr].
  apply fetch_failure_leaves_cache. intros r. rewrite Hr. discriminate.
Qed.
End JuheItems.

(** Juhe has two news of 600000: one in the range asked for, and one from
    before it whose title is not even a string. *)
Definition old_news_world : World Scenario.F :=
  mkWorld _ {[ "JUHE_API_KEY" := "k" ]}
    (Scenario.answers
       [Scenario.ok_json
          (JDict [("error_code", JInt 0);
                  ("result",
                   JDict [("data",
                           JList [JDict [("date", JStr "2022-12-01"); ("title", JInt 7)];
                                  JDict [("date", JStr "2023-01-03");
                                         ("title", JStr "in range");
                                         ("url", JStr "https://example.com/a");
                                         ("source", JStr "Example");
                                         ("content", JStr "")]])])])])
    Scenario.no_cache [].

Lemma X13_witness :
  fst (run_fetch Juhe 0 (GetCompanyNews "600000" "2023-01-05" (Some "2023-01-01") 10)
         old_news_world)
  = Ok (News [Scenario.news "600000" "2023-01-03" "in range"]).
Proof.
  refine (X13_juhe_items_out_of_range 0
            (GetCompanyNews "600000" "2023-01-05" (Some "2023-01-01") 10) old_news_world
            [JDict [("date", JStr "2022-12-01"); ("title", JInt 7)];
             JDict [("date", JStr "2023-01-03"); ("title", JStr "in range");
                    ("url", JStr "https://example.com/a"); ("source", JStr "Example");
                    ("content", JStr "")]]
            eq_refl _).
  split; [reflexivity|]. do 3 eexists. repeat split; reflexivity.
Defined.

(** Juhe has two days of 600000; the second one comes without its opening
    price. *)
Definition broken_item_world : World Scenario.F :=
  mkWorld _ {[ "JUHE_API_KEY" := "k" ]}
    (Scenario.answers
       [Scenario.ok_json
          (JDict [("error_code", JInt 0);
                  ("result",
                   JDict [("data",
                           JList [JDict [("date", JStr "2023-01-03"); ("open", JStr "10");
                                         ("high", JStr "12"); ("low", JStr "9");
                                         ("close", JStr "11"); ("volume", JStr "1000")];
                                  JDict [("date", JStr "2023-01-04");
                                         ("high", JStr "12"); ("low", JStr "9");
                                         ("close", JStr "11"); ("volume", JStr "1000")]])])])])
    Scenario.no_cache [].

(** The first day is mapped, the second is not: the call fails, and the
    first day is neither returned nor stored. *)
Lemma X14_witness :
  let c := GetPrices "600000" "2023-01-01" "2023-01-05" in
  (exists x', fst (run_fetch Juhe 0 c broken_item_world) = Raise x')
  /\ cache (snd (run_fetch Juhe 0 c broken_item_world)) = cache broken_item_world.
Proof.
  intros c.
  apply (X14_juhe_item_fails 0 c broken_item_world
           [JDict [("date", JStr "2023-01-03"); ("open", JStr "10");
                   ("high", JStr "12"); ("low", JStr "9");
                   ("close", JStr "11"); ("volume", JStr "1000")];
            JDict [("date", JStr "2023-01-04");
                   ("high", JStr "12"); ("low", JStr "9");
                   ("close", JStr "11"); ("volume", JStr "1000")]]
           (JDict [("date", JStr "2023-01-04");
                   ("high", JStr "12"); ("low", JStr "9");
                   ("close", JStr "11"); ("volume", JStr "1000")])
           TypeError).
  - split; [reflexivity|]. do 3 eexists. repeat split; reflexivity.
  - right. left. reflexivity.
  - reflexivity.
Defined.

(** ** api_east.py: the second page *)

Section SecondPage.
Context {float : Type} {py : Python float}.

Lemma paginate_two_pages {A} (request_for : string -> request)
    (decode : json float -> result float (list A)) (key : A -> string) (t : string)
    (s : option string) (n : Z) (fuel : nat) (cur : string) (w : World float)
    (page1 page2 : list A) :
  let rq1 := request_for cur in
  let rq2 := request_for (next_cursor key page1) in
  page_of decode t (transport w (length (sent w)) rq1) = Ok page1 ->
  last_page key s n page1 = false ->
  page_of decode t (transport w (S (length (sent w))) rq2) = Ok page2 ->
  last_page key s n page2 = true ->
  paginate request_for decode key t s n (S (S fuel)) [] cur w
  = (Ok (page1 ++ page2), after_request rq2 (after_request rq1 w)).
Proof.
  intros rq1 rq2 H1 L1 H2 L2. rewrite paginate_step. cbn zeta. fold rq1.
  rewrite H1, L1, paginate_step. cbn zeta.
  cbn [after_request sent transport length app]. fold rq2. rewrite H2, L2.
  destruct page2; [now rewrite app_nil_r|reflexivity].
Qed.

Lemma last_page_nonempty {A} (key : A -> string) (s : option string) (n : Z)
    (page rest : list A) :
  last_page key s n page = false -> Py.nonempty (page ++ rest) = true.
Proof. unfold last_page. destruct page; [discriminate|reflexivity]. Qed.

(** X15.  How [get_insider_trades] and [get_company_news] of api_east.py
    turn the page.  When the first page does not end the loop (it is full,
    and its oldest date is still after the start date), the second request
    asks for the dates up to that oldest date, cut at its ["T"]; when the
    second page ends the loop, the result is the records of the first page
    followed by those of the second, in the order the provider sent them,
    and this list is what the cache holds afterwards. *)
Theorem X15_second_page (fuel : nat) (t e : string) (s : option string) (n : Z)
    (w : World float) :
  (forall page1 page2 : list (InsiderTrade.t float),
      let rq1 := FdInsiderTrades (fd_key w) t e (ApiEast.url_start s) n in
      let rq2 := FdInsiderTrades (fd_key w) t
                   (Py.split_head "T" (Py.min_of (map InsiderTrade.filing_date page1)))
                   (ApiEast.url_start s) n in
      page_of ApiEast.InsiderTradeResponse t (transport w (length (sent w)) rq1) = Ok page1 ->
      last_page InsiderTrade.filing_date s n page1 = false ->
      page_of ApiEast.InsiderTradeResponse t (transport w (S (length (sent w))) rq2)
      = Ok page2 ->
      last_page InsiderTrade.filing_date s n page2 = true ->
      ApiEast.get_insider_trades_fetch (S (S fuel)) t e s n w
      = (Ok (page1 ++ page2),
         mkWorld float (environ w) (transport w)
           (cache_set (GetInsiderTrades t e s n) (Trades (page1 ++ page2)) (cache w))
           (rq2 :: rq1 :: sent w)))
  /\ (forall page1 page2 : list CompanyNews.t,
        let rq1 := FdNews (fd_key w) t e (ApiEast.url_start s) n in
        let rq2 := FdNews (fd_key w) t
                     (Py.split_head "T" (Py.min_of (map CompanyNews.date page1)))
                     (ApiEast.url_start s) n in
        page_of ApiEast.CompanyNewsResponse t (transport w (length (sent w)) rq1) = Ok page1 ->
        last_page CompanyNews.date s n page1 = false ->
        page_of ApiEast.CompanyNewsResponse t (transport w (S (length (sent w))) rq2)
        = Ok page2 ->
        last_page CompanyNews.date s n page2 = true ->
        ApiEast.get_company_news_fetch (S (S fuel)) t e s n w
        = (Ok (page1 ++ page2),
           mkWorld float (environ w) (transport w)
             (cache_set (GetCompanyNews t e s n) (News (page1 ++ page2)) (cache w))
             (rq2 :: rq1 :: sent w))).
Proof.
  split; intros page1 page2 rq1 rq2 H1 L1 H2 L2.
  - unfold ApiEast.get_insider_trades_fetch.
    rewrite (bind_ok _ _ _ _ (fd_headers_eq w)). unfold bind at 1.
    rewrite insider_trades_loop_paginate.
    rewrite (paginate_two_pages _ _ _ _ _ _ _ _ _ page1 page2 H1 L1 H2 L2).
    now rewrite (last_page_nonempty _ _ _ _ page2 L1).
  - unfold ApiEast.get_company_news_fetch.
    rewrite (bind_ok _ _ _ _ (fd_headers_eq w)). unfold bind at 1.
    rewrite company_news_loop_paginate.
    rewrite (paginate_two_pages _ _ _ _ _ _ _ _ _ page1 page2 H1 L1 H2 L2).
    now rewrite (last_page_nonempty _ _ _ _ page2 L1).
Qed.
End SecondPage.

(** financialdatasets has two insider trades of AAPL, and [limit] is 1: the
    first page holds the trade filed on 2023-01-04, the second one the trade
    filed on 2023-01-01, the start date. *)
Definition two_pages_world : World Scenario.F :=
  let page filing_date :=
    JDict [("insider_trades",
            JList [JDict [("ticker", JStr "AAPL"); ("filing_date", JStr filing_date);
                          ("transaction_date", JNull);
                          ("insider_name", JStr "A. Director");
                          ("insider_title", JStr "Director");
                          ("transaction_type", JStr "Buy"); ("shares", JInt 100)]])] in
  mkWorld _ ∅
    (Scenario.answers [Scenario.ok_json (page "2023-01-04T09:30:00");
                       Scenario.ok_json (page "2023-01-01")])
    Scenario.no_cache [].

Lemma X15_witness :
  let out := ApiEast.get_insider_trades_fetch 2 "AAPL" "2023-01-05" (Some "2023-01-01") 1
               two_pages_world in
  fst out = Ok [Scenario.trade "AAPL" "2023-01-04T09:30:00" None;
                Scenario.trade "AAPL" "2023-01-01" None]
  /\ sent (snd out) = [FdInsiderTrades None "AAPL" "2023-01-04" (Some "2023-01-01") 1;
                       FdInsiderTrades None "AAPL" "2023-01-05" (Some "2023-01-01") 1].
Proof.
  intros out.
  pose proof (proj1 (X15_second_page 0 "AAPL" "2023-01-05" (Some "2023-01-01") 1
                       two_pages_world)
                [Scenario.trade "AAPL" "2023-01-04T09:30:00" None]
                [Scenario.trade "AAPL" "2023-01-01" None]
                eq_refl eq_refl eq_refl eq_refl) as H.
  subst out. rewrite H. split; reflexivity.
Defined.

(** ** A limit that is zero or negative *)

Section Limits.
Context {float : Type} {py : Python float}.

Lemma slice_to_count {A} (n : Z) (l : list A) :
  Z.of_nat (length (Py.slice_to n l))
  = if 0 <=? n then Z.min n (Z.of_nat (length l))
    else Z.max 0 (Z.of_nat (length l) + n).
Proof.
  unfold Py.slice_to. destruct (Z.leb_spec 0 n); rewrite length_firstn; lia.
Qed.

(** X16.  [limit] is handed to a slice, [filtered_data[:limit]], so it may
    be anything.  When [get_financial_metrics] is answered from the cache
    (in both files), it returns the reports up to [end_date], most recent
    first, cut by the slice: the [limit] first ones when [limit] is not
    negative (none for 0, although the cache had some), and all but the
    [-limit] oldest ones when [limit] is negative.  No request is sent and
    the cache is not written. *)
Theorem X16_limit_slice (p : provider) (fuel : nat) (t e per : string) (n : Z)
    (w : World float) :
  let found :=
    Py.sort_desc FinancialMetrics.report_period
      (List.filter (fun m => Py.le (FinancialMetrics.report_period m) e)
         (cached_records (financial_metrics (cache w) !! t))) in
  Py.nonempty found = true ->
  exists l,
    run p fuel (GetFinancialMetrics t e per n) w = (Ok (Metrics l), w)
    /\ (exists rest, found = l ++ rest)
    /\ Z.of_nat (length l)
       = (if 0 <=? n then Z.min n (Z.of_nat (length found))
          else Z.max 0 (Z.of_nat (length found) + n)).
Proof.
  intros found Hf. exists (Py.slice_to n found).
  split; [|split].
  - rewrite run_cache_block. cbn [cache_entry selected cache_answer].
    unfold some, cache_answer. cbn [selected dates]. fold found.
    now rewrite nonempty_map, Hf.
  - unfold Py.slice_to. destruct (0 <=? n); eexists; symmetry; apply firstn_skipn.
  - apply slice_to_count.
Qed.
End Limits.

(** The two reports of the cache, asked for with [limit] -1: the older one
    is dropped. *)
Definition two_reports_world : World Scenario.F :=
  mkWorld _ ∅ Scenario.silence
    (mkCache _ ∅
       {[ "600000" := [Scenario.metric "600000" "2022-06-30" None;
                        Scenario.metric "600000" "2022-09-30" None] ]} ∅ ∅) [].

Lemma X16_witness :
  exists l,
    run Juhe 0 (GetFinancialMetrics "600000" "2023-01-05" "ttm" (-1)) two_reports_world
    = (Ok (Metrics l), two_reports_world)
    /\ (exists rest, [Scenario.metric "600000" "2022-09-30" None;
                      Scenario.metric "600000" "2022-06-30" None] = l ++ rest)
    /\ Z.of_nat (length l) = 1.
Proof.
  exact (X16_limit_slice Juhe 0 "600000" "2023-01-05" "ttm" (-1) two_reports_world eq_refl).
Defined.

(** ** The key a request carries *)

(** The key the requests of a call carry: that of Juhe in api.py; in
    api_east.py that of financialdatasets, when one is configured, for
    insider trades and news, and none for prices and financial metrics. *)
Definition key_sent {float : Type} (p : provider) (c : call) (w : World float)
  : option string :=
  match p, c with
  | Juhe, _ => Some (juhe_key w)
  | East, GetInsiderTrades _ _ _ _ | East, GetCompanyNews _ _ _ _ => fd_key w
  | East, _ => None
  end.

Section Keys.
Context {float : Type} {py : Python float}.

(** From [w] to [w'], only requests that satisfy [P] were sent. *)
Definition only_sends (P : request -> Prop) (w w' : World float) : Prop :=
  exists new, sent w' = new ++ sent w /\ Forall P new.

Lemma only_sends_refl P w : only_sends P w w.
Proof. exists []. split; [reflexivity|constructor]. Qed.

Lemma only_sends_trans P w1 w2 w3 :
  only_sends P w1 w2 -> only_sends P w2 w3 -> only_sends P w1 w3.
Proof.
  intros (n1 & S1 & F1) (n2 & S2 & F2). exists (n2 ++ n1). split.
  - rewrite S2, S1. apply app_assoc.
  - apply Forall_app. now split.
Qed.

Lemma only_sends_set P : closed_under_set (only_sends P).
Proof. intros w f. exists []. split; [reflexivity|constructor]. Qed.

Lemma respects_send_only (P : request -> Prop) (req : request) :
  P req -> respects (only_sends P) (requests_send req).
Proof.
  intros HP w. exists [req]. split; [|now repeat constructor].
  unfold requests_send. now destruct (transport w (length (sent w)) req).
Qed.
End Keys.

#[global] Hint Resolve only_sends_refl only_sends_trans only_sends_set : world.

Ltac only_sends_tac :=
  repeat first
    [ apply respects_send_only; reflexivity
    | respects_step
    | progress respects_unfold ].

Section KeySent.
Context {float : Type} {py : Python float}.

Lemma loop_only_sends {A} (wrap : list A -> records float) (loop : M float (list A))
    (store : list A -> M float unit) (P : request -> Prop) (w : World float) :
  (forall l w, exists w', store l w = (Ok tt, w') /\ sent w' = sent w) ->
  only_sends P w (snd (loop w)) ->
  only_sends P w
    (snd (returning wrap
            (let* all := loop in
             if negb (Py.nonempty all) then ret [] else store all ;; ret all) w)).
Proof.
  intros Hs (new & Hnew & Hall). exists new. split; [|exact Hall].
  destruct (fetch_after_loop wrap loop store w Hs) as [Hsent _]. cbn zeta in Hsent.
  now rewrite Hsent.
Qed.

(** X18.  The requests of a call carry the key of their provider and no
    other: every request a call of api.py sends carries the value of
    [JUHE_API_KEY]; in api_east.py every page request of
    [get_insider_trades] and [get_company_news], the first as the later
    ones, carries the value of [FINANCIAL_DATASETS_API_KEY] when it is set
    and no key otherwise, and the requests of [get_prices] and
    [get_financial_metrics] carry no key at all. *)
Theorem X18_key_sent (p : provider) (fuel : nat) (c : call) (w : World float) :
  exists new,
    sent (snd (run p fuel c w)) = new ++ sent w
    /\ Forall (fun rq => api_key_of rq = key_sent p c w) new.
Proof.
  change (only_sends (fun rq => api_key_of rq = key_sent p c w) w (snd (run p fuel c w))).
  rewrite run_cache_block. destruct (some _); [apply only_sends_refl|].
  destruct p.
  - destruct (fetch_is_live Juhe c w) eqn:Hlive.
    + cbn [fetch_is_live] in Hlive.
      destruct c; cbn [run_fetch key_sent];
        unfold Api.get_prices_fetch, Api.get_financial_metrics_fetch,
          Api.get_insider_trades_fetch, Api.get_company_news_fetch;
        rewrite (returning_bind_ok _ _ _ _ _ (juhe_api_key_live w Hlive));
        match goal with
        | |- only_sends ?P ?w0 (snd (?m ?w0)) =>
            apply (fun H : respects (only_sends P) m => H w0)
        end;
        only_sends_tac.
    + rewrite (run_fetch_refused Juhe fuel c w Hlive). apply only_sends_refl.
  - destruct c; cbn [run_fetch key_sent].
    + match goal with
      | |- only_sends ?P ?w0 (snd (?m ?w0)) =>
          apply (fun H : respects (only_sends P) m => H w0)
      end.
      unfold ApiEast.get_prices_fetch, ApiEast.get_prices_sina, ApiEast.get_prices_eastmoney.
      only_sends_tac.
    + match goal with
      | |- only_sends ?P ?w0 (snd (?m ?w0)) =>
          apply (fun H : respects (only_sends P) m => H w0)
      end.
      unfold ApiEast.get_financial_metrics_fetch, ApiEast.get_financial_metrics_eastmoney.
      only_sends_tac.
    + unfold ApiEast.get_insider_trades_fetch.
      rewrite (returning_bind_ok _ _ _ _ _ (fd_headers_eq w)).
      apply (loop_only_sends Trades _ (fun l => cache_set_insider_trades ticker l));
        [intros l w0; eexists; split; reflexivity|].
      rewrite insider_trades_loop_paginate.
      destruct (paginate_cursors
                  (fun c => FdInsiderTrades (fd_key w) ticker c
                              (ApiEast.url_start start_date) limit)
                  ApiEast.InsiderTradeResponse InsiderTrade.filing_date ticker start_date
                  limit fuel [] end_date w) as (new & Hnew & Hall).
      exists new. split; [exact Hnew|]. eapply Forall_impl; [exact Hall|].
      intros rq (cur & -> & _). reflexivity.
    + unfold ApiEast.get_company_news_fetch.
      rewrite (returning_bind_ok _ _ _ _ _ (fd_headers_eq w)).
      apply (loop_only_sends News _ (fun l => cache_set_company_news ticker l));
        [intros l w0; eexists; split; reflexivity|].
      rewrite company_news_loop_paginate.
      destruct (paginate_cursors
                  (fun c => FdNews (fd_key w) ticker c (ApiEast.url_start start_date) limit)
                  ApiEast.CompanyNewsResponse CompanyNews.date ticker start_date
                  limit fuel [] end_date w) as (new & Hnew & Hall).
      exists new. split; [exact Hnew|]. eapply Forall_impl; [exact Hall|].
      intros rq (cur & -> & _). reflexivity.
Qed.
End KeySent.
